(** * GammaDetectorAnalyzer: the peak-fitting pipeline, embedded and verified

    A shallow embedding of [fitting_functions.py], [given_functions.py],
    [data_loading_functions.py], [GammaDetAnalyzer.py] and
    [OffAxisAnalyzer.py].

    Conventions of the embedding.
    - Python and NumPy floats are idealised as real numbers: rounding is
      not modelled.  Where the moment estimates leave the real numbers (a
      division by a zero sum, the root of a negative number) the result is
      the value [nonfinite] of [npfloat].  Integers (channels, counts, ROI
      bounds, measurement times) are [Z].
    - A Python exception is a value of [pyexn]; a function that may raise
      returns a [result].
    - The collaborators outside the pipeline (the line scanners of the two
      instrument formats, SciPy's [curve_fit], NumPy's [polyfit], the wall
      clock) are the fields of the class [Externals]; the general theorems
      hold for all of them.
    - The console output of [calibrate_detector] is a list of [message]s;
      the other prints and the plots are sinks and do not appear. *)

From Stdlib Require Import Reals Lra Lia ZArith String Bool List.
Import ListNotations.
Open Scope R_scope.

(* ===================================================================== *)
(** ** Exceptions and the error monad *)
(* ===================================================================== *)

Inductive pyexn : Type :=
| ValueError (msg : string)
| TypeError
| IndexError
| ZeroDivisionError
| OverflowError
| UnboundLocalError
| RuntimeError
| OSError.

Inductive result (A : Type) : Type :=
| Ok (a : A)
| Raise (e : pyexn).
Arguments Ok {A} a.
Arguments Raise {A} e.

Definition bind {A B : Type} (m : result A) (k : A -> result B) : result B :=
  match m with
  | Ok a => k a
  | Raise e => Raise e
  end.

Declare Scope result_scope.
Delimit Scope result_scope with result.
Notation "x <- m ;; k" := (bind m (fun x => k))
  (at level 61, m at next level, right associativity) : result_scope.
Notation "' p <- m ;; k" := (bind m (fun x => match x with p => k end))
  (at level 61, p pattern, m at next level, right associativity) : result_scope.
Open Scope result_scope.

(** A [for] loop whose body may raise, collecting one value per element. *)
Fixpoint mapM {A B : Type} (f : A -> result B) (l : list A) : result (list B) :=
  match l with
  | [] => Ok []
  | a :: l' => b <- f a ;; bs <- mapM f l' ;; Ok (b :: bs)
  end.

(** A [for] loop whose body updates an accumulator and may raise. *)
Fixpoint foldM {A S : Type} (f : S -> A -> result S) (l : list A) (s : S)
  : result S :=
  match l with
  | [] => Ok s
  | a :: l' => s' <- f s a ;; foldM f l' s'
  end.

(* ===================================================================== *)
(** ** The fragments of Python and NumPy the code uses *)
(* ===================================================================== *)

(** [max(x, y)] of two arguments: the first one unless the second is
    strictly greater. *)
Definition py_max (x y : R) : R := if Rlt_dec x y then y else x.

(** [min(seq)]: raises on an empty sequence, otherwise keeps the first
    element and replaces it by each strictly smaller one. *)
Definition py_min (l : list R) : result R :=
  match l with
  | [] => Raise (ValueError "min() arg is an empty sequence")
  | x :: l' => Ok (fold_left (fun m y => if Rlt_dec y m then y else m) l' x)
  end.

(** [list(range(n))]. *)
Definition py_range (n : nat) : list Z := map Z.of_nat (seq 0 n).

(** [seq[i]]. *)
Definition py_index {A : Type} (l : list A) (i : nat) : result A :=
  match nth_error l i with
  | Some a => Ok a
  | None => Raise IndexError
  end.

(** [np.sum]. *)
Definition np_sum (l : list R) : R := fold_right Rplus 0 l.

(** A NumPy float that may have left the real numbers: a real number, or
    one of [nan], [inf], [-inf], which NumPy returns (with a warning, not
    an exception) and which are kept apart from every real number. *)
Inductive npfloat : Type :=
| fin (r : R)
| nonfinite.

(** [a / b] on NumPy floats: over a zero divisor the quotient is [nan] or
    an infinity. *)
Definition np_true_divide (a b : R) : npfloat :=
  if Req_dec_T b 0 then nonfinite else fin (a / b).

(** Arithmetic with a NumPy float on one side.  An operation on [nan] or
    an infinity gives [nan] or an infinity: [x - nan], [inf ** 2],
    [inf * 0], [inf + -inf], [nan / b], ... *)
Definition nf_sub (a : R) (b : npfloat) : npfloat :=
  match b with
  | fin b => fin (a - b)
  | nonfinite => nonfinite
  end.

Definition nf_square (a : npfloat) : npfloat :=
  match a with
  | fin a => fin (a ^ 2)
  | nonfinite => nonfinite
  end.

Definition nf_mul (a : npfloat) (b : R) : npfloat :=
  match a with
  | fin a => fin (a * b)
  | nonfinite => nonfinite
  end.

Definition nf_add (a b : npfloat) : npfloat :=
  match a, b with
  | fin a, fin b => fin (a + b)
  | _, _ => nonfinite
  end.

(** [np.sum] of an array of NumPy floats. *)
Definition nf_sum (l : list npfloat) : npfloat := fold_right nf_add (fin 0) l.

Definition nf_divide (a : npfloat) (b : R) : npfloat :=
  match a with
  | fin a => np_true_divide a b
  | nonfinite => nonfinite
  end.

(** [np.sqrt] of a NumPy float: [nan] below zero. *)
Definition np_sqrt_float (v : npfloat) : npfloat :=
  match v with
  | fin r => if Rlt_dec r 0 then nonfinite else fin (sqrt r)
  | nonfinite => nonfinite
  end.

(** An elementwise binary operation on two one-dimensional arrays, with
    NumPy's broadcasting: equal lengths pair up, a length-one array is
    stretched, anything else is a shape error. *)
Definition np_map2 (op : R -> R -> R) (xs ys : list R) : result (list R) :=
  if Nat.eqb (length xs) (length ys) then
    Ok (map (fun p => op (fst p) (snd p)) (combine xs ys))
  else
    match xs, ys with
    | [x], _ => Ok (map (fun y => op x y) ys)
    | _, [y] => Ok (map (fun x => op x y) xs)
    | _, _ => Raise (ValueError "operands could not be broadcast together")
    end.

(** [np_map2] for arrays of any two kinds of elements. *)
Definition np_broadcast2 {A B C : Type} (op : A -> B -> C)
  (xs : list A) (ys : list B) : result (list C) :=
  if Nat.eqb (length xs) (length ys) then
    Ok (map (fun p => op (fst p) (snd p)) (combine xs ys))
  else
    match xs, ys with
    | [x], _ => Ok (map (fun y => op x y) ys)
    | _, [y] => Ok (map (fun x => op x y) xs)
    | _, _ => Raise (ValueError "operands could not be broadcast together")
    end.

(** [arr[mask]] for a boolean mask as long as the array. *)
Fixpoint np_mask_select {A : Type} (mask : list bool) (arr : list A) : list A :=
  match mask, arr with
  | b :: mask', a :: arr' =>
      if b then a :: np_mask_select mask' arr' else np_mask_select mask' arr'
  | _, _ => []
  end.

(** [np.diag] of a square matrix given by its rows. *)
Fixpoint np_diag_from (i : nat) (rows : list (list R)) : list R :=
  match rows with
  | [] => []
  | row :: rows' => nth i row 0 :: np_diag_from (S i) rows'
  end.
Definition np_diag (m : list (list R)) : list R := np_diag_from 0 m.

(** [np.sqrt] of an array. *)
Definition np_sqrt (l : list R) : list R := map sqrt l.

(** [d.get(key, default)] on a dict with float keys. *)
Fixpoint dict_get (d : list (R * R)) (key default : R) : R :=
  match d with
  | [] => default
  | (k, v) :: d' => if Req_dec_T k key then v else dict_get d' key default
  end.

(** A label of a spectrum: an isotope name or the ["Background"] sentinel
    (a string), or an angle in degrees (an integer). *)
Inductive label : Type :=
| LStr (s : string)
| LInt (n : Z).

(** [lbl == s] for a string [s]: an integer never equals a string. *)
Definition label_eqb (lbl : label) (s : string) : bool :=
  match lbl with
  | LStr t => String.eqb t s
  | LInt _ => false
  end.

(* ===================================================================== *)
(** ** fitting_functions.py *)
(* ===================================================================== *)

Definition TWO_PI : R := 2 * PI.

Definition normalized_gaussian (x mu sigma amplitude : R) : R :=
  amplitude * exp (-0.5 * ((x - mu) / sigma) ^ 2) / sqrt (TWO_PI * sigma ^ 2).

Definition normalized_double_gaussian
  (x mu1 sigma1 amp1 mu2 sigma2 amp2 : R) : R :=
  amp1 * exp (-0.5 * ((x - mu1) / sigma1) ^ 2) / sqrt (TWO_PI * sigma1 ^ 2) +
  amp2 * exp (-0.5 * ((x - mu2) / sigma2) ^ 2) / sqrt (TWO_PI * sigma2 ^ 2).

Definition continuum (x a b c : R) : R := a * x ^ 2 + b * x + c.

Definition combined_model_gaussian (x a b c mu sigma amplitude : R) : R :=
  continuum x a b c + normalized_gaussian x mu sigma amplitude.

Definition combined_model_double_gaussian
  (x a b c mu1 sigma1 amp1 mu2 sigma2 amp2 : R) : R :=
  continuum x a b c +
  normalized_double_gaussian x mu1 sigma1 amp1 mu2 sigma2 amp2.

Definition resolution_function (E a b c : R) : R :=
  sqrt (a * powerRZ E (-2) + b * powerRZ E (-1) + c).

Definition linear_model (x slope intercept : R) : R := slope * x + intercept.

(** The model functions as first-class values, the way they are handed to
    the solver and returned by [fit_peak]. *)
Inductive model_function : Type :=
| fn_combined_model_gaussian
| fn_combined_model_double_gaussian
| fn_resolution_function
| fn_linear_model.

(** [f(x, *params)]: a wrong number of parameters is a [TypeError]. *)
Definition call_model (f : model_function) (x : R) (params : list R)
  : result R :=
  match f, params with
  | fn_combined_model_gaussian, [a; b; c; mu; sigma; amplitude] =>
      Ok (combined_model_gaussian x a b c mu sigma amplitude)
  | fn_combined_model_double_gaussian,
    [a; b; c; mu1; sigma1; amp1; mu2; sigma2; amp2] =>
      Ok (combined_model_double_gaussian x a b c mu1 sigma1 amp1 mu2 sigma2 amp2)
  | fn_resolution_function, [a; b; c] => Ok (resolution_function x a b c)
  | fn_linear_model, [slope; intercept] => Ok (linear_model x slope intercept)
  | _, _ => Raise TypeError
  end.

(* ===================================================================== *)
(** ** given_functions.py *)
(* ===================================================================== *)

Definition first_moment (x y : list R) : result npfloat :=
  xy <- np_map2 Rmult x y ;;
  Ok (np_true_divide (np_sum xy) (np_sum y)).

Definition second_moment (x y : list R) : result npfloat :=
  x0 <- first_moment x y ;;
  d <- np_broadcast2 nf_mul (map (fun xi => nf_square (nf_sub xi x0)) x) y ;;
  Ok (nf_divide (nf_sum d) (np_sum y)).

(** Estimates the three parameters of a Gaussian distribution.  The
    channels are integers; [np.asarray] and the arithmetic with the count
    rates turn them into floats. *)
Definition gaussian_initial_estimates (channels : list Z) (counts : list R)
  : result (npfloat * npfloat * R) :=
  let channels := map IZR channels in
  mu0 <- first_moment channels counts ;;
  m2 <- second_moment channels counts ;;
  let sig0 := np_sqrt_float m2 in
  let a0 := np_sum counts in
  Ok (mu0, sig0, a0).

(** Boolean mask with value [true] for x in [[xmin, xmax)]. *)
Definition in_interval (x : list Z) (xmin xmax : Z) : list bool :=
  map (fun c => andb (xmin <=? c)%Z (c <? xmax)%Z) x.

Definition length_mismatch : pyexn :=
  ValueError "x and y must have the same length.".

(** Selects only elements of x and y where xmin <= x < xmax. *)
Definition filter_in_interval (x : list Z) (y : list R) (xmin xmax : Z)
  : result (list Z * list R) :=
  if negb (Nat.eqb (length x) (length y)) then Raise length_mismatch
  else
    let _mask := in_interval x xmin xmax in
    Ok (np_mask_select _mask x, np_mask_select _mask y).

(* ===================================================================== *)
(** ** Configuration data and external collaborators *)
(* ===================================================================== *)

(** One entry of the spectra tables of [given_data.py]:
    (file_path, isotope or angle, [(model_type, ROI_range)],
     measurement_time, energies). *)
Record spectrum : Type := {
  file_path : string;
  isotope : label;
  rois : list (string * (Z * Z));
  measurement_time : Z;
  energies : list R
}.

(** One entry of [source_data].  A [datetime] is the number of
    microseconds since the start of the calendar. *)
Record source_info : Type := {
  src_isotope : string;
  calibration_date : Z;
  initial_activity : R;
  half_life : R;
  emission_fractions : list (R * R)
}.

Record geometry : Type := {
  detector_radius : R;
  source_distance : R
}.

(** A bound of the solver's box: a number or an infinity. *)
Inductive bound : Type :=
| Finite (r : R)
| PosInf
| NegInf.

(** One call of [scipy.optimize.curve_fit]: the positional arguments
    [f, xdata, ydata] and the keywords the code passes. *)
Record solver_call : Type := {
  sc_f : model_function;
  sc_xdata : list R;
  sc_ydata : list R;
  sc_p0 : option (list npfloat);
  sc_bounds : option (bound * bound);
  sc_maxfev : option Z
}.

Class Externals : Type := {
  (** the scan of an SPE file between ["$DATA:"] and the next ["$"] line *)
  read_spe_counts : string -> result (list Z);
  (** the scan of an MCA file between ["<<DATA>>"] and the next ["<<"] line *)
  read_mca_counts : string -> result (list Z);
  (** [curve_fit], returning [(popt, pcov)] *)
  curve_fit : solver_call -> result (list R * list (list R));
  (** [np.polyfit(x, y, deg)], highest power first *)
  polyfit : list R -> list R -> nat -> result (list R);
  (** [datetime.now()] as read in the i-th iteration of a loop *)
  now : nat -> Z
}.

(* ===================================================================== *)
(** ** data_loading_functions.py *)
(* ===================================================================== *)

Section DataLoading.
Context {ext : Externals}.

(** The least magnitude that rounds to no float: [2^1024 - 2^970]. *)
Definition float_overflow : Z := Eval vm_compute in (2 ^ 1024 - 2 ^ 970)%Z.

(** [count / measurement_time] on two Python integers: a zero divisor
    raises, and so does a quotient too large for a float. *)
Definition py_truediv (count measurement_time : Z) : result R :=
  if (measurement_time =? 0)%Z then Raise ZeroDivisionError
  else if (float_overflow * Z.abs measurement_time <=? Z.abs count)%Z
       then Raise OverflowError
  else Ok (IZR count / IZR measurement_time).

Definition load_spe_file (file_path : string) (measurement_time : Z)
  : result (list Z * list R) :=
  counts <- read_spe_counts file_path ;;
  count_rates <- mapM (fun count => py_truediv count measurement_time) counts ;;
  let channels := py_range (length count_rates) in
  Ok (channels, count_rates).

Definition load_mca_file (file_path : string) (measurement_time : Z)
  : result (list Z * list R) :=
  counts <- read_mca_counts file_path ;;
  count_rates <- mapM (fun count => py_truediv count measurement_time) counts ;;
  let channels := py_range (length count_rates) in
  Ok (channels, count_rates).

(** Loads background data from a spectrum designated as background.
    [None] is Python's [None]. *)
Fixpoint load_background (spectra : list spectrum) (CdTe : bool)
  : result (option (list R)) :=
  match spectra with
  | [] => Ok None
  | spectrum :: spectra' =>
      if label_eqb (isotope spectrum) "Background" then
        if CdTe then
          '(_, bg_count_rates) <-
            load_mca_file (file_path spectrum) (measurement_time spectrum) ;;
          Ok (Some bg_count_rates)
        else
          '(_, bg_count_rates) <-
            load_spe_file (file_path spectrum) (measurement_time spectrum) ;;
          Ok (Some bg_count_rates)
      else load_background spectra' CdTe
  end.

(** [[max(a - b, 0) for a, b in zip(count_rates, count_rates_bg)]]:
    [zip] stops at the shorter of the two; [zip] over [None] is a
    [TypeError]. *)
Definition subtract_background (count_rates : list R)
  (count_rates_bg : option (list R)) : result (list R) :=
  match count_rates_bg with
  | None => Raise TypeError
  | Some bg =>
      Ok (map (fun ab => py_max (fst ab - snd ab) 0) (combine count_rates bg))
  end.

(** Loads spectrum data and extracts regions of interest (ROIs) with
    background subtraction. *)
Definition load_and_extract_roi (file_path : string)
  (rois : list (string * (Z * Z))) (measurement_time : Z)
  (count_rates_bg : option (list R)) (CdTe : bool)
  : result (list Z * list R * list R * list (string * list Z * list R)) :=
  '(channels, count_rates) <-
    (if CdTe then load_mca_file file_path measurement_time
     else load_spe_file file_path measurement_time) ;;
  count_rates_bgsubtracted <- subtract_background count_rates count_rates_bg ;;
  roi_data <-
    mapM (fun roi =>
            let '(model, (roi_start, roi_end)) := roi in
            '(roi_channels, roi_net_count_rates) <-
              filter_in_interval channels count_rates_bgsubtracted
                                 roi_start roi_end ;;
            Ok (model, roi_channels, roi_net_count_rates))
         rois ;;
  Ok (channels, count_rates, count_rates_bgsubtracted, roi_data).

End DataLoading.

(* ===================================================================== *)
(** ** Shared shapes of the two analyzers *)
(* ===================================================================== *)

(** [n * t] for a tuple [t]. *)
Fixpoint tuple_repeat {A : Type} (n : nat) (t : list A) : list A :=
  match n with
  | O => []
  | S n' => t ++ tuple_repeat n' t
  end.

(** [zip] of three sequences. *)
Fixpoint zip3 {A B C : Type} (la : list A) (lb : list B) (lc : list C)
  : list (A * B * C) :=
  match la, lb, lc with
  | a :: la', b :: lb', c :: lc' => (a, b, c) :: zip3 la' lb' lc'
  | _, _, _ => []
  end.

(** Lines printed on the console by [calibrate_detector]. *)
Inductive message : Type :=
| msg_header
| msg_slope (slope slope_err : R)
| msg_intercept (intercept intercept_err : R)
| msg_linear_sufficient
| msg_quadratic_significant.

(** [a, b = seq]: unpacking into two names. *)
Definition unpack2 {A : Type} (l : list A) : result (A * A) :=
  match l with
  | [a; b] => Ok (a, b)
  | _ => Raise (ValueError "wrong number of values to unpack")
  end.

(** [a, b, c = seq]. *)
Definition unpack3 {A : Type} (l : list A) : result (A * A * A) :=
  match l with
  | [a; b; c] => Ok (a, b, c)
  | _ => Raise (ValueError "wrong number of values to unpack")
  end.

(* ===================================================================== *)
(** ** GammaDetAnalyzer.py *)
(* ===================================================================== *)

Module GammaDetAnalyzer.

(** The dict appended to [isotope_data] for one spectrum. *)
Record isotope_entry : Type := {
  e_isotope : label;
  e_total_roi_count_rates : list R;
  e_centroids : list R;
  e_sigmas : list R;
  e_energies : list R;
  e_amplitudes : list R
}.

Section Analyzer.
Context {ext : Externals}.

(** Fits a Gaussian or double Gaussian model to a spectral peak in the
    ROI.  The parameter text is kept as its header and its rows
    [(name, value, error)]; the rendering to two decimals is not
    modelled. *)
Definition fit_peak (roi_channels : list Z) (roi_net_count_rates : list R)
  (model : string)
  : result (list R * model_function * (string * list (string * R * R))) :=
  m <- py_min roi_net_count_rates ;;
  let background_guess := [fin 0; fin 0; fin m] in
  '(mu0, sig0, a0) <-
    gaussian_initial_estimates roi_channels roi_net_count_rates ;;
  let peak_guess := [mu0; sig0; fin a0] in
  '(popt, covariance_matrix, fit_func, param_names) <-
    (if String.eqb model "gaussian" then
       let initial_guess := background_guess ++ peak_guess in
       '(popt, covariance_matrix) <-
         curve_fit {| sc_f := fn_combined_model_gaussian;
                      sc_xdata := map IZR roi_channels;
                      sc_ydata := roi_net_count_rates;
                      sc_p0 := Some initial_guess;
                      sc_bounds := None;
                      sc_maxfev := Some 5000%Z |} ;;
       Ok (popt, covariance_matrix, fn_combined_model_gaussian,
           ["a"; "b"; "c"; "mu"; "sigma"; "amplitude"]%string)
     else if String.eqb model "double_gaussian" then
       let initial_guess := background_guess ++ tuple_repeat 2 peak_guess in
       '(popt, covariance_matrix) <-
         curve_fit {| sc_f := fn_combined_model_double_gaussian;
                      sc_xdata := map IZR roi_channels;
                      sc_ydata := roi_net_count_rates;
                      sc_p0 := Some initial_guess;
                      sc_bounds := None;
                      sc_maxfev := Some 5000%Z |} ;;
       Ok (popt, covariance_matrix, fn_combined_model_double_gaussian,
           ["a"; "b"; "c"; "mu1"; "sigma1"; "amp1";
            "mu2"; "sigma2"; "amp2"]%string)
     else
       (* neither branch binds [covariance_matrix]; the next line reads it *)
       Raise UnboundLocalError) ;;
  let perr := np_sqrt (np_diag covariance_matrix) in
  let param_text := (model, zip3 param_names popt perr) in
  Ok (popt, fit_func, param_text).

(** Performs linear calibration based on spectral centroids and known
    energies.  The second component is what the call prints. *)
Definition calibrate_detector (isotope_data : list isotope_entry)
  : result ((R * R) * list message) :=
  let all_centroids := flat_map e_centroids isotope_data in
  let all_energies := flat_map e_energies isotope_data in
  '(popt, pcov) <-
    curve_fit {| sc_f := fn_linear_model;
                 sc_xdata := all_centroids;
                 sc_ydata := all_energies;
                 sc_p0 := None;
                 sc_bounds := None;
                 sc_maxfev := None |} ;;
  '(slope, intercept) <- unpack2 popt ;;
  '(slope_err, intercept_err) <- unpack2 (np_sqrt (np_diag pcov)) ;;
  let out := [msg_header; msg_slope slope slope_err;
              msg_intercept intercept intercept_err] in
  quadratic_fit <- polyfit all_centroids all_energies 2 ;;
  quadratic_coefficient <- py_index quadratic_fit 0 ;;
  let out :=
    if Rlt_dec (Rabs quadratic_coefficient) 0.001
    then out ++ [msg_linear_sufficient]
    else out ++ [msg_quadratic_significant] in
  Ok ((slope, intercept), out).

(** The running state of the loops of [calculate_detector_efficiency]:
    [efficiencies, intrinsic_efficiencies, energies_list]. *)
Definition eff_lists : Type := (list R * list R * list R)%type.

(** Calculates the absolute and intrinsic efficiencies of the detector for
    each peak.  [i] numbers the iterations of the outer loop for the clock. *)
Fixpoint efficiency_loop (pairs : list (spectrum * list R))
  (source_data : list source_info) (geometry_factor : R) (i : nat)
  (acc : eff_lists) : eff_lists :=
  match pairs with
  | [] => acc
  | (spectrum, roi_counts) :: pairs' =>
      let isotope := isotope spectrum in
      let energies := energies spectrum in
      match find (fun source => label_eqb isotope (src_isotope source))
                 source_data with
      | None => efficiency_loop pairs' source_data geometry_factor (S i) acc
      | Some source_info =>
          let calibration_date := calibration_date source_info in
          let initial_activity := initial_activity source_info * 37000 in
          let half_life := half_life source_info in
          let elapsed_time_days :=
            IZR ((now i - calibration_date) / 86400000000)%Z in
          let decay_constant := ln 2 / half_life in
          let current_activity :=
            initial_activity * exp ((- decay_constant) * elapsed_time_days) in
          let acc' :=
            fold_left
              (fun (acc : eff_lists) (er : R * R) =>
                 let '(efficiencies, intrinsic_efficiencies, energies_list) :=
                   acc in
                 let '(energy, roi_count) := er in
                 let emission_fraction :=
                   dict_get (emission_fractions source_info) energy 1.0 in
                 let absolute_efficiency :=
                   roi_count / (current_activity * emission_fraction) in
                 let intrinsic_efficiency :=
                   absolute_efficiency / geometry_factor in
                 (efficiencies ++ [absolute_efficiency],
                  intrinsic_efficiencies ++ [intrinsic_efficiency],
                  energies_list ++ [energy]))
              (combine energies roi_counts) acc in
          efficiency_loop pairs' source_data geometry_factor (S i) acc'
      end
  end.

Definition calculate_detector_efficiency (spectra : list spectrum)
  (isotope_data : list isotope_entry) (source_data : list source_info)
  (CdTe : bool) (detector_geometry : geometry) : result eff_lists :=
  let detector_radius := detector_radius detector_geometry in
  let source_distance := source_distance detector_geometry in
  let detector_area :=
    if CdTe then 0.25 else PI * detector_radius ^ 2 in
  (* a division of two Python floats: a zero divisor raises *)
  if Req_dec_T (4 * PI * source_distance ^ 2) 0 then Raise ZeroDivisionError
  else
    let geometry_factor := detector_area / (4 * PI * source_distance ^ 2) in
    Ok (efficiency_loop
          (combine spectra (map e_amplitudes isotope_data))
          source_data geometry_factor 0 ([], [], [])).

(** Computes detector resolution as a percentage of the Full Width at Half
    Maximum (FWHM). *)
Definition calculate_resolution (isotope_data : list isotope_entry)
  (slope intercept : R) : result (list R * list R * list R) :=
  let kept :=
    filter (fun entry => negb (label_eqb (e_isotope entry) "133-Ba"))
           isotope_data in
  let all_centroids := flat_map e_centroids kept in
  let all_sigmas := flat_map e_sigmas kept in
  let fwhm := map (fun s => 2.355 * s) all_sigmas in
  let centroid_energies := map (fun c => slope * c + intercept) all_centroids in
  resolutions <- np_map2 (fun f e => f / e * 100) fwhm centroid_energies ;;
  let resolutions_squared := map (fun r => r ^ 2) resolutions in
  '(res_popt, res_pcov) <-
    curve_fit {| sc_f := fn_resolution_function;
                 sc_xdata := centroid_energies;
                 sc_ydata := resolutions_squared;
                 sc_p0 := Some [fin 1; fin 1; fin 1];
                 sc_bounds := Some (Finite 0, PosInf);
                 sc_maxfev := Some 5000%Z |} ;;
  _ <- unpack3 res_popt ;;
  _ <- unpack3 (np_sqrt (np_diag res_pcov)) ;;
  Ok (resolutions, centroid_energies, res_popt).

(** The update of the four running lists by one fitted ROI. *)
Definition collect_peak (acc : list R * list R * list R * list R)
  (model : string) (popt : list R)
  : result (list R * list R * list R * list R) :=
  let '(total_roi_count_rates, centroids, sigmas, amplitudes) := acc in
  if String.eqb model "gaussian" then
    p3 <- py_index popt 3 ;;
    p4 <- py_index popt 4 ;;
    p5 <- py_index popt 5 ;;
    Ok (total_roi_count_rates, centroids ++ [p3], sigmas ++ [p4],
        amplitudes ++ [p5])
  else if String.eqb model "double_gaussian" then
    p3 <- py_index popt 3 ;;
    p6 <- py_index popt 6 ;;
    p4 <- py_index popt 4 ;;
    p7 <- py_index popt 7 ;;
    p5 <- py_index popt 5 ;;
    p8 <- py_index popt 8 ;;
    Ok (total_roi_count_rates, centroids ++ [p3; p6], sigmas ++ [p4; p7],
        amplitudes ++ [p5; p8])
  else Ok acc.

(** Processes spectrum data, fits ROIs and appends results to
    [isotope_data]; the list after the call is returned. *)
Definition process_spectrum (spectrum : spectrum)
  (count_rates_bg : option (list R)) (isotope_data : list isotope_entry)
  (CdTe : bool) : result (list isotope_entry) :=
  let isotope := isotope spectrum in
  if label_eqb isotope "Background" then Ok isotope_data
  else
    '(channels, count_rates, count_rates_bgsubtracted, roi_data) <-
      load_and_extract_roi (file_path spectrum) (rois spectrum)
        (measurement_time spectrum) count_rates_bg CdTe ;;
    '(total_roi_count_rates, centroids, sigmas, amplitudes) <-
      foldM (fun acc roi =>
               let '(model, roi_channels, roi_net_count_rates) := roi in
               '(popt, fit_func, perr) <-
                 fit_peak roi_channels roi_net_count_rates model ;;
               collect_peak acc model popt)
            roi_data ([], [], [], []) ;;
    Ok (isotope_data ++
        [{| e_isotope := isotope;
            e_total_roi_count_rates := total_roi_count_rates;
            e_centroids := centroids;
            e_sigmas := sigmas;
            e_energies := energies spectrum;
            e_amplitudes := amplitudes |}]).

(** Lines 219-224 of [main]: the background is loaded once, then every
    spectrum of the dataset is processed in order. *)
Definition main_process (spectra : list spectrum) (CdTe : bool)
  : result (list isotope_entry) :=
  count_rates_bg <- load_background spectra CdTe ;;
  foldM (fun isotope_data spectrum =>
           process_spectrum spectrum count_rates_bg isotope_data CdTe)
        spectra [].

End Analyzer.
End GammaDetAnalyzer.

(* ===================================================================== *)
(** ** OffAxisAnalyzer.py *)
(* ===================================================================== *)

Module OffAxisAnalyzer.

(** The dict appended to [isotope_data] for one angle. *)
Record angle_entry : Type := {
  e_degrees : label;
  e_total_roi_count_rates : list R;
  e_centroids : list R;
  e_sigmas : list R;
  e_energies : list R;
  e_amplitudes : list R
}.

Section Analyzer.
Context {ext : Externals}.

(** The off-axis fit ignores [model]: it always fits one Gaussian. *)
Definition fit_peak (roi_channels : list Z) (roi_net_count_rates : list R)
  (model : string) : result (list R * model_function * list R) :=
  m <- py_min roi_net_count_rates ;;
  let background_guess := [fin 0; fin 0; fin m] in
  '(mu0, sig0, a0) <-
    gaussian_initial_estimates roi_channels roi_net_count_rates ;;
  let peak_guess := [mu0; sig0; fin a0] in
  let initial_guess := background_guess ++ peak_guess in
  '(popt, covariance_matrix) <-
    curve_fit {| sc_f := fn_combined_model_gaussian;
                 sc_xdata := map IZR roi_channels;
                 sc_ydata := roi_net_count_rates;
                 sc_p0 := Some initial_guess;
                 sc_bounds := None;
                 sc_maxfev := Some 5000%Z |} ;;
  let fit_func := fn_combined_model_gaussian in
  let perr := np_sqrt (np_diag covariance_matrix) in
  Ok (popt, fit_func, perr).

Definition calibrate_detector (isotope_data : list angle_entry)
  : result ((R * R) * list message) :=
  let all_centroids := flat_map e_centroids isotope_data in
  let all_energies := flat_map e_energies isotope_data in
  '(popt, pcov) <-
    curve_fit {| sc_f := fn_linear_model;
                 sc_xdata := all_centroids;
                 sc_ydata := all_energies;
                 sc_p0 := None;
                 sc_bounds := None;
                 sc_maxfev := None |} ;;
  '(slope, intercept) <- unpack2 popt ;;
  '(slope_err, intercept_err) <- unpack2 (np_sqrt (np_diag pcov)) ;;
  let out := [msg_header; msg_slope slope slope_err;
              msg_intercept intercept intercept_err] in
  quadratic_fit <- polyfit all_centroids all_energies 2 ;;
  quadratic_coefficient <- py_index quadratic_fit 0 ;;
  let out :=
    if Rlt_dec (Rabs quadratic_coefficient) 0.001
    then out ++ [msg_linear_sufficient]
    else out ++ [msg_quadratic_significant] in
  Ok ((slope, intercept), out).

(** Processes a single spectrum, extracting and fitting ROIs and appends
    results to [isotope_data]; the list after the call is returned. *)
Definition process_spectrum (spectrum : spectrum)
  (count_rates_bg : option (list R)) (isotope_data : list angle_entry)
  (CdTe : bool) : result (list angle_entry) :=
  let degrees := isotope spectrum in
  if label_eqb degrees "Background" then Ok isotope_data
  else
    '(_, _, _, roi_data) <-
      load_and_extract_roi (file_path spectrum) (rois spectrum)
        (measurement_time spectrum) count_rates_bg CdTe ;;
    '(total_roi_count_rates, centroids, sigmas, amplitudes) <-
      foldM (fun (acc : list R * list R * list R * list R) roi =>
               let '(total_roi_count_rates, centroids, sigmas, amplitudes) :=
                 acc in
               let '(model, roi_channels, roi_net_count_rates) := roi in
               '(popt, _, _) <-
                 fit_peak roi_channels roi_net_count_rates model ;;
               let total_roi_count_rate := np_sum roi_net_count_rates in
               p3 <- py_index popt 3 ;;
               p4 <- py_index popt 4 ;;
               p5 <- py_index popt 5 ;;
               Ok (total_roi_count_rates ++ [total_roi_count_rate],
                   centroids ++ [p3], sigmas ++ [p4], amplitudes ++ [p5]))
            roi_data ([], [], [], []) ;;
    Ok (isotope_data ++
        [{| e_degrees := degrees;
            e_total_roi_count_rates := total_roi_count_rates;
            e_centroids := centroids;
            e_sigmas := sigmas;
            e_energies := energies spectrum;
            e_amplitudes := amplitudes |}]).

Definition main_process (spectra : list spectrum) (CdTe : bool)
  : result (list angle_entry) :=
  count_rates_bg <- load_background spectra CdTe ;;
  foldM (fun isotope_data spectrum =>
           process_spectrum spectrum count_rates_bg isotope_data CdTe)
        spectra [].

End Analyzer.
End OffAxisAnalyzer.

(* ===================================================================== *)
(** ** The line scanners of the two instrument formats *)
(* ===================================================================== *)

(** The loops of [load_spe_file] and [load_mca_file] over the lines of an
    open file, with the [str] methods they use.  A character is its code
    point; the model covers the code points below 256.  Python's limit on
    the number of digits [int] converts (4300 by default) is not
    modelled. *)
Module Scanner.

(** [c.isspace()], the characters [strip] removes. *)
Definition py_isspace (c : Ascii.ascii) : bool :=
  let n := Ascii.nat_of_ascii c in
  (Nat.leb 9 n && Nat.leb n 13) || (Nat.leb 28 n && Nat.leb n 32)
  || Nat.eqb n 133 || Nat.eqb n 160.

(** [c.isdigit()]: the ten decimal digits and the superscripts 2, 3, 1. *)
Definition py_isdigit (c : Ascii.ascii) : bool :=
  let n := Ascii.nat_of_ascii c in
  (Nat.leb 48 n && Nat.leb n 57)
  || Nat.eqb n 178 || Nat.eqb n 179 || Nat.eqb n 185.

Fixpoint lstrip (s : string) : string :=
  match s with
  | EmptyString => EmptyString
  | String c s' => if py_isspace c then lstrip s' else s
  end.

Fixpoint rstrip (s : string) : string :=
  match s with
  | EmptyString => EmptyString
  | String c s' =>
      match rstrip s' with
      | EmptyString => if py_isspace c then EmptyString
                       else String c EmptyString
      | t => String c t
      end
  end.

(** [s.strip()]. *)
Definition strip (s : string) : string := rstrip (lstrip s).

Fixpoint all_digits (s : string) : bool :=
  match s with
  | EmptyString => true
  | String c s' => py_isdigit c && all_digits s'
  end.

(** [s.isdigit()]: false on the empty string. *)
Definition isdigit (s : string) : bool :=
  match s with
  | EmptyString => false
  | _ => all_digits s
  end.

(** [int(s)] read from the left with the value [acc] so far, for the
    strings the scanners pass (those with [isdigit]): a superscript digit
    is no decimal digit. *)
Fixpoint int_from (acc : Z) (s : string) : result Z :=
  match s with
  | EmptyString => Ok acc
  | String c s' =>
      let n := Ascii.nat_of_ascii c in
      if Nat.leb 48 n && Nat.leb n 57
      then int_from (10 * acc + Z.of_nat (n - 48)) s'
      else Raise (ValueError "invalid literal for int() with base 10")
  end.

Definition int (s : string) : result Z := int_from 0 s.

(** [sub in s]. *)
Fixpoint contains (sub s : string) : bool :=
  String.prefix sub s ||
  match s with
  | EmptyString => false
  | String _ s' => contains sub s'
  end.

(** [s.startswith(p)]. *)
Definition startswith (s p : string) : bool := String.prefix p s.

(** The loop over the lines: [start] switches reading on (and such a line
    is never data), a line of digits is a count, a line starting with
    [stop] ends the loop, any other line is passed over. *)
Fixpoint scan (start stop : string) (lines : list string)
  (reading_data : bool) (counts : list Z) : result (list Z) :=
  match lines with
  | [] => Ok counts
  | line :: lines' =>
      if contains start line then scan start stop lines' true counts
      else if reading_data then
        if isdigit (strip line) then
          n <- int (strip line) ;;
          scan start stop lines' reading_data (counts ++ [n])
        else if startswith line stop then Ok counts
        else scan start stop lines' reading_data counts
      else scan start stop lines' reading_data counts
  end.

(** The counts of an SPE file and of an MCA file with the given lines. *)
Definition spe_counts (lines : list string) : result (list Z) :=
  scan "$DATA:" "$" lines false [].

Definition mca_counts (lines : list string) : result (list Z) :=
  scan "<<DATA>>" "<<" lines false [].

End Scanner.

(* ===================================================================== *)
(** ** OffAxisAnalyzer.py: the efficiency engine *)
(* ===================================================================== *)

Module OffAxisEfficiency.
Section Engine.
Context {ext : Externals}.

(** The loops of [calculate_detector_efficiency]; [i] numbers the
    iterations of the outer loop for the clock. *)
Fixpoint efficiency_loop (pairs : list (spectrum * list R))
  (Am_data : source_info) (i : nat) (efficiencies : list R) : list R :=
  match pairs with
  | [] => efficiencies
  | (spectrum, roi_counts) :: pairs' =>
      let energies := energies spectrum in
      let calibration_date := calibration_date Am_data in
      let initial_activity := initial_activity Am_data * 37000 in
      let half_life := half_life Am_data in
      let elapsed_time_days :=
        IZR ((now i - calibration_date) / 86400000000)%Z in
      let decay_constant := ln 2 / half_life in
      let current_activity :=
        initial_activity * exp ((- decay_constant) * elapsed_time_days) in
      let efficiencies' :=
        fold_left
          (fun (efficiencies : list R) (er : R * R) =>
             let '(energy, roi_count) := er in
             let emission_fraction :=
               dict_get (emission_fractions Am_data) energy 1.0 in
             let absolute_efficiency :=
               roi_count / (current_activity * emission_fraction) in
             efficiencies ++ [absolute_efficiency])
          (combine energies roi_counts) efficiencies in
      efficiency_loop pairs' Am_data (S i) efficiencies'
  end.

(** Calculates the absolute efficiency of the detector for each angle. *)
Definition calculate_detector_efficiency (spectra : list spectrum)
  (isotope_data : list OffAxisAnalyzer.angle_entry) (Am_data : source_info)
  : list R :=
  let all_amplitudes := map OffAxisAnalyzer.e_amplitudes isotope_data in
  efficiency_loop (combine spectra all_amplitudes) Am_data 0 [].

End Engine.
End OffAxisEfficiency.

(* ===================================================================== *)
(** ** given_data.py *)
(* ===================================================================== *)

Module given_data.

Definition entry (file_path : string) (isotope : label)
  (rois : list (string * (Z * Z))) (measurement_time : Z)
  (energies : list R) : spectrum :=
  {| file_path := file_path; isotope := isotope; rois := rois;
     measurement_time := measurement_time; energies := energies |}.

Definition BGO_spectra : list spectrum := [
  entry "BGO/Americium_0degrees_200s_BGO_uncal.Spe" (LStr "241-Am")
        [("gaussian"%string, (5, 80)%Z)] 200 [59.5];
  entry "BGO/Barium_0degrees_300s_BGO_uncal.Spe" (LStr "133-Ba")
        [("gaussian"%string, (25, 60)%Z);
         ("double_gaussian"%string, (120, 220)%Z)] 300 [53.2; 356.0; 383.8];
  entry "BGO/Caesium_0degrees_200s_BGO_uncal.Spe" (LStr "137-Cs")
        [("gaussian"%string, (280, 400)%Z)] 200 [661.7];
  entry "BGO/Cobalt_0degrees_600s_BGO_uncal.Spe" (LStr "60-Co")
        [("double_gaussian"%string, (560, 770)%Z)] 600 [1173.2; 1332.5];
  entry "BGO/Background_0degrees_600s_BGO_uncal.Spe" (LStr "Background")
        [("-"%string, (0, 0)%Z)] 600 []
].

Definition NaI_spectra : list spectrum := [
  entry "NaI/Americium_0degrees_200s_NaI_uncal.Spe" (LStr "241-Am")
        [("gaussian"%string, (20, 55)%Z)] 200 [59.5];
  entry "NaI/Barium_0degrees_300s_NaI.Spe" (LStr "133-Ba")
        [("gaussian"%string, (25, 60)%Z);
         ("double_gaussian"%string, (100, 220)%Z)] 300 [53.2; 356.0; 383.8];
  entry "NaI/Caesium_0degrees_200s_NaI_uncal.Spe" (LStr "137-Cs")
        [("gaussian"%string, (240, 390)%Z)] 200 [661.7];
  entry "NaI/Cobalt_0degrees_600s_NaI_uncal.Spe" (LStr "60-Co")
        [("double_gaussian"%string, (450, 600)%Z)] 600 [1173.2; 1332.5];
  entry "NaI/Background_0degrees_600s_NaI.Spe" (LStr "Background")
        [("-"%string, (0, 0)%Z)] 600 []
].

Definition CdTe_spectra : list spectrum := [
  entry "CdTe/Americium_0degrees_200s_CdTe_uncal.mca" (LStr "241-Am")
        [("gaussian"%string, (300, 380)%Z)] 200 [59.5];
  entry "CdTe/Barium_0degrees_300s_CdTe_uncal.mca" (LStr "133-Ba")
        [("gaussian"%string, (50, 200)%Z);
         ("double_gaussian"%string, (550, 740)%Z)] 300 [53.2; 356.0; 383.8];
  entry "CdTe/Caesium_0degrees_200s_CdTe_uncal.mca" (LStr "137-Cs")
        [("gaussian"%string, (550, 790)%Z)] 200 [661.7];
  entry "CdTe/Background_0degrees_600s_CdTe.mca" (LStr "Background")
        [("-"%string, (0, 0)%Z)] 600 []
].

(** [datetime(1979, 12, 1)]: day 722783 after the first day of the
    calendar, in microseconds. *)
Definition date_1979_12_01 : Z := (722783 * 86400000000)%Z.

Definition source_data : list source_info := [
  {| src_isotope := "241-Am"; calibration_date := date_1979_12_01;
     initial_activity := 5.0; half_life := 432 * 365.25;
     emission_fractions := [(59.5, 0.36)] |};
  {| src_isotope := "137-Cs"; calibration_date := date_1979_12_01;
     initial_activity := 3.7; half_life := 30.09 * 365.25;
     emission_fractions := [(661.6, 0.85)] |};
  {| src_isotope := "133-Ba"; calibration_date := date_1979_12_01;
     initial_activity := 4.8; half_life := 10.537 * 365.25;
     emission_fractions := [(53.2, 0.02); (356.0, 0.62); (383.8, 0.09)] |};
  {| src_isotope := "60-Co"; calibration_date := date_1979_12_01;
     initial_activity := 1.9; half_life := 5.2714 * 365.25;
     emission_fractions := [(1173.2, 1); (1332.5, 1)] |}
].

Definition detector_geometry : geometry :=
  {| detector_radius := 2.54; source_distance := 15 |}.

End given_data.

(* ===================================================================== *)
(** ** GammaDetAnalyzer.py: main *)
(* ===================================================================== *)

Module GammaDetMain.
Section Main.
Context {ext : Externals}.

(** What a run computes: [isotope_data], the calibration with its printed
    lines, the three efficiency lists, and the resolution results. *)
Definition run : Type :=
  (list GammaDetAnalyzer.isotope_entry * (R * R) * list message
   * GammaDetAnalyzer.eff_lists * (list R * list R * list R))%type.

(** Main execution function for spectrum processing and analysis; the
    plots between the stages do not appear. *)
Definition main (detector : string) : result run :=
  '(spectra, CdTe) <-
    (if String.eqb detector "bgo" then Ok (given_data.BGO_spectra, false)
     else if String.eqb detector "nai" then Ok (given_data.NaI_spectra, false)
     else if String.eqb detector "cdte" then Ok (given_data.CdTe_spectra, true)
     else Raise (ValueError "Please insert correct detector name")) ;;
  isotope_data <- GammaDetAnalyzer.main_process spectra CdTe ;;
  '(slope, intercept, out) <-
    GammaDetAnalyzer.calibrate_detector isotope_data ;;
  eff <-
    GammaDetAnalyzer.calculate_detector_efficiency spectra isotope_data
      given_data.source_data CdTe given_data.detector_geometry ;;
  res <- GammaDetAnalyzer.calculate_resolution isotope_data slope intercept ;;
  Ok (isotope_data, (slope, intercept), out, eff, res).

End Main.
End GammaDetMain.

(* ===================================================================== *)
(** ** A test bench *)
(* ===================================================================== *)

(** A small dataset on which the theorems are exercised: a few files of
    counts, and a solver that answers each model with fixed parameters and
    a fixed covariance. *)
Module Bench.

Definition counts_of (file : string) : result (list Z) :=
  if String.eqb file "am.Spe" then Ok [30; 10; 50; 20; 40]%Z
  else if String.eqb file "bg.Spe" then Ok [20; 20; 20; 20; 20]%Z
  else if String.eqb file "bg_long.Spe" then Ok [20; 20; 20; 20; 20; 20; 20]%Z
  else if String.eqb file "bg_short.Spe" then Ok [20; 20]%Z
  else Raise OSError.

Definition solver (c : solver_call) : result (list R * list (list R)) :=
  match sc_f c with
  | fn_combined_model_gaussian =>
      Ok ([0; 0; 1; 2; 1; 10], map (fun _ => [4; 4; 4; 4; 4; 4]) (seq 0 6))
  | fn_combined_model_double_gaussian =>
      Ok ([0; 0; 1; 2; 1; 10; 3; 1; 20],
          map (fun _ => [4; 4; 4; 4; 4; 4; 4; 4; 4]) (seq 0 9))
  | fn_resolution_function => Ok ([1; 1; 1], [[4; 0; 0]; [0; 4; 0]; [0; 0; 4]])
  | fn_linear_model => Ok ([2; 1], [[4; 0]; [0; 9]])
  end.

Definition externals : Externals := {|
  read_spe_counts := counts_of;
  read_mca_counts := counts_of;
  curve_fit := solver;
  polyfit := fun _ _ _ => Ok [0; 2; 1];
  now := fun _ => 0%Z
|}.

Definition am : spectrum := {|
  file_path := "am.Spe";
  isotope := LStr "241-Am";
  rois := [("gaussian"%string, (1, 4)%Z)];
  measurement_time := 10;
  energies := [59.5]
|}.

Definition bg : spectrum := {|
  file_path := "bg.Spe";
  isotope := LStr "Background";
  rois := [("-"%string, (0, 0)%Z)];
  measurement_time := 10;
  energies := []
|}.

(** The source certificate of the americium source; the bench clock
    reads the calibration instant. *)
Definition am_source : source_info := {|
  src_isotope := "241-Am";
  calibration_date := 0;
  initial_activity := 5.0;
  half_life := 432 * 365.25;
  emission_fractions := [(59.5, 0.36)]
|}.

Definition detector_geometry : geometry := {|
  detector_radius := 2.54;
  source_distance := 15
|}.

(** The entry a fit of the bench spectrum leaves in [isotope_data]. *)
Definition am_entry : GammaDetAnalyzer.isotope_entry := {|
  GammaDetAnalyzer.e_isotope := LStr "241-Am";
  GammaDetAnalyzer.e_total_roi_count_rates := [];
  GammaDetAnalyzer.e_centroids := [2];
  GammaDetAnalyzer.e_sigmas := [1];
  GammaDetAnalyzer.e_energies := [59.5];
  GammaDetAnalyzer.e_amplitudes := [10]
|}.

End Bench.

(** The bench again, its files now given by their lines and read by the
    scanners. *)
Module ScanBench.

Definition lines_of (file : string) : result (list string) :=
  if String.eqb file "am.Spe" then
    Ok ["$MEAS_TIM:"; "10 10"; "$DATA:"; "0 4";
        "      30"; "      10"; "      50"; "      20"; "      40";
        "$ROI:"; "0"]%string
  else if String.eqb file "empty.Spe" then
    Ok ["$MEAS_TIM:"; "10 10"]%string
  else if String.eqb file "hot.Spe" then
    (* one channel holding the count 10^400 *)
    Ok ["$DATA:";
        "10000000000000000000000000000000000000000000000000000000000000000000000000000000000000000000000000000000000000000000000000000000000000000000000000000000000000000000000000000000000000000000000000000000000000000000000000000000000000000000000000000000000000000000000000000000000000000000000000000000000000000000000000000000000000000000000000000000000000000000000000000000000000000000000000000000000000000";
        "$ROI:"]%string
  else Raise OSError.

Definition externals : Externals := {|
  read_spe_counts := fun file =>
    lines <- lines_of file ;; Scanner.spe_counts lines;
  read_mca_counts := fun file =>
    lines <- lines_of file ;; Scanner.mca_counts lines;
  curve_fit := Bench.solver;
  polyfit := fun _ _ _ => Ok [0; 2; 1];
  now := fun _ => 0%Z
|}.

End ScanBench.

(** A bench for whole runs: every file holds 600 channels of 30 counts. *)
Module FlatBench.

Definition externals : Externals := {|
  read_spe_counts := fun _ => Ok (repeat 30%Z 600);
  read_mca_counts := fun _ => Ok (repeat 30%Z 600);
  curve_fit := Bench.solver;
  polyfit := fun _ _ _ => Ok [0; 2; 1];
  now := fun _ => given_data.date_1979_12_01
|}.

(** The entries the bench solver leaves for the americium, barium and
    caesium spectra of the CdTe table. *)
Definition cdte_data : list GammaDetAnalyzer.isotope_entry := [
  {| GammaDetAnalyzer.e_isotope := LStr "241-Am";
     GammaDetAnalyzer.e_total_roi_count_rates := [];
     GammaDetAnalyzer.e_centroids := [2];
     GammaDetAnalyzer.e_sigmas := [1];
     GammaDetAnalyzer.e_energies := [59.5];
     GammaDetAnalyzer.e_amplitudes := [10] |};
  {| GammaDetAnalyzer.e_isotope := LStr "133-Ba";
     GammaDetAnalyzer.e_total_roi_count_rates := [];
     GammaDetAnalyzer.e_centroids := [2; 2; 3];
     GammaDetAnalyzer.e_sigmas := [1; 1; 1];
     GammaDetAnalyzer.e_energies := [53.2; 356.0; 383.8];
     GammaDetAnalyzer.e_amplitudes := [10; 10; 20] |};
  {| GammaDetAnalyzer.e_isotope := LStr "137-Cs";
     GammaDetAnalyzer.e_total_roi_count_rates := [];
     GammaDetAnalyzer.e_centroids := [2];
     GammaDetAnalyzer.e_sigmas := [1];
     GammaDetAnalyzer.e_energies := [661.7];
     GammaDetAnalyzer.e_amplitudes := [10] |}
].

End FlatBench.

(* ===================================================================== *)
(** ** Vocabulary of the statements *)
(* ===================================================================== *)

(** The test of the half-open interval on one channel. *)
Definition in_roi (lo hi c : Z) : bool := andb (lo <=? c)%Z (c <? hi)%Z.

(** The loader [load_and_extract_roi] and [load_background] choose by the
    detector type. *)
Definition load_file {ext : Externals} (CdTe : bool) (file_path : string)
  (measurement_time : Z) : result (list Z * list R) :=
  if CdTe then load_mca_file file_path measurement_time
  else load_spe_file file_path measurement_time.

(** The ROI tuples built from a channel series and a net count-rate series
    of the same length. *)
Definition roi_tuples (channels : list Z) (net : list R)
  (rois : list (string * (Z * Z))) : list (string * list Z * list R) :=
  map (fun roi =>
         (fst roi,
          np_mask_select (in_interval channels (fst (snd roi)) (snd (snd roi)))
                         channels,
          np_mask_select (in_interval channels (fst (snd roi)) (snd (snd roi)))
                         net))
      rois.

(** The moments of a ROI, written as sums over its (channel, count rate)
    pairs. *)
Definition weighted_sum (w : R -> R) (x : list Z) (y : list R) : R :=
  np_sum (map (fun cy => w (IZR (fst cy)) * snd cy) (combine x y)).

Definition moment_centroid (x : list Z) (y : list R) : R :=
  weighted_sum (fun c => c) x y / np_sum y.

Definition moment_variance (x : list Z) (y : list R) : R :=
  weighted_sum (fun c => (c - moment_centroid x y) ^ 2) x y / np_sum y.

(** [m] is the least element of [y]. *)
Definition is_minimum (m : R) (y : list R) : Prop :=
  In m y /\ forall v, In v y -> m <= v.

(** The call of the solver made by [fit_peak] with the initial guess [p0]. *)
Definition peak_call (f : model_function) (x : list Z) (y : list R)
  (p0 : list npfloat) : solver_call :=
  {| sc_f := f; sc_xdata := map IZR x; sc_ydata := y; sc_p0 := Some p0;
     sc_bounds := None; sc_maxfev := Some 5000%Z |}.

(** What [fit_peak] of [GammaDetAnalyzer.py] makes of the solver's answer. *)
Definition peak_report (model : string) (f : model_function)
  (param_names : list string) (answer : list R * list (list R))
  : result (list R * model_function * (string * list (string * R * R))) :=
  let '(popt, covariance_matrix) := answer in
  Ok (popt, f,
      (model, zip3 param_names popt (np_sqrt (np_diag covariance_matrix)))).

(** The [days] of the [timedelta] between the clock reading [t] and the
    calibration date [cal]. *)
Definition elapsed_days (t cal : Z) : R := IZR ((t - cal) / 86400000000)%Z.

(** The activity in becquerel of a source [days] after its calibration. *)
Definition decayed_activity (info : source_info) (days : R) : R :=
  initial_activity info * 37000 * exp ((- (ln 2 / half_life info)) * days).

Definition geometry_factor_of (CdTe : bool) (g : geometry) : R :=
  (if CdTe then 0.25 else PI * detector_radius g ^ 2)
  / (4 * PI * source_distance g ^ 2).

Definition absolute_efficiency_of (info : source_info) (days energy amp : R)
  : R :=
  amp / (decayed_activity info days
         * dict_get (emission_fractions info) energy 1.0).

(** The (energy, absolute efficiency) rows of a run of the efficiency
    loop over spectra paired with amplitude lists, the first pair being
    iteration [i]: a spectrum without source reference gives no row, any
    other one row per (energy, amplitude) pair. *)
Fixpoint efficiency_rows {ext : Externals}
  (pairs : list (spectrum * list R)) (source_data : list source_info)
  (i : nat) : list (R * R) :=
  match pairs with
  | [] => []
  | (s, amps) :: pairs' =>
      match find (fun source => label_eqb (isotope s) (src_isotope source))
                 source_data with
      | None => []
      | Some info =>
          map (fun ea =>
                 (fst ea,
                  absolute_efficiency_of info
                    (elapsed_days (now i) (calibration_date info))
                    (fst ea) (snd ea)))
              (combine (energies s) amps)
      end ++ efficiency_rows pairs' source_data (S i)
  end.

(** The number of peaks a ROI of the given model kind is fitted with, and
    the number of peaks of a list of ROIs. *)
Definition peaks_of_model (model : string) : nat :=
  if String.eqb model "gaussian" then 1
  else if String.eqb model "double_gaussian" then 2
  else 0.

Definition expected_peaks (models : list string) : nat :=
  fold_right (fun model n => (peaks_of_model model + n)%nat) 0%nat models.

(** The three columns of a list of fitted peaks
    (centroid, sigma, amplitude). *)
Definition peak_centroid (p : R * R * R) : R := fst (fst p).
Definition peak_sigma (p : R * R * R) : R := snd (fst p).
Definition peak_amplitude (p : R * R * R) : R := snd p.

(** The kinds of lines of an instrument file, as the scanners tell them
    apart: a count line holds digits only once stripped and is no start
    line; an end line starts with the end sentinel; a line that is none of
    these and no start line is passed over. *)
Definition count_line (start : string) (line : string) (c : Z) : Prop :=
  Scanner.contains start line = false /\
  Scanner.isdigit (Scanner.strip line) = true /\
  Scanner.int (Scanner.strip line) = Ok c.

Definition end_line (start stop : string) (line : string) : Prop :=
  Scanner.contains start line = false /\
  Scanner.isdigit (Scanner.strip line) = false /\
  Scanner.startswith line stop = true.

Definition passed_over (start stop : string) (line : string) : Prop :=
  Scanner.contains start line = false /\
  Scanner.isdigit (Scanner.strip line) = false /\
  Scanner.startswith line stop = false.

(** The quotient of the count [c] by the measurement time [t] is small
    enough for a float. *)
Definition fits_float (t c : Z) : bool :=
  negb (float_overflow * Z.abs t <=? Z.abs c)%Z.

(** The counts the loader of the detector type reads from a file. *)
Definition read_counts {ext : Externals} (CdTe : bool) (file_path : string)
  : result (list Z) :=
  if CdTe then read_mca_counts file_path else read_spe_counts file_path.

(** A spectrum that is not the background. *)
Definition is_sample (s : spectrum) : bool :=
  negb (label_eqb (isotope s) "Background").

(** [e] is an entry [GammaDetAnalyzer.py] can append for the spectrum [s]:
    its label and energies, and the three columns of one list of fitted
    peaks, as many as the ROIs of [s] call for. *)
Definition entry_for (s : spectrum) (e : GammaDetAnalyzer.isotope_entry)
  : Prop :=
  exists peaks,
    length peaks = expected_peaks (map fst (rois s)) /\
    e = {| GammaDetAnalyzer.e_isotope := isotope s;
           GammaDetAnalyzer.e_total_roi_count_rates := [];
           GammaDetAnalyzer.e_centroids := map peak_centroid peaks;
           GammaDetAnalyzer.e_sigmas := map peak_sigma peaks;
           GammaDetAnalyzer.e_energies := energies s;
           GammaDetAnalyzer.e_amplitudes := map peak_amplitude peaks |}.

(** The message of an empty ROI. *)
Definition empty_min : pyexn := ValueError "min() arg is an empty sequence".

(** The call of the solver made by [calibrate_detector]. *)
Definition linear_call (xs ys : list R) : solver_call :=
  {| sc_f := fn_linear_model; sc_xdata := xs; sc_ydata := ys;
     sc_p0 := None; sc_bounds := None; sc_maxfev := None |}.

(* ===================================================================== *)
(** * Theorems *)
(* ===================================================================== *)

(** ** The error monad and the NumPy fragments *)

Lemma bind_Ok_inv {A B : Type} (m : result A) (k : A -> result B) (b : B) :
  bind m k = Ok b -> exists a, m = Ok a /\ k a = Ok b.
Proof.
  destruct m as [a | e]; simpl; intros E; [eauto | discriminate].
Qed.

Lemma mapM_total {A B : Type} (f : A -> result B) (g : A -> B) (l : list A) :
  (forall a, In a l -> f a = Ok (g a)) -> mapM f l = Ok (map g l).
Proof.
  induction l as [| a l IH]; simpl; intros Hf; [reflexivity |].
  rewrite (Hf a) by now left. simpl.
  rewrite IH by (intros; apply Hf; now right). reflexivity.
Qed.

Lemma py_max_Rmax (x y : R) : py_max x y = Rmax x y.
Proof.
  unfold py_max, Rmax.
  destruct (Rlt_dec x y) as [Hlt | Hge], (Rle_dec x y) as [Hle | Hgt];
    try reflexivity; lra.
Qed.

(** Settles a goal [v = Rmax a b] on concrete numbers. *)
Ltac rmax_by_lra := unfold Rmax; destruct (Rle_dec _ _); lra.

Lemma length_py_range (n : nat) : length (py_range n) = n.
Proof. unfold py_range. now rewrite length_map, length_seq. Qed.

Lemma np_mask_select_self {A : Type} (p : A -> bool) (x : list A) :
  np_mask_select (map p x) x = filter p x.
Proof.
  induction x as [| a x IH]; simpl; [reflexivity |].
  destruct (p a); now rewrite IH.
Qed.

Lemma np_mask_select_pairs {A B : Type} (p : A -> bool) (x : list A) :
  forall y : list B, length x = length y ->
    combine (np_mask_select (map p x) x) (np_mask_select (map p x) y)
    = filter (fun ab => p (fst ab)) (combine x y).
Proof.
  induction x as [| a x IH]; intros [| b y] Hlen; simpl in *;
    try reflexivity; try discriminate.
  injection Hlen as Hlen.
  destruct (p a); simpl; now rewrite IH.
Qed.

Lemma np_mask_select_length {A B : Type} (mask : list bool) (x : list A) :
  forall y : list B, length x = length y ->
    length (np_mask_select mask x) = length (np_mask_select mask y).
Proof.
  revert x. induction mask as [| b mask IH]; intros [| a x] [| c y] Hlen;
    simpl in *; try reflexivity; try discriminate.
  injection Hlen as Hlen.
  destruct b; simpl; now rewrite (IH x y).
Qed.

(* ===================================================================== *)
(** ** ROI extraction *)
(* ===================================================================== *)

Lemma in_roi_iff (lo hi c : Z) : in_roi lo hi c = true <-> (lo <= c < hi)%Z.
Proof. unfold in_roi. rewrite andb_true_iff, Z.leb_le, Z.ltb_lt. tauto. Qed.

Lemma filter_in_interval_Ok (x : list Z) (y : list R) (lo hi : Z) :
  length x = length y ->
  filter_in_interval x y lo hi
  = Ok (np_mask_select (in_interval x lo hi) x,
        np_mask_select (in_interval x lo hi) y).
Proof.
  intros Hlen. unfold filter_in_interval.
  now rewrite Hlen, Nat.eqb_refl.
Qed.

Lemma filter_in_interval_mismatch (x : list Z) (y : list R) (lo hi : Z) :
  length x <> length y ->
  filter_in_interval x y lo hi = Raise length_mismatch.
Proof.
  intros Hlen. unfold filter_in_interval.
  apply Nat.eqb_neq in Hlen. now rewrite Hlen.
Qed.

(** C4.  On series of equal length [filter_in_interval] returns the pairs
    (channel, count rate) whose channel lies in [[lo, hi)], all of them and
    only them, in their original order: the returned channels are the
    channels of [x] that pass the test, the returned count rates sit at the
    same positions, and [hi] is never among the channels.  On series of
    different lengths it raises the length-mismatch [ValueError]. *)
Theorem filter_in_interval_half_open (x : list Z) (y : list R) (lo hi : Z) :
  (length x = length y ->
   exists xs ys,
     filter_in_interval x y lo hi = Ok (xs, ys) /\
     combine xs ys = filter (fun cy => in_roi lo hi (fst cy)) (combine x y) /\
     length xs = length ys /\
     xs = filter (in_roi lo hi) x /\
     (forall c, In c xs <-> In c x /\ (lo <= c < hi)%Z) /\
     ~ In hi xs)
  /\
  (length x <> length y ->
   filter_in_interval x y lo hi = Raise length_mismatch).
Proof.
  split; [intros Hlen | apply filter_in_interval_mismatch].
  exists (np_mask_select (in_interval x lo hi) x),
         (np_mask_select (in_interval x lo hi) y).
  assert (Hxs : np_mask_select (in_interval x lo hi) x
                = filter (in_roi lo hi) x)
    by apply (np_mask_select_self (in_roi lo hi)).
  split; [now apply filter_in_interval_Ok |].
  split; [apply (np_mask_select_pairs (in_roi lo hi)), Hlen |].
  split; [now apply np_mask_select_length |].
  split; [exact Hxs |].
  rewrite Hxs. split.
  - intros c. rewrite filter_In, in_roi_iff. tauto.
  - intros Hin. apply filter_In in Hin as [_ Hc].
    apply in_roi_iff in Hc. lia.
Qed.

(** The theorem on the channels 0..4 with the ROI [[1, 4)]: channel 4, the
    upper end, is dropped; a count-rate series one element short raises. *)
Lemma filter_in_interval_half_open_witness :
  filter_in_interval [0; 1; 2; 3; 4]%Z [3; 1; 5; 2; 4] 1 4
    = Ok ([1; 2; 3]%Z, [1; 5; 2])
  /\ filter_in_interval [0; 1; 2; 3; 4]%Z [3; 1; 5; 2] 1 4
    = Raise length_mismatch.
Proof.
  destruct (filter_in_interval_half_open
              [0; 1; 2; 3; 4]%Z [3; 1; 5; 2; 4] 1 4) as [Heq _].
  destruct (filter_in_interval_half_open
              [0; 1; 2; 3; 4]%Z [3; 1; 5; 2] 1 4) as [_ Hne].
  split.
  - destruct (Heq eq_refl) as (xs & ys & E & _). reflexivity.
  - apply Hne. simpl. lia.
Defined.

(* ===================================================================== *)
(** ** Loading and background subtraction *)
(* ===================================================================== *)

Section LoadingFacts.
Context {ext : Externals}.

Lemma load_file_channels (CdTe : bool) (file : string) (t : Z)
  (channels : list Z) (A : list R) :
  load_file CdTe file t = Ok (channels, A) ->
  channels = py_range (length A).
Proof.
  unfold load_file, load_mca_file, load_spe_file.
  destruct CdTe; intros E;
    apply bind_Ok_inv in E as (counts & _ & E);
    apply bind_Ok_inv in E as (rates & _ & E);
    now inversion E.
Qed.

Lemma load_and_extract_roi_unfold (file : string)
  (rois : list (string * (Z * Z))) (t : Z) (bg : option (list R))
  (CdTe : bool) :
  load_and_extract_roi file rois t bg CdTe
  = ('(channels, count_rates) <- load_file CdTe file t ;;
     net <- subtract_background count_rates bg ;;
     roi_data <-
       mapM (fun roi =>
               let '(model, (roi_start, roi_end)) := roi in
               '(roi_channels, roi_net_count_rates) <-
                 filter_in_interval channels net roi_start roi_end ;;
               Ok (model, roi_channels, roi_net_count_rates))
            rois ;;
     Ok (channels, count_rates, net, roi_data)).
Proof. reflexivity. Qed.

Lemma roi_loop_Ok (channels : list Z) (net : list R)
  (rois : list (string * (Z * Z))) :
  length channels = length net ->
  mapM (fun roi =>
          let '(model, (roi_start, roi_end)) := roi in
          '(roi_channels, roi_net_count_rates) <-
            filter_in_interval channels net roi_start roi_end ;;
          Ok (model, roi_channels, roi_net_count_rates))
       rois
  = Ok (roi_tuples channels net rois).
Proof.
  intros Hlen. unfold roi_tuples. apply mapM_total.
  intros [model [lo hi]] _. simpl.
  now rewrite filter_in_interval_Ok.
Qed.

Lemma roi_loop_mismatch (channels : list Z) (net : list R)
  (rois : list (string * (Z * Z))) :
  length channels <> length net -> rois <> [] ->
  mapM (fun roi =>
          let '(model, (roi_start, roi_end)) := roi in
          '(roi_channels, roi_net_count_rates) <-
            filter_in_interval channels net roi_start roi_end ;;
          Ok (model, roi_channels, roi_net_count_rates))
       rois
  = Raise length_mismatch.
Proof.
  intros Hlen Hne. destruct rois as [| [model [lo hi]] rois]; [easy |].
  simpl. now rewrite filter_in_interval_mismatch.
Qed.

(** The subtraction of line 78, entry by entry. *)
Lemma subtraction_length (A B : list R) :
  length (map (fun ab => py_max (fst ab - snd ab) 0) (combine A B))
  = Nat.min (length A) (length B).
Proof. now rewrite length_map, length_combine. Qed.

Lemma subtraction_nth (A B : list R) (i : nat) :
  (i < length A)%nat -> (i < length B)%nat ->
  nth i (map (fun ab => py_max (fst ab - snd ab) 0) (combine A B)) 0
  = Rmax (nth i A 0 - nth i B 0) 0.
Proof.
  revert B i. induction A as [| a A IH]; intros [| b B] i HA HB;
    simpl in *; try lia.
  destruct i as [| i]; [apply py_max_Rmax |].
  apply IH; lia.
Qed.

(** A background at least as long as the spectrum: the pipeline returns
    and the extra background entries are never read. *)
Lemma load_and_extract_roi_covered (file : string)
  (rois : list (string * (Z * Z))) (t : Z) (B : list R) (CdTe : bool)
  (channels : list Z) (A : list R) :
  load_file CdTe file t = Ok (channels, A) ->
  (length A <= length B)%nat ->
  exists C roi_data,
    load_and_extract_roi file rois t (Some B) CdTe
      = Ok (channels, A, C, roi_data) /\
    length C = length A /\
    forall i, (i < length A)%nat ->
      nth i C 0 = Rmax (nth i A 0 - nth i B 0) 0.
Proof.
  intros Hload Hlen.
  set (C := map (fun ab => py_max (fst ab - snd ab) 0) (combine A B)).
  assert (HC : length C = length A).
  { unfold C. rewrite subtraction_length. lia. }
  exists C, (roi_tuples channels C rois). split; [| split].
  - rewrite load_and_extract_roi_unfold, Hload. simpl. fold C.
    rewrite roi_loop_Ok; [reflexivity |].
    rewrite (load_file_channels _ _ _ _ _ Hload), length_py_range.
    now symmetry.
  - exact HC.
  - intros i Hi. apply subtraction_nth; lia.
Qed.

(** A background shorter than the spectrum: the subtraction stops at the
    end of the background, and the first ROI extraction finds the channel
    series longer than the net series. *)
Lemma load_and_extract_roi_short (file : string)
  (rois : list (string * (Z * Z))) (t : Z) (B : list R) (CdTe : bool)
  (channels : list Z) (A : list R) :
  load_file CdTe file t = Ok (channels, A) ->
  (length B < length A)%nat ->
  load_and_extract_roi file rois t (Some B) CdTe
  = match rois with
    | [] => Ok (channels, A,
                map (fun ab => py_max (fst ab - snd ab) 0) (combine A B), [])
    | _ :: _ => Raise length_mismatch
    end.
Proof.
  intros Hload Hlen.
  rewrite load_and_extract_roi_unfold, Hload. simpl.
  destruct rois as [| roi rois]; [reflexivity |].
  rewrite roi_loop_mismatch; [reflexivity | | discriminate].
  rewrite (load_file_channels _ _ _ _ _ Hload), length_py_range,
    subtraction_length. lia.
Qed.

(** C2.  When the file loads and the background has as many entries as
    the spectrum, [load_and_extract_roi] returns, and its
    background-subtracted series [C] is as long as the spectrum's count
    rates [A] and holds [max(A[i] - B[i], 0)] at every index. *)
Theorem background_subtraction_clamped (file : string)
  (rois : list (string * (Z * Z))) (t : Z) (B : list R) (CdTe : bool)
  (channels : list Z) (A : list R) :
  load_file CdTe file t = Ok (channels, A) ->
  length A = length B ->
  exists C roi_data,
    load_and_extract_roi file rois t (Some B) CdTe
      = Ok (channels, A, C, roi_data) /\
    length C = length A /\
    forall i, (i < length A)%nat ->
      nth i C 0 = Rmax (nth i A 0 - nth i B 0) 0.
Proof.
  intros Hload Hlen.
  apply load_and_extract_roi_covered; [exact Hload | lia].
Qed.

(** C3, as the code has it.  When the two series differ in length there
    is no check in the subtraction itself.  A background shorter than the
    spectrum makes the first ROI extraction raise the length-mismatch
    [ValueError] (and with no ROI at all the call returns a net series cut
    to the background's length); a background longer than the spectrum is
    accepted, its surplus entries ignored. *)
Theorem background_length_mismatch (file : string)
  (rois : list (string * (Z * Z))) (t : Z) (B : list R) (CdTe : bool)
  (channels : list Z) (A : list R) :
  load_file CdTe file t = Ok (channels, A) ->
  length A <> length B ->
  ((length B < length A)%nat -> rois <> [] ->
   load_and_extract_roi file rois t (Some B) CdTe = Raise length_mismatch)
  /\
  ((length B < length A)%nat -> rois = [] ->
   exists C,
     load_and_extract_roi file rois t (Some B) CdTe = Ok (channels, A, C, [])
     /\ length C = length B)
  /\
  ((length A < length B)%nat ->
   exists C roi_data,
     load_and_extract_roi file rois t (Some B) CdTe
       = Ok (channels, A, C, roi_data) /\
     length C = length A /\
     forall i, (i < length A)%nat ->
       nth i C 0 = Rmax (nth i A 0 - nth i B 0) 0).
Proof.
  intros Hload _. split; [| split].
  - intros Hlt Hne.
    rewrite (load_and_extract_roi_short _ _ _ _ _ _ _ Hload Hlt).
    destruct rois; [easy | reflexivity].
  - intros Hlt ->.
    rewrite (load_and_extract_roi_short _ _ _ _ _ _ _ Hload Hlt).
    eexists. split; [reflexivity |]. rewrite subtraction_length. lia.
  - intros Hlt. apply load_and_extract_roi_covered; [exact Hload | lia].
Qed.

End LoadingFacts.

(** The bench spectrum with a background of the same five channels. *)
Lemma background_subtraction_clamped_witness :
  exists C roi_data,
    load_and_extract_roi (ext := Bench.externals) "am.Spe"
      [("gaussian"%string, (1, 4)%Z)] 10 (Some [2; 2; 2; 2; 2]) false
      = Ok ([0; 1; 2; 3; 4]%Z, [30 / 10; 10 / 10; 50 / 10; 20 / 10; 40 / 10],
            C, roi_data) /\
    length C = 5%nat /\
    forall i, (i < 5)%nat ->
      nth i C 0
      = Rmax (nth i [30 / 10; 10 / 10; 50 / 10; 20 / 10; 40 / 10] 0
              - nth i [2; 2; 2; 2; 2] 0) 0.
Proof.
  apply (background_subtraction_clamped (ext := Bench.externals)
           "am.Spe" [("gaussian"%string, (1, 4)%Z)] 10 [2; 2; 2; 2; 2] false
           [0; 1; 2; 3; 4]%Z [30 / 10; 10 / 10; 50 / 10; 20 / 10; 40 / 10]);
    reflexivity.
Defined.

(** C3 fails as stated: a background of seven entries under a spectrum of
    five raises nothing; the call returns the net series of the first five
    entries. *)
Lemma background_longer_is_silent :
  length [30 / 10; 10 / 10; 50 / 10; 20 / 10; 40 / 10]
    <> length [2; 2; 2; 2; 2; 2; 2]
  /\ load_and_extract_roi (ext := Bench.externals) "am.Spe"
       [("gaussian"%string, (1, 4)%Z)] 10 (Some [2; 2; 2; 2; 2; 2; 2]) false
     = Ok ([0; 1; 2; 3; 4]%Z, [30 / 10; 10 / 10; 50 / 10; 20 / 10; 40 / 10],
           [1; 0; 3; 0; 2],
           [("gaussian"%string, [1; 2; 3]%Z, [0; 3; 0])]).
Proof.
  split; [simpl; lia |].
  assert (E : map (fun ab => py_max (fst ab - snd ab) 0)
                (combine [30 / 10; 10 / 10; 50 / 10; 20 / 10; 40 / 10]
                         [2; 2; 2; 2; 2; 2; 2])
              = [1; 0; 3; 0; 2]).
  { simpl. rewrite !py_max_Rmax.
    replace (Rmax (30 / 10 - 2) 0) with 1 by (rmax_by_lra).
    replace (Rmax (10 / 10 - 2) 0) with 0 by (rmax_by_lra).
    replace (Rmax (50 / 10 - 2) 0) with 3 by (rmax_by_lra).
    replace (Rmax (20 / 10 - 2) 0) with 0 by (rmax_by_lra).
    replace (Rmax (40 / 10 - 2) 0) with 2 by (rmax_by_lra).
    reflexivity. }
  rewrite load_and_extract_roi_unfold.
  change (load_file (ext := Bench.externals) false "am.Spe" 10)
    with (Ok ([0; 1; 2; 3; 4]%Z,
              [30 / 10; 10 / 10; 50 / 10; 20 / 10; 40 / 10])).
  cbn [bind subtract_background]. rewrite E. reflexivity.
Qed.

(** The bench spectrum under a background of two entries (the ROI
    extraction raises) and under one of seven (accepted). *)
Lemma background_length_mismatch_witness :
  load_and_extract_roi (ext := Bench.externals) "am.Spe"
    [("gaussian"%string, (1, 4)%Z)] 10 (Some [2; 2]) false
  = Raise length_mismatch
  /\
  exists C roi_data,
    load_and_extract_roi (ext := Bench.externals) "am.Spe"
      [("gaussian"%string, (1, 4)%Z)] 10 (Some [2; 2; 2; 2; 2; 2; 2]) false
      = Ok ([0; 1; 2; 3; 4]%Z, [30 / 10; 10 / 10; 50 / 10; 20 / 10; 40 / 10],
            C, roi_data) /\
    length C = 5%nat.
Proof.
  split.
  - apply (background_length_mismatch (ext := Bench.externals)
             "am.Spe" [("gaussian"%string, (1, 4)%Z)] 10 [2; 2] false
             [0; 1; 2; 3; 4]%Z [30 / 10; 10 / 10; 50 / 10; 20 / 10; 40 / 10]);
      [reflexivity | simpl; lia | simpl; lia | discriminate].
  - destruct (background_length_mismatch (ext := Bench.externals)
             "am.Spe" [("gaussian"%string, (1, 4)%Z)] 10
             [2; 2; 2; 2; 2; 2; 2] false
             [0; 1; 2; 3; 4]%Z [30 / 10; 10 / 10; 50 / 10; 20 / 10; 40 / 10]
             eq_refl) as (_ & _ & Hlong); [simpl; lia |].
    destruct Hlong as (C & roi_data & E & HC & _); [simpl; lia |].
    exists C, roi_data. split; [exact E | exact HC].
Defined.

(* ===================================================================== *)
(** ** Loading the background *)
(* ===================================================================== *)

Lemma label_eqb_eq (lbl : label) (s : string) :
  label_eqb lbl s = true <-> lbl = LStr s.
Proof.
  destruct lbl as [t | n]; simpl.
  - rewrite String.eqb_eq. split; intros E; [now subst | now inversion E].
  - split; intros E; discriminate.
Qed.

Lemma label_eqb_neq (lbl : label) (s : string) :
  label_eqb lbl s = false <-> lbl <> LStr s.
Proof.
  rewrite <- label_eqb_eq. destruct (label_eqb lbl s); split; intros E;
    try reflexivity; try discriminate; now contradiction E.
Qed.

Section BackgroundFacts.
Context {ext : Externals}.

Lemma load_background_hit (s : spectrum) (post : list spectrum)
  (CdTe : bool) :
  isotope s = LStr "Background" ->
  load_background (s :: post) CdTe
  = ('(_, bg_count_rates) <-
       load_file CdTe (file_path s) (measurement_time s) ;;
     Ok (Some bg_count_rates)).
Proof.
  intros Hs. simpl. apply label_eqb_eq in Hs. rewrite Hs.
  unfold load_file. now destruct CdTe.
Qed.

Lemma load_background_skip (pre rest : list spectrum) (CdTe : bool) :
  (forall s', In s' pre -> isotope s' <> LStr "Background") ->
  load_background (pre ++ rest) CdTe = load_background rest CdTe.
Proof.
  induction pre as [| s' pre IH]; intros Hpre; [reflexivity |].
  simpl. assert (Hs' : label_eqb (isotope s') "Background" = false)
    by (apply label_eqb_neq, Hpre; now left).
  rewrite Hs'. apply IH. intros; apply Hpre; now right.
Qed.

Lemma no_background_no_subtraction (file : string)
  (rois : list (string * (Z * Z))) (t : Z) (CdTe : bool) :
  load_and_extract_roi file rois t None CdTe
  = ('(_, _) <- load_file CdTe file t ;; Raise TypeError).
Proof.
  rewrite load_and_extract_roi_unfold.
  destruct (load_file CdTe file t) as [[channels A] | e]; reflexivity.
Qed.

(** C10.  [load_background] answers with the count rates loaded from the
    first spectrum labelled exactly ["Background"] (whatever follows it),
    and with [None], not an error, when no spectrum carries the label.
    With [None] for a background no non-background spectrum gets through
    its subtraction step: once its file is loaded the step raises a
    [TypeError], so neither analyzer's [process_spectrum] returns for it,
    nor does the processing of the dataset as a whole. *)
Theorem load_background_first_or_None (spectra : list spectrum)
  (CdTe : bool) :
  (forall pre s post,
     spectra = pre ++ s :: post ->
     (forall s', In s' pre -> isotope s' <> LStr "Background") ->
     isotope s = LStr "Background" ->
     load_background spectra CdTe
     = ('(_, bg_count_rates) <-
          load_file CdTe (file_path s) (measurement_time s) ;;
        Ok (Some bg_count_rates)))
  /\
  ((forall s, In s spectra -> isotope s <> LStr "Background") ->
   load_background spectra CdTe = Ok None /\
   forall s, In s spectra ->
     (forall channels A,
        load_file CdTe (file_path s) (measurement_time s) = Ok (channels, A) ->
        load_and_extract_roi (file_path s) (rois s) (measurement_time s)
                             None CdTe = Raise TypeError) /\
     (forall data r,
        GammaDetAnalyzer.process_spectrum s None data CdTe <> Ok r) /\
     (forall data r,
        OffAxisAnalyzer.process_spectrum s None data CdTe <> Ok r) /\
     (forall r, GammaDetAnalyzer.main_process spectra CdTe <> Ok r) /\
     (forall r, OffAxisAnalyzer.main_process spectra CdTe <> Ok r)).
Proof.
  split.
  - intros pre s post -> Hpre Hs.
    rewrite load_background_skip by exact Hpre.
    now apply load_background_hit.
  - intros Hnone. split.
    + rewrite <- (app_nil_r spectra), load_background_skip by exact Hnone.
      reflexivity.
    + assert (HG : forall s, In s spectra -> forall data r,
                GammaDetAnalyzer.process_spectrum s None data CdTe <> Ok r).
      { intros s Hin data r. specialize (Hnone s Hin).
        apply label_eqb_neq in Hnone.
        unfold GammaDetAnalyzer.process_spectrum.
        rewrite Hnone, no_background_no_subtraction.
        destruct (load_file CdTe _ _) as [[channels A] | e]; discriminate. }
      assert (HO : forall s, In s spectra -> forall data r,
                OffAxisAnalyzer.process_spectrum s None data CdTe <> Ok r).
      { intros s Hin data r. specialize (Hnone s Hin).
        apply label_eqb_neq in Hnone.
        unfold OffAxisAnalyzer.process_spectrum.
        rewrite Hnone, no_background_no_subtraction.
        destruct (load_file CdTe _ _) as [[channels A] | e]; discriminate. }
      assert (HNone : load_background spectra CdTe = Ok None).
      { rewrite <- (app_nil_r spectra), load_background_skip by exact Hnone.
        reflexivity. }
      intros s Hin. split; [| split; [| split; [| split]]].
      * intros channels A Hload.
        now rewrite no_background_no_subtraction, Hload.
      * now apply HG.
      * now apply HO.
      * intros r. unfold GammaDetAnalyzer.main_process. rewrite HNone.
        destruct spectra as [| s0 spectra]; [destruct Hin |]. simpl.
        destruct (GammaDetAnalyzer.process_spectrum s0 None [] CdTe)
          as [d |] eqn:E0; [| discriminate].
        exfalso. exact (HG s0 (or_introl eq_refl) [] d E0).
      * intros r. unfold OffAxisAnalyzer.main_process. rewrite HNone.
        destruct spectra as [| s0 spectra]; [destruct Hin |]. simpl.
        destruct (OffAxisAnalyzer.process_spectrum s0 None [] CdTe)
          as [d |] eqn:E0; [| discriminate].
        exfalso. exact (HO s0 (or_introl eq_refl) [] d E0).
Qed.

End BackgroundFacts.

(** On the bench: with the background after the spectrum it is found and
    loaded; a dataset of the one spectrum has none, and the spectrum then
    fails in its subtraction step. *)
Lemma load_background_first_or_None_witness :
  load_background (ext := Bench.externals) [Bench.am; Bench.bg] false
    = Ok (Some [20 / 10; 20 / 10; 20 / 10; 20 / 10; 20 / 10])
  /\ load_background (ext := Bench.externals) [Bench.am] false = Ok None
  /\ load_and_extract_roi (ext := Bench.externals) "am.Spe"
       [("gaussian"%string, (1, 4)%Z)] 10 None false = Raise TypeError.
Proof.
  destruct (load_background_first_or_None (ext := Bench.externals)
              [Bench.am; Bench.bg] false) as [Hfirst _].
  destruct (load_background_first_or_None (ext := Bench.externals)
              [Bench.am] false) as [_ Hnone].
  assert (Ham : forall s, In s [Bench.am] -> isotope s <> LStr "Background").
  { intros s [<- | []]. discriminate. }
  destruct (Hnone Ham) as [HNone Hsub].
  destruct (Hsub Bench.am (or_introl eq_refl)) as (Hroi & _).
  split; [| split].
  - rewrite (Hfirst [Bench.am] Bench.bg [] eq_refl Ham eq_refl). reflexivity.
  - exact HNone.
  - exact (Hroi [0; 1; 2; 3; 4]%Z
             [30 / 10; 10 / 10; 50 / 10; 20 / 10; 40 / 10] eq_refl).
Defined.

(* ===================================================================== *)
(** ** The initial guess of the peak fitter *)
(* ===================================================================== *)

Lemma np_map2_same_length (op : R -> R -> R) (xs ys : list R) :
  length xs = length ys ->
  np_map2 op xs ys = Ok (map (fun p => op (fst p) (snd p)) (combine xs ys)).
Proof. intros Hlen. unfold np_map2. now rewrite Hlen, Nat.eqb_refl. Qed.

Lemma np_sum_weighted (w : R -> R) (x : list Z) (y : list R) :
  np_sum (map (fun p => fst p * snd p) (combine (map w (map IZR x)) y))
  = weighted_sum w x y.
Proof.
  unfold weighted_sum. revert y.
  induction x as [| c x IH]; intros [| v y]; simpl; try reflexivity.
  now rewrite IH.
Qed.

Lemma np_true_divide_fin (a b : R) :
  b <> 0 -> np_true_divide a b = fin (a / b).
Proof.
  intros Hb. unfold np_true_divide.
  destruct (Req_dec_T b 0) as [Hz | _]; [now contradiction Hb | reflexivity].
Qed.

Lemma np_sqrt_float_fin (r : R) :
  0 <= r -> np_sqrt_float (fin r) = fin (sqrt r).
Proof.
  intros Hr. simpl. destruct (Rlt_dec r 0) as [Hlt | _]; [lra | reflexivity].
Qed.

Lemma first_moment_channels (x : list Z) (y : list R) :
  length x = length y ->
  np_sum y <> 0 ->
  first_moment (map IZR x) y = Ok (fin (moment_centroid x y)).
Proof.
  intros Hlen Hsum. unfold first_moment.
  rewrite np_map2_same_length by now rewrite length_map.
  simpl. rewrite np_true_divide_fin by exact Hsum. unfold moment_centroid.
  rewrite <- (np_sum_weighted (fun c => c)), map_id. reflexivity.
Qed.

Lemma nf_sum_fin (l : list R) : nf_sum (map fin l) = fin (np_sum l).
Proof.
  induction l as [| r l IH]; [reflexivity |].
  cbn [map]. change (nf_sum (fin r :: map fin l))
    with (nf_add (fin r) (nf_sum (map fin l))).
  now rewrite IH.
Qed.

Lemma np_broadcast2_same_length {A B C : Type} (op : A -> B -> C)
  (xs : list A) (ys : list B) :
  length xs = length ys ->
  np_broadcast2 op xs ys
  = Ok (map (fun p => op (fst p) (snd p)) (combine xs ys)).
Proof. intros Hlen. unfold np_broadcast2. now rewrite Hlen, Nat.eqb_refl. Qed.

Lemma squares_times_rates (c : R) (x y : list R) :
  map (fun p => nf_mul (fst p) (snd p))
      (combine (map (fun xi => nf_square (nf_sub xi (fin c))) x) y)
  = map fin (map (fun p => fst p * snd p)
                 (combine (map (fun xi => (xi - c) ^ 2) x) y)).
Proof.
  revert y. induction x as [| xi x IH]; intros [| v y]; simpl;
    try reflexivity.
  now rewrite IH.
Qed.

Lemma second_moment_channels (x : list Z) (y : list R) :
  length x = length y ->
  np_sum y <> 0 ->
  second_moment (map IZR x) y = Ok (fin (moment_variance x y)).
Proof.
  intros Hlen Hsum. unfold second_moment.
  rewrite first_moment_channels by assumption. cbn [bind].
  rewrite np_broadcast2_same_length by now rewrite !length_map.
  cbn [bind]. rewrite squares_times_rates, nf_sum_fin.
  cbn [nf_divide]. rewrite np_true_divide_fin by exact Hsum.
  unfold moment_variance.
  now rewrite <- (np_sum_weighted (fun c => (c - moment_centroid x y) ^ 2)).
Qed.

Lemma gaussian_initial_estimates_moments (x : list Z) (y : list R) :
  length x = length y ->
  np_sum y <> 0 ->
  gaussian_initial_estimates x y
  = Ok (fin (moment_centroid x y),
        np_sqrt_float (fin (moment_variance x y)), np_sum y).
Proof.
  intros Hlen Hsum. unfold gaussian_initial_estimates.
  rewrite first_moment_channels by assumption. cbn [bind].
  rewrite second_moment_channels by assumption. reflexivity.
Qed.

(** On two series of one length the estimates are always returned, be
    they numbers or not. *)
Lemma gaussian_initial_estimates_returns (x : list Z) (y : list R) :
  length x = length y ->
  exists mu0 sig0,
    gaussian_initial_estimates x y = Ok (mu0, sig0, np_sum y).
Proof.
  intros Hlen. unfold gaussian_initial_estimates, second_moment, first_moment.
  rewrite np_map2_same_length by now rewrite length_map.
  cbn [bind].
  rewrite np_broadcast2_same_length by now rewrite !length_map.
  cbn [bind]. eauto.
Qed.

(** On rates that sum to zero none of the two quotients is a number. *)
Lemma gaussian_initial_estimates_zero_sum (x : list Z) (y : list R) :
  length x = length y ->
  np_sum y = 0 ->
  gaussian_initial_estimates x y = Ok (nonfinite, nonfinite, 0).
Proof.
  intros Hlen Hsum.
  unfold gaussian_initial_estimates, second_moment, first_moment.
  rewrite np_map2_same_length by now rewrite length_map.
  cbn [bind].
  rewrite np_broadcast2_same_length by now rewrite !length_map.
  cbn [bind]. rewrite Hsum. unfold np_true_divide, nf_divide.
  destruct (Req_dec_T 0 0) as [_ | H]; [| now elim H].
  destruct (nf_sum _); [unfold np_true_divide |];
    try (destruct (Req_dec_T 0 0) as [_ | H]; [| now elim H]); reflexivity.
Qed.

(** The moments of non-negative rates: for a positive sum the variance is
    no negative number. *)
Lemma moment_variance_nonneg (x : list Z) (y : list R) :
  length x = length y ->
  Forall (fun r => 0 <= r) y ->
  0 < np_sum y ->
  0 <= moment_variance x y.
Proof.
  intros Hlen Hy Hsum. unfold moment_variance.
  apply Rmult_le_pos; [| now apply Rlt_le, Rinv_0_lt_compat].
  unfold weighted_sum. clear Hsum.
  generalize (moment_centroid x y) as mu. intros mu. revert y Hlen Hy.
  induction x as [| c x IH]; intros [| v y] Hlen Hy; simpl in *;
    try discriminate; [lra |].
  injection Hlen as Hlen. inversion Hy as [| ? ? Hv Hy']; subst.
  specialize (IH y Hlen Hy').
  pose proof (pow2_ge_0 (IZR c - mu)) as Hsq. simpl in Hsq. nra.
Qed.

Lemma running_min_spec (l : list R) :
  forall x,
    let m := fold_left (fun m y => if Rlt_dec y m then y else m) l x in
    (m = x \/ In m l) /\ m <= x /\ forall v, In v l -> m <= v.
Proof.
  induction l as [| y l IH]; intros x; simpl.
  - repeat split; [now left | lra | intros v []].
  - destruct (Rlt_dec y x) as [Hlt | Hge].
    + destruct (IH y) as (Hin & Hle & Hall). split; [| split].
      * destruct Hin as [-> | Hin]; right; [now left | now right].
      * lra.
      * intros v [<- | Hv]; [exact Hle | now apply Hall].
    + destruct (IH x) as (Hin & Hle & Hall). split; [| split].
      * destruct Hin as [-> | Hin]; [now left | right; now right].
      * exact Hle.
      * intros v [<- | Hv]; [lra | now apply Hall].
Qed.

Lemma py_min_is_minimum (y : list R) :
  y <> [] -> exists m, py_min y = Ok m /\ is_minimum m y.
Proof.
  destruct y as [| v0 y]; [easy | intros _].
  eexists. split; [reflexivity |].
  destruct (running_min_spec y v0) as (Hin & Hle & Hall).
  split.
  - destruct Hin as [-> | Hin]; [now left | now right].
  - intros v [<- | Hv]; [exact Hle | now apply Hall].
Qed.

Section PeakFitterFacts.
Context {ext : Externals}.

(** C5.  On a non-empty ROI (its two series of one length) whose rates do
    not sum to zero, [fit_peak] hands the solver an initial guess that
    starts with the continuum coefficients [(0, 0, min(y))] and goes on with
    the moment estimates: the centroid [sum(x*y)/sum(y)], the square root
    [sig0] of the weighted variance about it, and the amplitude [sum(y)];
    once for the single-peak model, twice, the same triple, for the
    double-peak model.  [sig0] is NumPy's root, [nan] for a negative
    variance; on non-negative rates it is the real square root.  (On rates
    that sum to zero the quotients are [nan] or infinite, and the guess
    holds no centroid.) *)
Theorem fit_peak_initial_guess (x : list Z) (y : list R) :
  y <> [] ->
  length x = length y ->
  np_sum y <> 0 ->
  exists m sig0,
    is_minimum m y /\
    sig0 = np_sqrt_float (fin (moment_variance x y)) /\
    (Forall (fun r => 0 <= r) y ->
     sig0 = fin (sqrt (moment_variance x y))) /\
    GammaDetAnalyzer.fit_peak x y "gaussian"
    = (answer <-
         curve_fit
           (peak_call fn_combined_model_gaussian x y
              [fin 0; fin 0; fin m;
               fin (moment_centroid x y); sig0; fin (np_sum y)]) ;;
       peak_report "gaussian" fn_combined_model_gaussian
         ["a"; "b"; "c"; "mu"; "sigma"; "amplitude"]%string answer) /\
    GammaDetAnalyzer.fit_peak x y "double_gaussian"
    = (answer <-
         curve_fit
           (peak_call fn_combined_model_double_gaussian x y
              [fin 0; fin 0; fin m;
               fin (moment_centroid x y); sig0; fin (np_sum y);
               fin (moment_centroid x y); sig0; fin (np_sum y)]) ;;
       peak_report "double_gaussian" fn_combined_model_double_gaussian
         ["a"; "b"; "c"; "mu1"; "sigma1"; "amp1";
          "mu2"; "sigma2"; "amp2"]%string answer).
Proof.
  intros Hne Hlen Hsum.
  destruct (py_min_is_minimum y Hne) as (m & Hmin & Hm).
  exists m, (np_sqrt_float (fin (moment_variance x y))).
  split; [exact Hm |]. split; [reflexivity |]. split.
  - intros Hy. apply np_sqrt_float_fin.
    apply moment_variance_nonneg; [exact Hlen | exact Hy |].
    assert (H0 : 0 <= np_sum y).
    { clear - Hy. induction Hy as [| v y Hv _ IH]; simpl; lra. }
    lra.
  - unfold GammaDetAnalyzer.fit_peak.
    rewrite Hmin, gaussian_initial_estimates_moments by assumption.
    split; simpl; unfold peak_call;
      destruct (curve_fit _) as [[popt cov] | e]; reflexivity.
Qed.

End PeakFitterFacts.

(** The ROI of the bench spectrum: channels 1, 2, 3 with net rates
    0, 3, 0.  The continuum starts at the least rate, 0. *)
Lemma fit_peak_initial_guess_witness :
  exists m,
    is_minimum m [0; 3; 0] /\
    GammaDetAnalyzer.fit_peak (ext := Bench.externals)
      [1; 2; 3]%Z [0; 3; 0] "gaussian"
    = Ok ([0; 0; 1; 2; 1; 10], fn_combined_model_gaussian,
          ("gaussian"%string,
           [("a"%string, 0, sqrt 4); ("b"%string, 0, sqrt 4);
            ("c"%string, 1, sqrt 4); ("mu"%string, 2, sqrt 4);
            ("sigma"%string, 1, sqrt 4); ("amplitude"%string, 10, sqrt 4)])).
Proof.
  destruct (fit_peak_initial_guess (ext := Bench.externals)
              [1; 2; 3]%Z [0; 3; 0]) as (m & sig0 & Hm & _ & _ & Hsingle & _);
    [discriminate | reflexivity | simpl; lra |].
  exists m. split; [exact Hm |]. rewrite Hsingle. reflexivity.
Defined.

(* ===================================================================== *)
(** ** The peak models *)
(* ===================================================================== *)

Lemma gaussian_exponent (x mu sigma : R) :
  sigma <> 0 ->
  -0.5 * ((x - mu) / sigma) ^ 2 = - ((x - mu) ^ 2) / (2 * sigma ^ 2).
Proof.
  intros Hs. replace (-0.5) with (- / 2) by lra. field. exact Hs.
Qed.

Lemma normalized_gaussian_closed_form (x mu sigma amplitude : R) :
  sigma <> 0 ->
  normalized_gaussian x mu sigma amplitude
  = amplitude * exp (- ((x - mu) ^ 2) / (2 * sigma ^ 2))
    / sqrt (2 * PI * sigma ^ 2).
Proof.
  intros Hs. unfold normalized_gaussian, TWO_PI.
  now rewrite gaussian_exponent.
Qed.

(** C6.  For non-zero widths the single-peak model is the continuum
    [a*x^2 + b*x + c] plus [amplitude * exp(-(x-mu)^2 / (2*sigma^2)) /
    sqrt(2*pi*sigma^2)], and the double-peak model is the continuum plus
    the sum of two such terms; the solver evaluates exactly these when it
    calls the two model functions with six and nine parameters. *)
Theorem combined_models_closed_form
  (x a b c mu1 sigma1 amp1 mu2 sigma2 amp2 : R) :
  sigma1 <> 0 -> sigma2 <> 0 ->
  combined_model_gaussian x a b c mu1 sigma1 amp1
  = (a * x ^ 2 + b * x + c)
    + amp1 * exp (- ((x - mu1) ^ 2) / (2 * sigma1 ^ 2))
      / sqrt (2 * PI * sigma1 ^ 2)
  /\
  combined_model_double_gaussian x a b c mu1 sigma1 amp1 mu2 sigma2 amp2
  = (a * x ^ 2 + b * x + c)
    + (amp1 * exp (- ((x - mu1) ^ 2) / (2 * sigma1 ^ 2))
       / sqrt (2 * PI * sigma1 ^ 2)
       + amp2 * exp (- ((x - mu2) ^ 2) / (2 * sigma2 ^ 2))
         / sqrt (2 * PI * sigma2 ^ 2))
  /\
  call_model fn_combined_model_gaussian x [a; b; c; mu1; sigma1; amp1]
  = Ok (combined_model_gaussian x a b c mu1 sigma1 amp1)
  /\
  call_model fn_combined_model_double_gaussian x
    [a; b; c; mu1; sigma1; amp1; mu2; sigma2; amp2]
  = Ok (combined_model_double_gaussian x a b c mu1 sigma1 amp1
          mu2 sigma2 amp2).
Proof.
  intros H1 H2. split; [| split; [| split; reflexivity]].
  - unfold combined_model_gaussian, continuum.
    now rewrite normalized_gaussian_closed_form.
  - unfold combined_model_double_gaussian, continuum,
      normalized_double_gaussian, TWO_PI.
    now rewrite !gaussian_exponent.
Qed.

(** At the centroid of a peak of width 1 and area 10 on a zero continuum
    the model is worth [10 / sqrt(2*pi)]: the area over the normalisation
    constant, not the amplitude itself. *)
Lemma combined_models_closed_form_witness :
  combined_model_gaussian 2 0 0 0 2 1 10 = 10 / sqrt (2 * PI).
Proof.
  destruct (combined_models_closed_form 2 0 0 0 2 1 10 2 1 10)
    as (Hsingle & _); [lra | lra |].
  rewrite Hsingle.
  replace (- (2 - 2) ^ 2 / (2 * 1 ^ 2)) with 0 by field.
  replace (2 * PI * 1 ^ 2) with (2 * PI) by ring.
  rewrite exp_0. field.
  apply Rgt_not_eq, sqrt_lt_R0. pose proof PI_RGT_0. lra.
Defined.

(* ===================================================================== *)
(** ** The efficiency engine *)
(* ===================================================================== *)

Section EfficiencyFacts.
Context {ext : Externals}.

Lemma efficiency_inner_loop (fractions : list (R * R))
  (current_activity G : R) (l : list (R * R)) :
  forall acc1 acc2 acc3 : list R,
    fold_left
      (fun (acc : GammaDetAnalyzer.eff_lists) (er : R * R) =>
         let '(efficiencies, intrinsic_efficiencies, energies_list) := acc in
         let '(energy, roi_count) := er in
         let emission_fraction := dict_get fractions energy 1.0 in
         let absolute_efficiency :=
           roi_count / (current_activity * emission_fraction) in
         let intrinsic_efficiency := absolute_efficiency / G in
         (efficiencies ++ [absolute_efficiency],
          intrinsic_efficiencies ++ [intrinsic_efficiency],
          energies_list ++ [energy]))
      l (acc1, acc2, acc3)
    = (acc1 ++ map (fun ea => snd ea / (current_activity
                                        * dict_get fractions (fst ea) 1.0)) l,
       acc2 ++ map (fun ea => snd ea / (current_activity
                                        * dict_get fractions (fst ea) 1.0)
                              / G) l,
       acc3 ++ map fst l).
Proof.
  induction l as [| [energy roi_count] l IH]; intros acc1 acc2 acc3; simpl.
  - now rewrite !app_nil_r.
  - rewrite IH, <- !app_assoc. reflexivity.
Qed.

(** The activity as the code computes it, with the sign on the decay
    constant. *)
Lemma decayed_activity_code (info : source_info) (days : R) :
  initial_activity info * 37000
  * exp ((- (ln 2 / half_life info)) * days)
  = decayed_activity info days.
Proof. reflexivity. Qed.

Lemma efficiency_loop_rows (source_data : list source_info) (G : R)
  (pairs : list (spectrum * list R)) :
  forall (i : nat) (acc1 acc2 acc3 : list R),
    GammaDetAnalyzer.efficiency_loop pairs source_data G i (acc1, acc2, acc3)
    = (acc1 ++ map snd (efficiency_rows pairs source_data i),
       acc2 ++ map (fun r => snd r / G) (efficiency_rows pairs source_data i),
       acc3 ++ map fst (efficiency_rows pairs source_data i)).
Proof.
  induction pairs as [| [s amps] pairs IH]; intros i acc1 acc2 acc3; simpl.
  - now rewrite !app_nil_r.
  - destruct (find _ source_data) as [info |]; simpl.
    + rewrite efficiency_inner_loop, IH.
      rewrite !map_app, !map_map, <- !app_assoc. reflexivity.
    + apply IH.
Qed.





End EfficiencyFacts.


(* ===================================================================== *)
(** ** The resolution engine *)
(* ===================================================================== *)

Lemma resolution_function_root (E a b c : R) :
  E <> 0 ->
  resolution_function E a b c = sqrt (a / E ^ 2 + b / E + c).
Proof.
  intros HE. unfold resolution_function. f_equal.
  simpl. field. exact HE.
Qed.

Section ResolutionFacts.
Context {ext : Externals}.

(** The resolutions are [100 * (2.355 * sigma) / (slope * centroid +
    intercept)], and the solver is given [resolution_function] together
    with the energies and the squares of the resolutions. *)
Lemma calculate_resolution_call
  (isotope_data : list GammaDetAnalyzer.isotope_entry) (slope intercept : R) :
  let kept :=
    filter (fun entry =>
              negb (label_eqb (GammaDetAnalyzer.e_isotope entry) "133-Ba"))
           isotope_data in
  let sigmas := flat_map GammaDetAnalyzer.e_sigmas kept in
  let centroids := flat_map GammaDetAnalyzer.e_centroids kept in
  length sigmas = length centroids ->
  let resolutions :=
    map (fun sc => 100 * (2.355 * fst sc) / (slope * snd sc + intercept))
        (combine sigmas centroids) in
  let energies := map (fun c => slope * c + intercept) centroids in
  GammaDetAnalyzer.calculate_resolution isotope_data slope intercept
  = ('(res_popt, res_pcov) <-
       curve_fit {| sc_f := fn_resolution_function;
                    sc_xdata := energies;
                    sc_ydata := map (fun r => r ^ 2) resolutions;
                    sc_p0 := Some [fin 1; fin 1; fin 1];
                    sc_bounds := Some (Finite 0, PosInf);
                    sc_maxfev := Some 5000%Z |} ;;
     _ <- unpack3 res_popt ;;
     _ <- unpack3 (np_sqrt (np_diag res_pcov)) ;;
     Ok (resolutions, energies, res_popt)).
Proof.
  intros kept sigmas centroids Hlen resolutions energies.
  unfold GammaDetAnalyzer.calculate_resolution.
  fold kept. fold sigmas. fold centroids. fold energies.
  rewrite np_map2_same_length by (unfold energies; now rewrite !length_map).
  assert (E : map (fun p => fst p / snd p * 100)
                (combine (map (fun s => 2.355 * s) sigmas) energies)
              = resolutions).
  { unfold resolutions, energies. clear Hlen.
    generalize centroids as cs.
    induction sigmas as [| s l IH]; intros [| c cs]; simpl;
      try reflexivity.
    rewrite IH. f_equal. unfold Rdiv. ring. }
  simpl. rewrite E. reflexivity.
Qed.

End ResolutionFacts.

(** C1, the code at a failing input.  At energy 1 with the parameters
    (1, 1, 2) the function handed to the solver is worth 2, the square
    root of the 4 that [a/E^2 + b/E + c] is worth. *)
Theorem resolution_function_at_1 :
  call_model fn_resolution_function 1 [1; 1; 2] = Ok 2
  /\ 1 / 1 ^ 2 + 1 / 1 + 2 = 4
  /\ resolution_function 1 1 1 2 <> 1 / 1 ^ 2 + 1 / 1 + 2.
Proof.
  assert (E : resolution_function 1 1 1 2 = 2).
  { rewrite resolution_function_root by lra.
    replace (1 / 1 ^ 2 + 1 / 1 + 2) with (2 * 2) by field.
    apply sqrt_square. lra. }
  split; [| split].
  - simpl. now rewrite E.
  - field.
  - rewrite E. lra.
Qed.

(* ===================================================================== *)
(** ** The calibration engine *)
(* ===================================================================== *)

Lemma unpack2_Ok_inv {A : Type} (l : list A) (a b : A) :
  unpack2 l = Ok (a, b) -> l = [a; b].
Proof.
  destruct l as [| x [| y [| z l]]]; simpl; intros E;
    try discriminate. now inversion E.
Qed.

Section CalibrationFacts.
Context {ext : Externals}.

(** X18.  Whenever [calibrate_detector] returns, the pair it returns is the
    solver's answer for the linear model on the flattened (centroid,
    energy) points; the standard errors and the verdict on the quadratic
    coefficient only reach the console, and the degree-2 fit decides
    nothing but that verdict. *)
Lemma calibrate_detector_returns_linear_fit
  (isotope_data : list GammaDetAnalyzer.isotope_entry)
  (slope intercept : R) (out : list message) :
  GammaDetAnalyzer.calibrate_detector isotope_data
    = Ok ((slope, intercept), out) ->
  let xs := flat_map GammaDetAnalyzer.e_centroids isotope_data in
  let ys := flat_map GammaDetAnalyzer.e_energies isotope_data in
  exists pcov slope_err intercept_err quadratic_fit q,
    curve_fit {| sc_f := fn_linear_model; sc_xdata := xs; sc_ydata := ys;
                 sc_p0 := None; sc_bounds := None; sc_maxfev := None |}
      = Ok ([slope; intercept], pcov) /\
    np_sqrt (np_diag pcov) = [slope_err; intercept_err] /\
    polyfit xs ys 2 = Ok quadratic_fit /\
    nth_error quadratic_fit 0 = Some q /\
    out = [msg_header; msg_slope slope slope_err;
           msg_intercept intercept intercept_err;
           if Rlt_dec (Rabs q) 0.001 then msg_linear_sufficient
           else msg_quadratic_significant].
Proof.
  intros E xs ys. unfold GammaDetAnalyzer.calibrate_detector in E.
  fold xs ys in E.
  apply bind_Ok_inv in E as ([popt pcov] & Hfit & E).
  apply bind_Ok_inv in E as ([s i] & Hpopt & E).
  apply bind_Ok_inv in E as ([se ie] & Herr & E).
  apply bind_Ok_inv in E as (quadratic_fit & Hpoly & E).
  apply bind_Ok_inv in E as (q & Hq & E).
  apply unpack2_Ok_inv in Hpopt, Herr.
  unfold py_index in Hq.
  destruct (nth_error quadratic_fit 0) as [q' |] eqn:Hnth; [| discriminate].
  inversion Hq; subst q'.
  exists pcov, se, ie, quadratic_fit, q.
  destruct (Rlt_dec (Rabs q) 0.001); inversion E; subst;
    repeat split; try assumption; reflexivity.
Qed.

End CalibrationFacts.

(** C7, the code at a failing input.  On the bench the linear fit answers
    slope 2 and intercept 1 with variances 4 and 9.  Both analyzers
    return the pair (2, 1) and nothing else: the standard errors
    [sqrt 4] and [sqrt 9] are printed, not returned. *)
Theorem calibrate_detector_returns_pair :
  GammaDetAnalyzer.calibrate_detector (ext := Bench.externals)
    [Bench.am_entry]
  = Ok ((2, 1),
        [msg_header; msg_slope 2 (sqrt 4); msg_intercept 1 (sqrt 9);
         msg_linear_sufficient])
  /\
  OffAxisAnalyzer.calibrate_detector (ext := Bench.externals)
    [{| OffAxisAnalyzer.e_degrees := LInt 15;
        OffAxisAnalyzer.e_total_roi_count_rates := [3];
        OffAxisAnalyzer.e_centroids := [2];
        OffAxisAnalyzer.e_sigmas := [1];
        OffAxisAnalyzer.e_energies := [59.5];
        OffAxisAnalyzer.e_amplitudes := [10] |}]
  = Ok ((2, 1),
        [msg_header; msg_slope 2 (sqrt 4); msg_intercept 1 (sqrt 9);
         msg_linear_sufficient]).
Proof.
  assert (Hq : Rabs 0 < 0.001) by (rewrite Rabs_R0; lra).
  split.
  - unfold GammaDetAnalyzer.calibrate_detector. simpl.
    destruct (Rlt_dec (Rabs 0) 0.001); [reflexivity | contradiction].
  - unfold OffAxisAnalyzer.calibrate_detector. simpl.
    destruct (Rlt_dec (Rabs 0) 0.001); [reflexivity | contradiction].
Qed.

(* ===================================================================== *)
(** ** The records of the orchestrator *)
(* ===================================================================== *)

Section OrchestratorFacts.
Context {ext : Externals}.

Lemma roi_data_models (file : string) (rois : list (string * (Z * Z)))
  (t : Z) (bg : option (list R)) (CdTe : bool) (channels : list Z)
  (A C : list R) (roi_data : list (string * list Z * list R)) :
  load_and_extract_roi file rois t bg CdTe = Ok (channels, A, C, roi_data) ->
  map (fun roi => fst (fst roi)) roi_data = map fst rois.
Proof.
  rewrite load_and_extract_roi_unfold. intros E.
  apply bind_Ok_inv in E as ([ch A'] & _ & E).
  apply bind_Ok_inv in E as (net & _ & E).
  apply bind_Ok_inv in E as (rd & Hrd & E).
  inversion E; subst. clear E.
  revert roi_data Hrd.
  induction rois as [| [model [lo hi]] rois IH]; intros roi_data Hrd;
    simpl in Hrd.
  - now inversion Hrd.
  - apply bind_Ok_inv in Hrd as ([[m rc] rn] & Hone & Hrd).
    apply bind_Ok_inv in Hrd as (rest & Hrest & Hrd).
    apply bind_Ok_inv in Hone as ([rc' rn'] & _ & Hone).
    inversion Hone; inversion Hrd; subst. simpl.
    f_equal. now apply IH.
Qed.

(** One fitted ROI adds to the three peak lists the columns of the same
    one or two peaks, and leaves the list of summed count rates alone. *)
Lemma collect_peak_columns (t c s a : list R) (model : string)
  (popt : list R) (acc' : list R * list R * list R * list R) :
  GammaDetAnalyzer.collect_peak (t, c, s, a) model popt = Ok acc' ->
  exists peaks,
    length peaks = peaks_of_model model /\
    acc' = (t, c ++ map peak_centroid peaks, s ++ map peak_sigma peaks,
            a ++ map peak_amplitude peaks).
Proof.
  unfold GammaDetAnalyzer.collect_peak, peaks_of_model.
  destruct (String.eqb model "gaussian");
    [| destruct (String.eqb model "double_gaussian")]; intros E.
  - apply bind_Ok_inv in E as (p3 & _ & E).
    apply bind_Ok_inv in E as (p4 & _ & E).
    apply bind_Ok_inv in E as (p5 & _ & E).
    exists [(p3, p4, p5)]. split; [reflexivity | now inversion E].
  - apply bind_Ok_inv in E as (p3 & _ & E).
    apply bind_Ok_inv in E as (p6 & _ & E).
    apply bind_Ok_inv in E as (p4 & _ & E).
    apply bind_Ok_inv in E as (p7 & _ & E).
    apply bind_Ok_inv in E as (p5 & _ & E).
    apply bind_Ok_inv in E as (p8 & _ & E).
    exists [(p3, p4, p5); (p6, p7, p8)].
    split; [reflexivity | now inversion E].
  - exists []. split; [reflexivity |]. inversion E. simpl.
    now rewrite !app_nil_r.
Qed.

Lemma roi_loop_columns (roi_data : list (string * list Z * list R)) :
  forall (t c s a : list R) (acc' : list R * list R * list R * list R),
    foldM (fun acc roi =>
             let '(model, roi_channels, roi_net_count_rates) := roi in
             '(popt, fit_func, perr) <-
               GammaDetAnalyzer.fit_peak roi_channels roi_net_count_rates
                 model ;;
             GammaDetAnalyzer.collect_peak acc model popt)
          roi_data (t, c, s, a) = Ok acc' ->
    exists peaks,
      length peaks
        = expected_peaks (map (fun roi => fst (fst roi)) roi_data) /\
      acc' = (t, c ++ map peak_centroid peaks, s ++ map peak_sigma peaks,
              a ++ map peak_amplitude peaks).
Proof.
  induction roi_data as [| [[model rc] rn] roi_data IH];
    intros t c s a acc' E; simpl in E.
  - exists []. split; [reflexivity |]. inversion E. simpl.
    now rewrite !app_nil_r.
  - apply bind_Ok_inv in E as (acc1 & Hone & E).
    apply bind_Ok_inv in Hone as ([[popt f] txt] & _ & Hone).
    apply collect_peak_columns in Hone as (pk1 & Hlen1 & ->).
    apply IH in E as (pk2 & Hlen2 & ->).
    exists (pk1 ++ pk2). split.
    + rewrite length_app, Hlen1, Hlen2. reflexivity.
    + now rewrite !map_app, !app_assoc.
Qed.

(** What [process_spectrum] of [GammaDetAnalyzer.py] appends.  A
    background spectrum leaves [isotope_data] as it is.  Any other
    spectrum, when the call returns, adds exactly one entry: the label, the
    energies of the descriptor, and the centroids, sigmas and amplitudes of
    one list of fitted peaks (so the three are aligned), one peak per
    ["gaussian"] ROI and two per ["double_gaussian"] ROI.  Its list of
    summed ROI count rates is empty whatever the ROIs. *)
Lemma process_spectrum_entry (s : spectrum) (bg : option (list R))
  (isotope_data data' : list GammaDetAnalyzer.isotope_entry) (CdTe : bool) :
  GammaDetAnalyzer.process_spectrum s bg isotope_data CdTe = Ok data' ->
  (isotope s = LStr "Background" /\ data' = isotope_data)
  \/
  (isotope s <> LStr "Background" /\
   exists peaks,
     length peaks = expected_peaks (map fst (rois s)) /\
     data' = isotope_data ++
       [{| GammaDetAnalyzer.e_isotope := isotope s;
           GammaDetAnalyzer.e_total_roi_count_rates := [];
           GammaDetAnalyzer.e_centroids := map peak_centroid peaks;
           GammaDetAnalyzer.e_sigmas := map peak_sigma peaks;
           GammaDetAnalyzer.e_energies := energies s;
           GammaDetAnalyzer.e_amplitudes := map peak_amplitude peaks |}]).
Proof.
  unfold GammaDetAnalyzer.process_spectrum.
  destruct (label_eqb (isotope s) "Background") eqn:Hbg; intros E.
  - left. apply label_eqb_eq in Hbg. now inversion E.
  - right. apply label_eqb_neq in Hbg. split; [exact Hbg |].
    apply bind_Ok_inv in E as ([[[channels A] C] roi_data] & Hload & E).
    apply bind_Ok_inv in E as ([[[t c] sg] a] & Hloop & E).
    apply roi_loop_columns in Hloop as (peaks & Hlen & Hacc).
    inversion Hacc; subst. inversion E; subst.
    exists peaks. split; [| reflexivity].
    now rewrite Hlen, (roi_data_models _ _ _ _ _ _ _ _ _ Hload).
Qed.

End OrchestratorFacts.

Section OffAxisFacts.
Context {ext : Externals}.

Lemma off_axis_roi_loop_lengths
  (roi_data : list (string * list Z * list R)) :
  forall (t c s a t' c' s' a' : list R),
    foldM (fun (acc : list R * list R * list R * list R) roi =>
             let '(total_roi_count_rates, centroids, sigmas, amplitudes) :=
               acc in
             let '(model, roi_channels, roi_net_count_rates) := roi in
             '(popt, _, _) <-
               OffAxisAnalyzer.fit_peak roi_channels roi_net_count_rates
                 model ;;
             let total_roi_count_rate := np_sum roi_net_count_rates in
             p3 <- py_index popt 3 ;;
             p4 <- py_index popt 4 ;;
             p5 <- py_index popt 5 ;;
             Ok (total_roi_count_rates ++ [total_roi_count_rate],
                 centroids ++ [p3], sigmas ++ [p4], amplitudes ++ [p5]))
          roi_data (t, c, s, a) = Ok (t', c', s', a') ->
    t' = t ++ map (fun roi => np_sum (snd roi)) roi_data /\
    length c' = (length c + length roi_data)%nat /\
    length s' = (length s + length roi_data)%nat /\
    length a' = (length a + length roi_data)%nat.
Proof.
  induction roi_data as [| [[model rc] rn] roi_data IH];
    intros t c s a t' c' s' a' E; simpl in E.
  - inversion E; subst. simpl. rewrite app_nil_r.
    split; [reflexivity | lia].
  - apply bind_Ok_inv in E as ([[[t1 c1] s1] a1] & Hone & E).
    apply bind_Ok_inv in Hone as ([[popt f] perr] & _ & Hone).
    apply bind_Ok_inv in Hone as (p3 & _ & Hone).
    apply bind_Ok_inv in Hone as (p4 & _ & Hone).
    apply bind_Ok_inv in Hone as (p5 & _ & Hone).
    inversion Hone; subst.
    apply IH in E as (-> & Hc & Hs & Ha).
    rewrite Hc, Hs, Ha, !length_app, <- app_assoc. simpl.
    split; [reflexivity | lia].
Qed.

(** X22.  The sibling: [process_spectrum] of [OffAxisAnalyzer.py] does fill the
    list of summed ROI count rates, one sum per ROI, next to one centroid,
    sigma and amplitude per ROI. *)
Lemma off_axis_process_spectrum_entry (s : spectrum)
  (bg : option (list R))
  (isotope_data data' : list OffAxisAnalyzer.angle_entry) (CdTe : bool) :
  OffAxisAnalyzer.process_spectrum s bg isotope_data CdTe = Ok data' ->
  isotope s <> LStr "Background" ->
  exists e,
    data' = isotope_data ++ [e] /\
    OffAxisAnalyzer.e_degrees e = isotope s /\
    OffAxisAnalyzer.e_energies e = energies s /\
    length (OffAxisAnalyzer.e_total_roi_count_rates e) = length (rois s) /\
    length (OffAxisAnalyzer.e_centroids e) = length (rois s) /\
    length (OffAxisAnalyzer.e_sigmas e) = length (rois s) /\
    length (OffAxisAnalyzer.e_amplitudes e) = length (rois s).
Proof.
  unfold OffAxisAnalyzer.process_spectrum. intros E Hbg.
  apply label_eqb_neq in Hbg. rewrite Hbg in E.
  apply bind_Ok_inv in E as ([[[channels A] C] roi_data] & Hload & E).
  apply bind_Ok_inv in E as ([[[t c] sg] a] & Hloop & E).
  apply off_axis_roi_loop_lengths in Hloop as (Ht & Hc & Hs & Ha).
  assert (Hn : length roi_data = length (rois s)).
  { rewrite <- (length_map (fun roi => fst (fst roi)) roi_data),
      (roi_data_models _ _ _ _ _ _ _ _ _ Hload).
    apply length_map. }
  inversion E; subst. eexists. split; [reflexivity |]. simpl.
  rewrite length_map, Hc, Hs, Ha, Hn. simpl.
  split; [reflexivity | split; [reflexivity | lia]].
Qed.

End OffAxisFacts.

(** The net count rates of the bench spectrum under the bench background
    of 2 counts per second. *)
Lemma bench_load_and_extract_roi :
  load_and_extract_roi (ext := Bench.externals) "am.Spe"
    [("gaussian"%string, (1, 4)%Z)] 10 (Some [2; 2; 2; 2; 2]) false
  = Ok ([0; 1; 2; 3; 4]%Z, [30 / 10; 10 / 10; 50 / 10; 20 / 10; 40 / 10],
        [1; 0; 3; 0; 2],
        [("gaussian"%string, [1; 2; 3]%Z, [0; 3; 0])]).
Proof.
  assert (E : map (fun ab => py_max (fst ab - snd ab) 0)
                (combine [30 / 10; 10 / 10; 50 / 10; 20 / 10; 40 / 10]
                         [2; 2; 2; 2; 2])
              = [1; 0; 3; 0; 2]).
  { simpl. rewrite !py_max_Rmax.
    replace (Rmax (30 / 10 - 2) 0) with 1 by (rmax_by_lra).
    replace (Rmax (10 / 10 - 2) 0) with 0 by (rmax_by_lra).
    replace (Rmax (50 / 10 - 2) 0) with 3 by (rmax_by_lra).
    replace (Rmax (20 / 10 - 2) 0) with 0 by (rmax_by_lra).
    replace (Rmax (40 / 10 - 2) 0) with 2 by (rmax_by_lra).
    reflexivity. }
  rewrite load_and_extract_roi_unfold.
  change (load_file (ext := Bench.externals) false "am.Spe" 10)
    with (Ok ([0; 1; 2; 3; 4]%Z,
              [30 / 10; 10 / 10; 50 / 10; 20 / 10; 40 / 10])).
  cbn [bind subtract_background]. rewrite E. reflexivity.
Qed.

(** C9, the code at a failing input.  The bench spectrum has one ROI.
    The entry that [GammaDetAnalyzer.py] appends for it has an empty list
    of summed ROI count rates; the entry of [OffAxisAnalyzer.py], for the
    same spectrum, has the one sum, 3.  A background spectrum appends
    nothing. *)
Theorem process_spectrum_summed_count_rates :
  GammaDetAnalyzer.process_spectrum (ext := Bench.externals)
    Bench.am (Some [2; 2; 2; 2; 2]) [] false
  = Ok [{| GammaDetAnalyzer.e_isotope := LStr "241-Am";
           GammaDetAnalyzer.e_total_roi_count_rates := [];
           GammaDetAnalyzer.e_centroids := [2];
           GammaDetAnalyzer.e_sigmas := [1];
           GammaDetAnalyzer.e_energies := [59.5];
           GammaDetAnalyzer.e_amplitudes := [10] |}]
  /\
  OffAxisAnalyzer.process_spectrum (ext := Bench.externals)
    Bench.am (Some [2; 2; 2; 2; 2]) [] false
  = Ok [{| OffAxisAnalyzer.e_degrees := LStr "241-Am";
           OffAxisAnalyzer.e_total_roi_count_rates := [0 + (3 + (0 + 0))];
           OffAxisAnalyzer.e_centroids := [2];
           OffAxisAnalyzer.e_sigmas := [1];
           OffAxisAnalyzer.e_energies := [59.5];
           OffAxisAnalyzer.e_amplitudes := [10] |}]
  /\
  GammaDetAnalyzer.process_spectrum (ext := Bench.externals)
    Bench.bg (Some [2; 2; 2; 2; 2]) [Bench.am_entry] false
  = Ok [Bench.am_entry].
Proof.
  split; [| split; [| reflexivity]].
  - unfold GammaDetAnalyzer.process_spectrum.
    change (label_eqb (isotope Bench.am) "Background") with false.
    cbv iota.
    change (load_and_extract_roi (file_path Bench.am) (rois Bench.am)
              (measurement_time Bench.am) (Some [2; 2; 2; 2; 2]) false)
      with (load_and_extract_roi (ext := Bench.externals) "am.Spe"
              [("gaussian"%string, (1, 4)%Z)] 10 (Some [2; 2; 2; 2; 2]) false).
    rewrite bench_load_and_extract_roi. reflexivity.
  - unfold OffAxisAnalyzer.process_spectrum.
    change (label_eqb (isotope Bench.am) "Background") with false.
    cbv iota.
    change (load_and_extract_roi (file_path Bench.am) (rois Bench.am)
              (measurement_time Bench.am) (Some [2; 2; 2; 2; 2]) false)
      with (load_and_extract_roi (ext := Bench.externals) "am.Spe"
              [("gaussian"%string, (1, 4)%Z)] 10 (Some [2; 2; 2; 2; 2]) false).
    rewrite bench_load_and_extract_roi. reflexivity.
Qed.

(* ===================================================================== *)
(** ** The line scanners *)
(* ===================================================================== *)

Section ScannerFacts.
Variables start stop : string.

Lemma scan_header (header rest : list string) (acc : list Z) :
  Forall (fun line => Scanner.contains start line = false) header ->
  Scanner.scan start stop (header ++ rest) false acc
  = Scanner.scan start stop rest false acc.
Proof.
  induction 1 as [| line header Hline _ IH]; simpl; [reflexivity |].
  now rewrite Hline.
Qed.

Lemma scan_counts (body : list string) (counts : list Z) :
  Forall2 (count_line start) body counts ->
  forall (rest : list string) (acc : list Z),
    Scanner.scan start stop (body ++ rest) true acc
    = Scanner.scan start stop rest true (acc ++ counts).
Proof.
  induction 1 as [| line c body counts (Hs & Hd & Hi) _ IH];
    intros rest acc; simpl.
  - now rewrite app_nil_r.
  - rewrite Hs, Hd, Hi. simpl. rewrite IH, <- app_assoc. reflexivity.
Qed.

(** X1.  A well-formed file.  When no line before the first start line
    contains the start sentinel, and the start line is followed by count
    lines up to the end of the file or up to an end line, the scan returns
    the counts of those lines in order: the header is ignored, and so is
    everything after the end line. *)
Theorem scan_well_formed (header body rest : list string)
  (start_line : string) (counts : list Z) :
  Forall (fun line => Scanner.contains start line = false) header ->
  Scanner.contains start start_line = true ->
  Forall2 (count_line start) body counts ->
  rest = [] \/
  (exists end_ tail, rest = end_ :: tail /\ end_line start stop end_) ->
  Scanner.scan start stop (header ++ start_line :: body ++ rest) false []
  = Ok counts.
Proof.
  intros Hheader Hstart Hbody Hrest.
  rewrite scan_header by exact Hheader. simpl. rewrite Hstart.
  rewrite (scan_counts body counts Hbody). simpl.
  destruct Hrest as [-> | (end_ & tail & -> & Hs & Hd & He)];
    [reflexivity |].
  simpl. now rewrite Hs, Hd, He.
Qed.

(** X2.  Lines that change nothing.  Anywhere in a file, a line that is no
    start line, no count line and no end line can be inserted or removed
    without changing the scan; once reading is on, so can a further start
    line, although it begins like an end line. *)
Theorem scan_passed_over (before after : list string) (line : string)
  (reading_data : bool) (acc : list Z) :
  passed_over start stop line \/
  (Scanner.contains start line = true /\ reading_data = true) ->
  Scanner.scan start stop (before ++ line :: after) reading_data acc
  = Scanner.scan start stop (before ++ after) reading_data acc.
Proof.
  revert reading_data acc.
  induction before as [| l before IH]; intros reading_data acc Hline; simpl.
  - destruct Hline as [(Hs & Hd & He) | [Hs ->]].
    + rewrite Hs, Hd, He. now destruct reading_data.
    + now rewrite Hs.
  - destruct (Scanner.contains start l).
    + apply IH. destruct Hline as [Hp | [Hs _]]; [now left | now right].
    + destruct reading_data.
      * destruct (Scanner.isdigit (Scanner.strip l)).
        -- destruct (Scanner.int (Scanner.strip l)) as [n | e]; simpl;
             [now apply IH | reflexivity].
        -- destruct (Scanner.startswith l stop); [reflexivity |].
           now apply IH.
      * apply IH. destruct Hline as [Hp | [_ Hr]]; [now left | discriminate].
Qed.

Lemma int_from_nonneg (s : string) :
  forall acc n, Scanner.int_from acc s = Ok n -> (0 <= acc)%Z -> (0 <= n)%Z.
Proof.
  induction s as [| c s IH]; intros acc n E Hacc;
    cbn [Scanner.int_from] in E.
  - inversion E; subst. exact Hacc.
  - destruct (_ && _); [| discriminate].
    apply (IH _ _ E). lia.
Qed.

Lemma scan_nonneg (lines : list string) :
  forall reading_data acc counts,
    Scanner.scan start stop lines reading_data acc = Ok counts ->
    Forall (fun c => 0 <= c)%Z acc ->
    Forall (fun c => 0 <= c)%Z counts.
Proof.
  induction lines as [| l lines IH]; simpl; intros r acc counts E Hacc.
  - inversion E; subst. exact Hacc.
  - destruct (Scanner.contains start l); [now apply (IH _ _ _ E) |].
    destruct r; [| now apply (IH _ _ _ E)].
    destruct (Scanner.isdigit (Scanner.strip l)).
    + destruct (Scanner.int (Scanner.strip l)) as [n |] eqn:Hn;
        [| discriminate].
      simpl in E. apply (IH _ _ _ E).
      apply Forall_app. split; [exact Hacc |].
      constructor; [| constructor].
      apply (int_from_nonneg _ _ _ Hn). reflexivity.
    + destruct (Scanner.startswith l stop);
        [inversion E; subst; exact Hacc | now apply (IH _ _ _ E)].
Qed.

(** X3.  A line of digits that [int] refuses.  A line that passes [isdigit]
    but holds a superscript digit makes [int] raise, and the scan with it:
    the counts read so far are lost. *)
Theorem scan_refused_digits (header body rest : list string)
  (start_line bad : string) (counts : list Z) (e : pyexn) :
  Forall (fun line => Scanner.contains start line = false) header ->
  Scanner.contains start start_line = true ->
  Forall2 (count_line start) body counts ->
  Scanner.contains start bad = false ->
  Scanner.isdigit (Scanner.strip bad) = true ->
  Scanner.int (Scanner.strip bad) = Raise e ->
  Scanner.scan start stop (header ++ start_line :: body ++ bad :: rest)
    false []
  = Raise e.
Proof.
  intros Hheader Hstart Hbody Hs Hd Hi.
  rewrite scan_header by exact Hheader. simpl. rewrite Hstart.
  rewrite (scan_counts body counts Hbody). simpl.
  now rewrite Hs, Hd, Hi.
Qed.

End ScannerFacts.

(** An SPE file: a header, the start line, the channel range (passed
    over), four counts with blanks around them, the next section, and a
    number after it that is never read. *)
Lemma scan_well_formed_witness :
  Scanner.spe_counts
    ["$SPEC_ID:"; "No sample description"; "$DATA:";
     "   12"; "7 "; "0"; "  105  "; "$ROI:"; "99"]%string
  = Ok [12; 7; 0; 105]%Z.
Proof.
  apply (scan_well_formed "$DATA:" "$"
           ["$SPEC_ID:"; "No sample description"]%string
           ["   12"; "7 "; "0"; "  105  "]%string
           ["$ROI:"; "99"]%string "$DATA:" [12; 7; 0; 105]%Z).
  - repeat constructor.
  - reflexivity.
  - repeat constructor.
  - right. exists "$ROI:"%string, ["99"%string].
    repeat split; reflexivity.
Defined.

(** The channel range ["0 1023"] after the start line of an SPE file, and
    a second start line of an MCA file, are passed over. *)
Lemma scan_passed_over_witness :
  Scanner.scan "$DATA:" "$"
    (["$DATA:"%string] ++ "0 1023"%string :: ["12"%string; "7"%string])
    true []
  = Scanner.scan "$DATA:" "$"
      (["$DATA:"%string] ++ ["12"%string; "7"%string]) true []
  /\
  Scanner.scan "<<DATA>>" "<<"
    (["<<DATA>>"%string; "12"%string] ++ "<<DATA>>"%string :: ["7"%string])
    true []
  = Scanner.scan "<<DATA>>" "<<"
      (["<<DATA>>"%string; "12"%string] ++ ["7"%string]) true [].
Proof.
  split.
  - apply (scan_passed_over "$DATA:" "$"). left. repeat split; reflexivity.
  - apply (scan_passed_over "<<DATA>>" "<<"). right. split; reflexivity.
Defined.

(** The line "1" followed by a superscript two. *)
Lemma scan_refused_digits_witness :
  Scanner.spe_counts
    ["$DATA:"%string; "12"%string;
     String (Ascii.ascii_of_nat 49) (String (Ascii.ascii_of_nat 178) EmptyString);
     "7"%string]
  = Raise (ValueError "invalid literal for int() with base 10").
Proof.
  apply (scan_refused_digits "$DATA:" "$" [] ["12"%string] ["7"%string]
           "$DATA:"
           (String (Ascii.ascii_of_nat 49) (String (Ascii.ascii_of_nat 178) EmptyString))
           [12%Z]); try reflexivity.
  - constructor.
  - repeat constructor.
Defined.

(* ===================================================================== *)
(** ** The loaders *)
(* ===================================================================== *)

Section LoaderFacts.
Context {ext : Externals}.

Lemma mapM_checked {A B : Type} (f : A -> result B) (ok : A -> bool)
  (g : A -> B) (e : pyexn) (l : list A) :
  (forall a, f a = if ok a then Ok (g a) else Raise e) ->
  mapM f l = if forallb ok l then Ok (map g l) else Raise e.
Proof.
  intros Hf. induction l as [| a l IH]; simpl; [reflexivity |].
  rewrite Hf. destruct (ok a); simpl; [| reflexivity].
  rewrite IH. now destruct (forallb ok l).
Qed.

Lemma load_file_of_counts (CdTe : bool) (file : string) (t : Z)
  (counts : list Z) :
  read_counts CdTe file = Ok counts ->
  load_file CdTe file t
  = if (t =? 0)%Z then
      match counts with
      | [] => Ok ([], [])
      | _ :: _ => Raise ZeroDivisionError
      end
    else if forallb (fits_float t) counts then
      Ok (py_range (length counts), map (fun c => IZR c / IZR t) counts)
    else Raise OverflowError.
Proof.
  intros Hread.
  assert (E : load_file CdTe file t
              = (counts <- read_counts CdTe file ;;
                 count_rates <-
                   mapM (fun count => py_truediv count t) counts ;;
                 Ok (py_range (length count_rates), count_rates)))
    by (unfold load_file, read_counts; now destruct CdTe).
  rewrite E, Hread. cbn [bind]. unfold py_truediv.
  destruct (t =? 0)%Z.
  - destruct counts; reflexivity.
  - rewrite (mapM_checked _ (fits_float t) (fun c => IZR c / IZR t)
               OverflowError).
    + destruct (forallb (fits_float t) counts); cbn [bind];
        [now rewrite length_map | reflexivity].
    + intros c. unfold fits_float.
      now destruct (float_overflow * Z.abs t <=? Z.abs c)%Z.
Qed.

(** X4.  What a loader makes of the counts.  With a non-zero measurement
    time, when every count over the time is small enough for a float, the
    channels are 0, 1, ..., n-1 and every rate is its count over the time;
    a count too large for that raises an [OverflowError].  With a zero
    measurement time the first count raises a [ZeroDivisionError], and a
    file without counts still loads, as two empty series. *)
Theorem load_file_shape (CdTe : bool) (file : string) (t : Z)
  (counts : list Z) :
  read_counts CdTe file = Ok counts ->
  load_file CdTe file t
  = if (t =? 0)%Z then
      match counts with
      | [] => Ok ([], [])
      | _ :: _ => Raise ZeroDivisionError
      end
    else if forallb (fits_float t) counts then
      Ok (py_range (length counts), map (fun c => IZR c / IZR t) counts)
    else Raise OverflowError.
Proof. exact (load_file_of_counts CdTe file t counts). Qed.

Lemma clamp_nonneg (A B : list R) :
  Forall (fun r => 0 <= r)
         (map (fun ab => py_max (fst ab - snd ab) 0) (combine A B)).
Proof.
  apply Forall_forall. intros r Hr. apply in_map_iff in Hr as (ab & <- & _).
  rewrite py_max_Rmax. apply Rmax_r.
Qed.

Lemma np_mask_select_incl {A : Type} (mask : list bool) :
  forall (l : list A) (a : A), In a (np_mask_select mask l) -> In a l.
Proof.
  induction mask as [| b mask IH]; intros [| v l] a Hin; simpl in *;
    try contradiction.
  destruct b; [destruct Hin as [-> | Hin] |]; auto.
Qed.

(** X6.  Nothing negative reaches the fitter.  Whenever
    [load_and_extract_roi] returns, every background-subtracted rate is
    non-negative, in the full series and in every ROI. *)
Theorem net_rates_nonneg (file : string) (rois : list (string * (Z * Z)))
  (t : Z) (bg : option (list R)) (CdTe : bool) (channels : list Z)
  (A C : list R) (roi_data : list (string * list Z * list R)) :
  load_and_extract_roi file rois t bg CdTe = Ok (channels, A, C, roi_data) ->
  Forall (fun r => 0 <= r) C /\
  Forall (fun roi => Forall (fun r => 0 <= r) (snd roi)) roi_data.
Proof.
  rewrite load_and_extract_roi_unfold. intros E.
  apply bind_Ok_inv in E as ([ch A'] & _ & E).
  apply bind_Ok_inv in E as (net & Hnet & E).
  apply bind_Ok_inv in E as (rd & Hrd & E).
  inversion E; subst. clear E.
  assert (HC : Forall (fun r => 0 <= r) C).
  { destruct bg as [B |]; [| discriminate].
    inversion Hnet. apply clamp_nonneg. }
  split; [exact HC |].
  revert roi_data Hrd.
  induction rois as [| [model [lo hi]] rois IH]; intros roi_data Hrd;
    simpl in Hrd.
  - inversion Hrd. constructor.
  - apply bind_Ok_inv in Hrd as ([[m rc] rn] & Hone & Hrd).
    apply bind_Ok_inv in Hrd as (rest & Hrest & Hrd).
    apply bind_Ok_inv in Hone as ([rc' rn'] & Hf & Hone).
    inversion Hone; inversion Hrd; subst. constructor; [| now apply IH].
    simpl. unfold filter_in_interval in Hf.
    destruct (negb _); [discriminate |]. inversion Hf; subst.
    apply Forall_forall. intros r Hr.
    apply np_mask_select_incl in Hr.
    now apply (proj1 (Forall_forall _ _) HC).
Qed.

(** Rates loaded from a scanned file over a positive measurement time are
    non-negative: the scanners read no sign. *)
Lemma scanned_rates_nonneg (CdTe : bool) (file : string) (t : Z)
  (lines : list string) (channels : list Z) (A : list R) :
  read_counts CdTe file
  = (if CdTe then Scanner.mca_counts lines else Scanner.spe_counts lines) ->
  (0 < t)%Z ->
  load_file CdTe file t = Ok (channels, A) ->
  Forall (fun r => 0 <= r) A.
Proof.
  intros Hread Ht Hload.
  destruct (read_counts CdTe file) as [counts | e] eqn:Hcounts.
  - rewrite (load_file_of_counts CdTe file t counts Hcounts) in Hload.
    assert (Hz : (t =? 0)%Z = false) by (apply Z.eqb_neq; lia).
    rewrite Hz in Hload.
    destruct (forallb (fits_float t) counts); [| discriminate].
    inversion Hload; subst.
    assert (Hnn : Forall (fun c => 0 <= c)%Z counts).
    { destruct CdTe; symmetry in Hread;
        apply scan_nonneg in Hread; auto. }
    apply Forall_forall. intros r Hr.
    apply in_map_iff in Hr as (c & <- & Hc).
    apply (proj1 (Forall_forall _ _) Hnn) in Hc.
    apply Rmult_le_pos; [now apply IZR_le |].
    apply Rlt_le, Rinv_0_lt_compat. now apply IZR_lt.
  - exfalso. unfold load_file, read_counts, load_mca_file, load_spe_file in *.
    destruct CdTe; rewrite Hcounts in Hload; discriminate.
Qed.

Lemma clamp_zero_background (A B : list R) :
  Forall (fun r => 0 <= r) A ->
  Forall (fun b => b = 0) B ->
  (length A <= length B)%nat ->
  map (fun ab => py_max (fst ab - snd ab) 0) (combine A B) = A.
Proof.
  intros HA. revert B. induction HA as [| a A Ha _ IH];
    intros [| b B] HB Hlen; simpl in *; try reflexivity; try lia.
  inversion HB; subst. rewrite IH by (auto; lia).
  f_equal. rewrite py_max_Rmax, Rminus_0_r, Rmax_left; [reflexivity | lra].
Qed.

(** X7.  A background of zeros changes nothing.  For a scanned file measured
    over a positive time, subtracting a background that is zero in every
    channel returns the loaded count rates themselves. *)
Theorem zero_background_identity (CdTe : bool) (file : string) (t : Z)
  (lines : list string) (rois : list (string * (Z * Z)))
  (channels : list Z) (A B : list R) :
  read_counts CdTe file
  = (if CdTe then Scanner.mca_counts lines else Scanner.spe_counts lines) ->
  (0 < t)%Z ->
  load_file CdTe file t = Ok (channels, A) ->
  Forall (fun b => b = 0) B ->
  (length A <= length B)%nat ->
  load_and_extract_roi file rois t (Some B) CdTe
  = Ok (channels, A, A, roi_tuples channels A rois).
Proof.
  intros Hread Ht Hload HB Hlen.
  pose proof (scanned_rates_nonneg _ _ _ _ _ _ Hread Ht Hload) as HA.
  rewrite load_and_extract_roi_unfold, Hload. simpl.
  rewrite clamp_zero_background by assumption.
  rewrite roi_loop_Ok; [reflexivity |].
  now rewrite (load_file_channels _ _ _ _ _ Hload), length_py_range.
Qed.

(** X5.  A file without a start line.  When no line of the file contains the
    start sentinel of its format, nothing is read: the file loads as the
    empty spectrum, without an error, whatever its other lines and
    whatever the measurement time. *)
Theorem file_without_start_line (CdTe : bool) (file : string) (t : Z)
  (lines : list string) :
  read_counts CdTe file
  = (if CdTe then Scanner.mca_counts lines else Scanner.spe_counts lines) ->
  Forall (fun line =>
            Scanner.contains (if CdTe then "<<DATA>>" else "$DATA:") line
            = false) lines ->
  load_file CdTe file t = Ok ([], []).
Proof.
  intros Hread Hlines.
  assert (Hcounts : read_counts CdTe file = Ok []).
  { rewrite Hread. unfold Scanner.mca_counts, Scanner.spe_counts.
    destruct CdTe; rewrite <- (app_nil_r lines), scan_header by exact Hlines;
      reflexivity. }
  rewrite (load_file_of_counts CdTe file t [] Hcounts).
  now destruct (t =? 0)%Z.
Qed.

End LoaderFacts.

(* ===================================================================== *)
(** ** ROIs as slices *)
(* ===================================================================== *)

Lemma in_roi_of_nat (lo hi : Z) (i : nat) :
  in_roi lo hi (Z.of_nat i)
  = andb (Nat.leb (Z.to_nat lo) i) (Nat.ltb i (Z.to_nat hi)).
Proof.
  unfold in_roi. f_equal.
  - destruct (Z.leb_spec lo (Z.of_nat i)), (Nat.leb_spec (Z.to_nat lo) i);
      try reflexivity; lia.
  - destruct (Z.ltb_spec (Z.of_nat i) hi), (Nat.ltb_spec i (Z.to_nat hi));
      try reflexivity; lia.
Qed.

(** A mask that is true exactly on the window [[a, b)] of the positions
    [s, s+1, ...] selects a slice. *)
Lemma np_mask_select_window {A : Type} (a b : nat) (y : list A) :
  forall s : nat,
    np_mask_select
      (map (fun i => andb (Nat.leb a i) (Nat.ltb i b)) (seq s (length y))) y
    = firstn (Nat.min (s + length y) b - Nat.max s a)
             (skipn (Nat.max s a - s) y).
Proof.
  induction y as [| v y IH]; intros s;
    cbn [length seq map np_mask_select].
  - now rewrite skipn_nil, firstn_nil.
  - rewrite IH.
    destruct (Nat.leb_spec a s) as [Has | Has];
      destruct (Nat.ltb_spec s b) as [Hsb | Hsb]; cbn [andb].
    + replace (Nat.max s a - s)%nat with 0%nat by lia.
      replace (Nat.max (S s) a - S s)%nat with 0%nat by lia.
      replace (Nat.min (s + S (length y)) b - Nat.max s a)%nat
        with (S (Nat.min (S s + length y) b - Nat.max (S s) a)) by lia.
      reflexivity.
    + replace (Nat.min (s + S (length y)) b - Nat.max s a)%nat
        with 0%nat by lia.
      replace (Nat.min (S s + length y) b - Nat.max (S s) a)%nat
        with 0%nat by lia.
      reflexivity.
    + replace (Nat.max s a - s)%nat with (S (Nat.max (S s) a - S s)) by lia.
      replace (Nat.min (s + S (length y)) b - Nat.max s a)%nat
        with (Nat.min (S s + length y) b - Nat.max (S s) a)%nat by lia.
      reflexivity.
    + replace (Nat.min (s + S (length y)) b - Nat.max s a)%nat
        with 0%nat by lia.
      replace (Nat.min (S s + length y) b - Nat.max (S s) a)%nat
        with 0%nat by lia.
      reflexivity.
Qed.

Lemma np_mask_select_slice {A : Type} (a b n : nat) (y : list A) :
  length y = n ->
  np_mask_select
    (map (fun i => andb (Nat.leb a i) (Nat.ltb i b)) (seq 0 n)) y
  = firstn (Nat.min n b - a) (skipn a y).
Proof.
  intros <-. rewrite np_mask_select_window.
  now rewrite Nat.add_0_l, Nat.max_0_l, Nat.sub_0_r.
Qed.

Lemma firstn_of_seq (k : nat) :
  forall s n, firstn k (seq s n) = seq s (Nat.min k n).
Proof.
  induction k as [| k IH]; intros s [| n]; simpl; try reflexivity.
  now rewrite IH.
Qed.

Lemma in_interval_py_range (n : nat) (lo hi : Z) :
  in_interval (py_range n) lo hi
  = map (fun i => andb (Nat.leb (Z.to_nat lo) i) (Nat.ltb i (Z.to_nat hi)))
        (seq 0 n).
Proof.
  unfold in_interval, py_range. rewrite map_map.
  apply map_ext. intros i. apply in_roi_of_nat.
Qed.

(** X8.  On the channels 0, ..., n-1 of a loaded spectrum the ROI [[lo, hi)] is
    the Python slice [[lo:hi]] (a negative bound counting as 0): the
    channels from [lo] up to [hi - 1] that exist, and the rates at these
    positions.  A ROI with [hi <= lo], or one that starts past the last
    channel, is empty. *)
Theorem roi_is_slice (n : nat) (y : list R) (lo hi : Z) :
  length y = n ->
  let a := Z.to_nat lo in
  let b := Nat.min n (Z.to_nat hi) in
  filter_in_interval (py_range n) y lo hi
  = Ok (map Z.of_nat (seq a (b - a)), firstn (b - a) (skipn a y)).
Proof.
  intros Hn a b.
  rewrite filter_in_interval_Ok by now rewrite length_py_range.
  rewrite in_interval_py_range. f_equal. f_equal.
  - rewrite np_mask_select_slice by apply length_py_range.
    unfold py_range.
    rewrite skipn_map, firstn_map, skipn_seq, firstn_of_seq.
    fold a. fold b. f_equal. f_equal; lia.
  - now rewrite np_mask_select_slice by exact Hn.
Qed.

(** Five channels and the ROI [[1, 4)]. *)
Lemma roi_is_slice_witness :
  filter_in_interval (py_range 5) [1; 0; 3; 0; 2] 1 4
  = Ok ([1; 2; 3]%Z, [0; 3; 0]).
Proof.
  rewrite (roi_is_slice 5 [1; 0; 3; 0; 2] 1 4 eq_refl). reflexivity.
Defined.

Lemma np_mask_select_snd {A B : Type} (p : A -> bool) (x : list A) :
  forall y : list B, length x = length y ->
    np_mask_select (map p x) y
    = map snd (filter (fun ab => p (fst ab)) (combine x y)).
Proof.
  induction x as [| a x IH]; intros [| b y] Hlen; simpl in *;
    try reflexivity; try discriminate.
  injection Hlen as Hlen. destruct (p a); simpl; now rewrite IH.
Qed.

Lemma filter_filter_and {A : Type} (p q : A -> bool) (l : list A) :
  filter q (filter p l) = filter (fun a => andb (p a) (q a)) l.
Proof.
  induction l as [| a l IH]; simpl; [reflexivity |].
  destruct (p a); simpl; [destruct (q a) |]; now rewrite IH.
Qed.

Lemma in_roi_inter (lo1 hi1 lo2 hi2 c : Z) :
  andb (in_roi lo1 hi1 c) (in_roi lo2 hi2 c)
  = in_roi (Z.max lo1 lo2) (Z.min hi1 hi2) c.
Proof.
  unfold in_roi.
  destruct (Z.leb_spec lo1 c), (Z.ltb_spec c hi1), (Z.leb_spec lo2 c),
    (Z.ltb_spec c hi2), (Z.leb_spec (Z.max lo1 lo2) c),
    (Z.ltb_spec c (Z.min hi1 hi2)); simpl; try reflexivity; lia.
Qed.

(** X9.  Extracting a ROI from an extracted ROI is extracting the
    intersection of the two intervals from the original series; in
    particular, extracting the same ROI twice changes nothing. *)
Theorem roi_of_roi (x : list Z) (y : list R) (lo1 hi1 lo2 hi2 : Z)
  (xs : list Z) (ys : list R) :
  filter_in_interval x y lo1 hi1 = Ok (xs, ys) ->
  filter_in_interval xs ys lo2 hi2
  = filter_in_interval x y (Z.max lo1 lo2) (Z.min hi1 hi2).
Proof.
  intros E.
  assert (Hlen : length x = length y).
  { unfold filter_in_interval in E.
    destruct (Nat.eqb (length x) (length y)) eqn:Hl;
      [now apply Nat.eqb_eq | discriminate]. }
  rewrite filter_in_interval_Ok in E by exact Hlen.
  inversion E as [[Hxs Hys]]. clear E. rewrite Hxs, Hys.
  assert (Hlen' : length xs = length ys)
    by (rewrite <- Hxs, <- Hys; now apply np_mask_select_length).
  rewrite !filter_in_interval_Ok by assumption.
  assert (Hpairs : combine xs ys
                   = filter (fun cy => in_roi lo1 hi1 (fst cy))
                            (combine x y))
    by (rewrite <- Hxs, <- Hys;
        apply (np_mask_select_pairs (in_roi lo1 hi1)), Hlen).
  assert (Hxs' : xs = filter (in_roi lo1 hi1) x)
    by (rewrite <- Hxs; apply (np_mask_select_self (in_roi lo1 hi1))).
  f_equal. f_equal.
  - rewrite (np_mask_select_self (in_roi lo2 hi2) xs : 
               np_mask_select (in_interval xs lo2 hi2) xs = _).
    rewrite (np_mask_select_self
               (in_roi (Z.max lo1 lo2) (Z.min hi1 hi2)) x :
               np_mask_select
                 (in_interval x (Z.max lo1 lo2) (Z.min hi1 hi2)) x = _).
    rewrite Hxs', filter_filter_and. apply filter_ext. intros c.
    apply in_roi_inter.
  - rewrite (np_mask_select_snd (in_roi lo2 hi2) xs ys Hlen' :
               np_mask_select (in_interval xs lo2 hi2) ys = _).
    rewrite (np_mask_select_snd
               (in_roi (Z.max lo1 lo2) (Z.min hi1 hi2)) x y Hlen :
               np_mask_select
                 (in_interval x (Z.max lo1 lo2) (Z.min hi1 hi2)) y = _).
    rewrite Hpairs, filter_filter_and.
    f_equal. apply filter_ext. intros cy. apply in_roi_inter.
Qed.

(** The ROI [[1, 4)] cut again to [[2, 9)] is the ROI [[2, 4)]. *)
Lemma roi_of_roi_witness :
  filter_in_interval [1; 2; 3]%Z [0; 3; 0] 2 9
  = filter_in_interval [0; 1; 2; 3; 4]%Z [1; 0; 3; 0; 2]
      (Z.max 1 2) (Z.min 4 9).
Proof.
  apply (roi_of_roi [0; 1; 2; 3; 4]%Z [1; 0; 3; 0; 2] 1 4 2 9).
  reflexivity.
Defined.

(** The scanned bench file over 10 s, and over 0 s; a file without data
    over 0 s; a file with a count of 10^400 over 200 s. *)
Lemma load_file_shape_witness :
  load_file (ext := ScanBench.externals) false "am.Spe" 10
    = Ok ([0; 1; 2; 3; 4]%Z, [30 / 10; 10 / 10; 50 / 10; 20 / 10; 40 / 10])
  /\ load_file (ext := ScanBench.externals) false "am.Spe" 0
    = Raise ZeroDivisionError
  /\ load_file (ext := ScanBench.externals) false "empty.Spe" 0
    = Ok ([], [])
  /\ load_file (ext := ScanBench.externals) false "hot.Spe" 200
    = Raise OverflowError.
Proof.
  split; [| split; [| split]].
  - rewrite (load_file_shape (ext := ScanBench.externals) false "am.Spe" 10
               [30; 10; 50; 20; 40]%Z eq_refl). reflexivity.
  - rewrite (load_file_shape (ext := ScanBench.externals) false "am.Spe" 0
               [30; 10; 50; 20; 40]%Z eq_refl). reflexivity.
  - rewrite (load_file_shape (ext := ScanBench.externals) false "empty.Spe" 0
               [] eq_refl). reflexivity.
  - rewrite (load_file_shape (ext := ScanBench.externals) false "hot.Spe" 200
               [10 ^ 400]%Z eq_refl). reflexivity.
Defined.

(** The bench spectrum under a background above it in two channels. *)
Lemma net_rates_nonneg_witness :
  Forall (fun r => 0 <= r) [1; 0; 3; 0; 2] /\
  Forall (fun roi : string * list Z * list R =>
            Forall (fun r => 0 <= r) (snd roi))
         [("gaussian"%string, [1; 2; 3]%Z, [0; 3; 0])].
Proof.
  exact (net_rates_nonneg (ext := Bench.externals) "am.Spe"
           [("gaussian"%string, (1, 4)%Z)] 10 (Some [2; 2; 2; 2; 2]) false
           _ _ _ _ bench_load_and_extract_roi).
Defined.

(** The scanned bench file under a background of five zeros. *)
Lemma zero_background_identity_witness :
  load_and_extract_roi (ext := ScanBench.externals) "am.Spe"
    [("gaussian"%string, (1, 4)%Z)] 10 (Some [0; 0; 0; 0; 0]) false
  = Ok ([0; 1; 2; 3; 4]%Z, [30 / 10; 10 / 10; 50 / 10; 20 / 10; 40 / 10],
        [30 / 10; 10 / 10; 50 / 10; 20 / 10; 40 / 10],
        [("gaussian"%string, [1; 2; 3]%Z, [10 / 10; 50 / 10; 20 / 10])]).
Proof.
  rewrite (zero_background_identity (ext := ScanBench.externals) false
             "am.Spe" 10
             ["$MEAS_TIM:"; "10 10"; "$DATA:"; "0 4";
              "      30"; "      10"; "      50"; "      20"; "      40";
              "$ROI:"; "0"]%string
             [("gaussian"%string, (1, 4)%Z)]
             [0; 1; 2; 3; 4]%Z
             [30 / 10; 10 / 10; 50 / 10; 20 / 10; 40 / 10]
             [0; 0; 0; 0; 0]).
  - reflexivity.
  - reflexivity.
  - lia.
  - reflexivity.
  - repeat constructor.
  - simpl. lia.
Defined.

(* ===================================================================== *)
(** ** The moment estimates *)
(* ===================================================================== *)

Lemma weighted_sum_between (w : R -> R) (m M : R) (x : list Z) :
  forall y : list R,
    length x = length y ->
    Forall (fun r => 0 <= r) y ->
    (forall c, In c x -> m <= w (IZR c) <= M) ->
    m * np_sum y <= weighted_sum w x y <= M * np_sum y.
Proof.
  unfold weighted_sum.
  induction x as [| c x IH]; intros [| v y] Hlen Hy Hw; simpl in *;
    try discriminate; [lra |].
  injection Hlen as Hlen. inversion Hy as [| ? ? Hv Hy']; subst.
  destruct (IH y Hlen Hy' (fun c' Hc' => Hw c' (or_intror Hc'))) as [IH1 IH2].
  destruct (Hw c (or_introl eq_refl)) as [Hm HM].
  split; nra.
Qed.

Lemma weighted_sum_scale (w : R -> R) (k : R) (x : list Z) :
  forall y : list R,
    weighted_sum w x (map (Rmult k) y) = k * weighted_sum w x y.
Proof.
  unfold weighted_sum.
  induction x as [| c x IH]; intros [| v y]; simpl; try ring.
  rewrite IH. ring.
Qed.

Lemma np_sum_scale (k : R) (y : list R) :
  np_sum (map (Rmult k) y) = k * np_sum y.
Proof.
  induction y as [| v y IH]; simpl; [ring | rewrite IH; ring].
Qed.

Lemma weighted_sum_ext (w1 w2 : R -> R) (x1 x2 : list Z) (y : list R) :
  Forall2 (fun c1 c2 => w1 (IZR c1) = w2 (IZR c2)) x1 x2 ->
  weighted_sum w1 x1 y = weighted_sum w2 x2 y.
Proof.
  unfold weighted_sum. intros H. revert y.
  induction H as [| c1 c2 x1 x2 Hc _ IH]; intros [| v y]; simpl;
    try reflexivity.
  now rewrite Hc, IH.
Qed.

Lemma weighted_sum_shift (d : Z) (x : list Z) :
  forall y : list R,
    length x = length y ->
    weighted_sum (fun c => c) (map (Z.add d) x) y
    = weighted_sum (fun c => c) x y + IZR d * np_sum y.
Proof.
  unfold weighted_sum.
  induction x as [| c x IH]; intros [| v y] Hlen; simpl in *;
    try discriminate; [ring |].
  injection Hlen as Hlen. rewrite IH by exact Hlen.
  rewrite plus_IZR. ring.
Qed.

(** X10.  The estimates lie where the data are.  For a ROI with non-negative
    rates that are not all zero, whose channels lie in [[lo, hi]], the
    centroid estimate lies in [[lo, hi]], the width estimate is the
    non-negative root of a non-negative variance and is at most [hi - lo],
    and the amplitude estimate is positive. *)
Theorem moment_estimates_in_range (x : list Z) (y : list R) (lo hi : Z) :
  length x = length y ->
  Forall (fun r => 0 <= r) y ->
  0 < np_sum y ->
  (forall c, In c x -> (lo <= c <= hi)%Z) ->
  exists mu0 sig0 a0,
    gaussian_initial_estimates x y = Ok (fin mu0, fin sig0, a0) /\
    IZR lo <= mu0 <= IZR hi /\
    0 <= sig0 <= IZR (hi - lo) /\
    sig0 * sig0 = moment_variance x y /\
    0 < a0.
Proof.
  intros Hlen Hy Hsum Hx.
  rewrite gaussian_initial_estimates_moments by (assumption || lra).
  rewrite np_sqrt_float_fin by now apply moment_variance_nonneg.
  exists (moment_centroid x y), (sqrt (moment_variance x y)), (np_sum y).
  assert (Hmu : IZR lo <= moment_centroid x y <= IZR hi).
  { destruct (weighted_sum_between (fun c => c) (IZR lo) (IZR hi) x y
                Hlen Hy) as [H1 H2].
    - intros c Hc. destruct (Hx c Hc). split; now apply IZR_le.
    - unfold moment_centroid. split.
      + apply Rmult_le_reg_r with (np_sum y); [exact Hsum |].
        unfold Rdiv. rewrite Rmult_assoc, Rinv_l by lra. lra.
      + apply Rmult_le_reg_r with (np_sum y); [exact Hsum |].
        unfold Rdiv. rewrite Rmult_assoc, Rinv_l by lra. lra. }
  assert (Hw : IZR lo <= IZR hi) by lra.
  assert (Hvar : 0 <= moment_variance x y <= IZR (hi - lo) * IZR (hi - lo)).
  { destruct (weighted_sum_between
                (fun c => (c - moment_centroid x y) ^ 2)
                0 (IZR (hi - lo) * IZR (hi - lo)) x y Hlen Hy) as [H1 H2].
    - intros c Hc. destruct (Hx c Hc) as [Hlo Hhi].
      apply IZR_le in Hlo, Hhi. rewrite minus_IZR.
      set (t := IZR c - moment_centroid x y).
      assert (Ht : - (IZR hi - IZR lo) <= t <= IZR hi - IZR lo)
        by (unfold t; lra).
      replace (t ^ 2) with (t * t) by ring. split; nra.
    - unfold moment_variance. split.
      + apply Rmult_le_reg_r with (np_sum y); [exact Hsum |].
        unfold Rdiv. rewrite Rmult_assoc, Rinv_l by lra. lra.
      + apply Rmult_le_reg_r with (np_sum y); [exact Hsum |].
        unfold Rdiv. rewrite Rmult_assoc, Rinv_l by lra. lra. }
  split; [reflexivity |]. split; [exact Hmu |].
  split; [| split; [apply sqrt_sqrt; lra | exact Hsum]].
  split; [apply sqrt_pos |].
  rewrite <- (sqrt_square (IZR (hi - lo))) by (rewrite minus_IZR; lra).
  apply sqrt_le_1_alt. lra.
Qed.

(** The ROI of the bench: channels 1..3 with rates 0, 3, 0. *)
Lemma moment_estimates_in_range_witness :
  exists mu0 sig0 a0,
    gaussian_initial_estimates [1; 2; 3]%Z [0; 3; 0]
    = Ok (fin mu0, fin sig0, a0) /\
    IZR 1 <= mu0 <= IZR 3 /\
    0 <= sig0 <= IZR (3 - 1) /\
    sig0 * sig0 = moment_variance [1; 2; 3]%Z [0; 3; 0] /\
    0 < a0.
Proof.
  apply (moment_estimates_in_range [1; 2; 3]%Z [0; 3; 0] 1 3).
  - reflexivity.
  - repeat constructor; lra.
  - simpl. lra.
  - intros c [<- | [<- | [<- | []]]]; lia.
Defined.

(** X11.  Scaling all rates of a ROI by a non-zero factor (a longer or shorter
    measurement, a change of units) leaves the centroid and width
    estimates as they are and scales the amplitude estimate. *)
Theorem moment_estimates_scale (x : list Z) (y : list R) (k : R)
  (mu0 sig0 : npfloat) (a0 : R) :
  length x = length y ->
  k <> 0 ->
  gaussian_initial_estimates x y = Ok (mu0, sig0, a0) ->
  a0 <> 0 ->
  gaussian_initial_estimates x (map (Rmult k) y) = Ok (mu0, sig0, k * a0).
Proof.
  intros Hlen Hk E Ha.
  assert (Hsum : np_sum y <> 0).
  { destruct (gaussian_initial_estimates_returns x y Hlen)
      as (m & sg & E').
    rewrite E' in E. now inversion E; subst. }
  rewrite gaussian_initial_estimates_moments in E by assumption.
  inversion E; subst. clear E.
  rewrite gaussian_initial_estimates_moments
    by (rewrite ?length_map, ?np_sum_scale; try assumption;
        now apply Rmult_integral_contrapositive).
  assert (Hmu : moment_centroid x (map (Rmult k) y) = moment_centroid x y).
  { unfold moment_centroid. rewrite weighted_sum_scale, np_sum_scale.
    field. split; assumption. }
  assert (Hvar : moment_variance x (map (Rmult k) y) = moment_variance x y).
  { unfold moment_variance. rewrite Hmu, weighted_sum_scale, np_sum_scale.
    field. split; assumption. }
  now rewrite Hmu, Hvar, np_sum_scale.
Qed.

Lemma moment_estimates_scale_witness :
  gaussian_initial_estimates [1; 2; 3]%Z (map (Rmult 2) [0; 3; 0])
  = Ok (fin (moment_centroid [1; 2; 3]%Z [0; 3; 0]),
        np_sqrt_float (fin (moment_variance [1; 2; 3]%Z [0; 3; 0])),
        2 * np_sum [0; 3; 0]).
Proof.
  apply (moment_estimates_scale [1; 2; 3]%Z [0; 3; 0] 2).
  - reflexivity.
  - lra.
  - apply gaussian_initial_estimates_moments; [reflexivity | simpl; lra].
  - simpl. lra.
Defined.

(** X12.  Renumbering the channels of a ROI by a shift moves the centroid
    estimate by the shift and leaves the width and amplitude estimates as
    they are. *)
Theorem moment_estimates_shift (x : list Z) (y : list R) (d : Z)
  (mu0 : R) (sig0 : npfloat) (a0 : R) :
  length x = length y ->
  gaussian_initial_estimates x y = Ok (fin mu0, sig0, a0) ->
  a0 <> 0 ->
  gaussian_initial_estimates (map (Z.add d) x) y
  = Ok (fin (mu0 + IZR d), sig0, a0).
Proof.
  intros Hlen E Ha.
  assert (Hsum : np_sum y <> 0).
  { destruct (gaussian_initial_estimates_returns x y Hlen)
      as (m & sg & E').
    rewrite E' in E. now inversion E; subst. }
  rewrite gaussian_initial_estimates_moments in E by assumption.
  inversion E; subst. clear E.
  rewrite gaussian_initial_estimates_moments
    by (rewrite ?length_map; assumption).
  assert (Hmu : moment_centroid (map (Z.add d) x) y
                = moment_centroid x y + IZR d).
  { unfold moment_centroid. rewrite weighted_sum_shift by exact Hlen.
    field. exact Ha. }
  assert (Hvar : moment_variance (map (Z.add d) x) y = moment_variance x y).
  { unfold moment_variance. rewrite Hmu. f_equal.
    apply weighted_sum_ext.
    generalize (moment_centroid x y) as mu. intros mu. clear.
    induction x as [| c x IH]; simpl; constructor.
    - rewrite plus_IZR. ring.
    - exact IH. }
  now rewrite Hmu, Hvar.
Qed.

Lemma moment_estimates_shift_witness :
  gaussian_initial_estimates (map (Z.add 100) [1; 2; 3]%Z) [0; 3; 0]
  = Ok (fin (moment_centroid [1; 2; 3]%Z [0; 3; 0] + IZR 100),
        np_sqrt_float (fin (moment_variance [1; 2; 3]%Z [0; 3; 0])),
        np_sum [0; 3; 0]).
Proof.
  apply (moment_estimates_shift [1; 2; 3]%Z [0; 3; 0] 100).
  - reflexivity.
  - apply gaussian_initial_estimates_moments; [reflexivity | simpl; lra].
  - simpl. lra.
Defined.

(* ===================================================================== *)
(** ** Edge cases of the peak fitter *)
(* ===================================================================== *)

Section FitterEdges.
Context {ext : Externals}.

(** X13.  A ROI without channels cannot be fitted: [min] of the empty rates
    raises in both analyzers, whatever the model.  On a non-empty ROI the
    fitter of [GammaDetAnalyzer.py] knows two model names; for any other
    it raises [UnboundLocalError] without consulting the solver. *)
Theorem fit_peak_edges (x : list Z) (y : list R) (model : string) :
  GammaDetAnalyzer.fit_peak x [] model = Raise empty_min /\
  OffAxisAnalyzer.fit_peak x [] model = Raise empty_min /\
  (y <> [] -> length x = length y ->
   model <> "gaussian"%string -> model <> "double_gaussian"%string ->
   GammaDetAnalyzer.fit_peak x y model = Raise UnboundLocalError).
Proof.
  split; [reflexivity | split; [reflexivity |]].
  intros Hne Hlen Hg Hd.
  destruct (py_min_is_minimum y Hne) as (m & Hmin & _).
  destruct (gaussian_initial_estimates_returns x y Hlen) as (mu0 & sig0 & E).
  unfold GammaDetAnalyzer.fit_peak.
  rewrite Hmin, E.
  apply String.eqb_neq in Hg, Hd. simpl. now rewrite Hg, Hd.
Qed.

Lemma empty_roi_selects_nothing (n : nat) (C : list R) (lo hi : Z) :
  length C = n ->
  (hi <= lo)%Z \/ (Z.of_nat n <= lo)%Z \/ (hi <= 0)%Z ->
  np_mask_select (in_interval (py_range n) lo hi) C = [].
Proof.
  intros Hn Hempty.
  rewrite in_interval_py_range, np_mask_select_slice by exact Hn.
  replace (Nat.min n (Z.to_nat hi) - Z.to_nat lo)%nat with 0%nat by lia.
  reflexivity.
Qed.

(** X14.  An empty ROI aborts its spectrum.  When the first ROI of a spectrum
    selects no channel (its interval is empty, or lies past the last
    channel, or below channel 0), [process_spectrum] raises the
    [ValueError] of [min] in both analyzers, and appends nothing. *)
Theorem empty_roi_aborts (s : spectrum) (B : list R) (CdTe : bool)
  (channels : list Z) (A : list R) (model : string) (lo hi : Z)
  (rest : list (string * (Z * Z)))
  (data : list GammaDetAnalyzer.isotope_entry)
  (data' : list OffAxisAnalyzer.angle_entry) :
  isotope s <> LStr "Background" ->
  load_file CdTe (file_path s) (measurement_time s) = Ok (channels, A) ->
  (length A <= length B)%nat ->
  rois s = (model, (lo, hi)) :: rest ->
  (hi <= lo)%Z \/ (Z.of_nat (length A) <= lo)%Z \/ (hi <= 0)%Z ->
  GammaDetAnalyzer.process_spectrum s (Some B) data CdTe = Raise empty_min /\
  OffAxisAnalyzer.process_spectrum s (Some B) data' CdTe = Raise empty_min.
Proof.
  intros Hbg Hload Hlen Hrois Hempty.
  apply label_eqb_neq in Hbg.
  set (C := map (fun ab => py_max (fst ab - snd ab) 0) (combine A B)).
  assert (HC : length C = length A)
    by (unfold C; rewrite subtraction_length; lia).
  assert (E : load_and_extract_roi (file_path s) (rois s)
                (measurement_time s) (Some B) CdTe
              = Ok (channels, A, C, roi_tuples channels C (rois s))).
  { rewrite load_and_extract_roi_unfold, Hload. simpl. fold C.
    rewrite roi_loop_Ok; [reflexivity |].
    now rewrite (load_file_channels _ _ _ _ _ Hload), length_py_range. }
  assert (Hfirst : roi_tuples channels C (rois s)
                   = (model,
                      np_mask_select (in_interval channels lo hi) channels,
                      [])
                     :: roi_tuples channels C rest).
  { rewrite Hrois. unfold roi_tuples. simpl. do 2 f_equal.
    rewrite (load_file_channels _ _ _ _ _ Hload).
    now apply empty_roi_selects_nothing. }
  split.
  - unfold GammaDetAnalyzer.process_spectrum.
    rewrite Hbg, E, Hfirst. reflexivity.
  - unfold OffAxisAnalyzer.process_spectrum.
    rewrite Hbg, E, Hfirst. reflexivity.
Qed.

End FitterEdges.

Lemma fit_peak_edges_witness :
  GammaDetAnalyzer.fit_peak (ext := Bench.externals)
    [1; 2; 3]%Z [0; 3; 0] "-"
  = Raise UnboundLocalError.
Proof.
  destruct (fit_peak_edges (ext := Bench.externals)
              [1; 2; 3]%Z [0; 3; 0] "-") as (_ & _ & H).
  apply H; [discriminate | reflexivity | discriminate | discriminate].
Defined.

(** The bench spectrum with the ROI (0, 0) of the background entries. *)
Lemma empty_roi_aborts_witness :
  GammaDetAnalyzer.process_spectrum (ext := Bench.externals)
    {| file_path := "am.Spe"; isotope := LStr "241-Am";
       rois := [("gaussian"%string, (0, 0)%Z)];
       measurement_time := 10; energies := [59.5] |}
    (Some [2; 2; 2; 2; 2]) [] false
  = Raise empty_min.
Proof.
  apply (empty_roi_aborts (ext := Bench.externals)
           {| file_path := "am.Spe"; isotope := LStr "241-Am";
              rois := [("gaussian"%string, (0, 0)%Z)];
              measurement_time := 10; energies := [59.5] |}
           [2; 2; 2; 2; 2] false [0; 1; 2; 3; 4]%Z
           [30 / 10; 10 / 10; 50 / 10; 20 / 10; 40 / 10]
           "gaussian" 0 0 [] [] []).
  - discriminate.
  - reflexivity.
  - simpl. lia.
  - reflexivity.
  - left. lia.
Defined.

(* ===================================================================== *)
(** ** The dataset loop and what it hands to the engines *)
(* ===================================================================== *)

Section DatasetFacts.
Context {ext : Externals}.

Lemma process_spectrum_entry_for (s : spectrum) (bg : option (list R))
  (data data' : list GammaDetAnalyzer.isotope_entry) (CdTe : bool) :
  GammaDetAnalyzer.process_spectrum s bg data CdTe = Ok data' ->
  if is_sample s then exists e, data' = data ++ [e] /\ entry_for s e
  else data' = data.
Proof.
  intros E. unfold is_sample.
  destruct (process_spectrum_entry s bg data data' CdTe E)
    as [[Hbg ->] | (Hbg & peaks & Hlen & ->)].
  - apply label_eqb_eq in Hbg. now rewrite Hbg.
  - apply label_eqb_neq in Hbg. rewrite Hbg. simpl.
    eexists. split; [reflexivity |]. exists peaks. now split.
Qed.

Lemma dataset_loop_entries (bg : option (list R)) (CdTe : bool)
  (spectra : list spectrum) :
  forall data0 data,
    foldM (fun isotope_data spectrum =>
             GammaDetAnalyzer.process_spectrum spectrum bg isotope_data CdTe)
          spectra data0 = Ok data ->
    exists new,
      data = data0 ++ new /\
      Forall2 entry_for (filter is_sample spectra) new.
Proof.
  induction spectra as [| s spectra IH]; intros data0 data E; simpl in E.
  - inversion E. exists []. split; [now rewrite app_nil_r | constructor].
  - apply bind_Ok_inv in E as (data1 & Hone & E).
    apply process_spectrum_entry_for in Hone.
    apply IH in E as (new & -> & Hnew). simpl.
    destruct (is_sample s).
    + destruct Hone as (e & -> & He). exists (e :: new).
      split; [now rewrite <- app_assoc | now constructor].
    + subst data1. now exists new.
Qed.

Lemma main_process_entries (spectra : list spectrum) (CdTe : bool)
  (data : list GammaDetAnalyzer.isotope_entry) :
  GammaDetAnalyzer.main_process spectra CdTe = Ok data ->
  Forall2 entry_for (filter is_sample spectra) data.
Proof.
  unfold GammaDetAnalyzer.main_process. intros E.
  apply bind_Ok_inv in E as (bg & _ & E).
  apply dataset_loop_entries in E as (new & -> & Hnew). exact Hnew.
Qed.

(** X15.  One entry per sample, in order.  When the dataset loop of
    [GammaDetAnalyzer.py] returns, [isotope_data] holds exactly one entry
    for every non-background spectrum, in the order of the dataset: the
    entry carries the spectrum's label and energies, and aligned centroid,
    sigma and amplitude columns with one row per ["gaussian"] ROI and two
    per ["double_gaussian"] ROI. *)
Theorem dataset_entries_in_order (spectra : list spectrum) (CdTe : bool)
  (data : list GammaDetAnalyzer.isotope_entry) :
  GammaDetAnalyzer.main_process spectra CdTe = Ok data ->
  Forall2 entry_for (filter is_sample spectra) data /\
  map GammaDetAnalyzer.e_isotope data
  = map isotope (filter is_sample spectra) /\
  Forall (fun e =>
            length (GammaDetAnalyzer.e_centroids e)
            = length (GammaDetAnalyzer.e_sigmas e) /\
            length (GammaDetAnalyzer.e_sigmas e)
            = length (GammaDetAnalyzer.e_amplitudes e))
         data.
Proof.
  intros E. apply main_process_entries in E.
  split; [exact E |]. split.
  - induction E as [| s e ss es (peaks & _ & ->) _ IH]; simpl;
      [reflexivity | now rewrite IH].
  - induction E as [| s e ss es (peaks & _ & ->) _ IH]; constructor;
      [simpl; now rewrite !length_map | exact IH].
Qed.

Lemma filter_samples_prefix (fg bgs : list spectrum) :
  (forall s, In s fg -> isotope s <> LStr "Background") ->
  (forall s, In s bgs -> isotope s = LStr "Background") ->
  filter is_sample (fg ++ bgs) = fg.
Proof.
  intros Hfg Hbgs. rewrite filter_app.
  assert (H1 : filter is_sample fg = fg).
  { clear Hbgs. induction fg as [| s fg IH]; simpl; [reflexivity |].
    unfold is_sample at 1.
    rewrite (proj2 (label_eqb_neq _ _) (Hfg s (or_introl eq_refl))). simpl.
    rewrite IH; [reflexivity | intros; apply Hfg; now right]. }
  assert (H2 : filter is_sample bgs = []).
  { clear Hfg H1. induction bgs as [| s bgs IH]; simpl; [reflexivity |].
    unfold is_sample at 1.
    rewrite (proj2 (label_eqb_eq _ _) (Hbgs s (or_introl eq_refl))). simpl.
    apply IH. intros; apply Hbgs; now right. }
  now rewrite H1, H2, app_nil_r.
Qed.

Lemma Forall2_nth_error {A B : Type} (P : A -> B -> Prop)
  (l1 : list A) (l2 : list B) :
  Forall2 P l1 l2 ->
  forall k a b, nth_error l1 k = Some a -> nth_error l2 k = Some b -> P a b.
Proof.
  induction 1 as [| a0 b0 l1 l2 H0 _ IH]; intros [| k] a b Ha Hb;
    simpl in *; try discriminate.
  - now inversion Ha; inversion Hb; subst.
  - now apply (IH k).
Qed.

Lemma combine_app_short {A B : Type} (l1 l2 : list A) (l : list B) :
  length l = length l1 -> combine (l1 ++ l2) l = combine l1 l.
Proof.
  revert l. induction l1 as [| a l1 IH]; intros [| b l] Hlen; simpl in *;
    try reflexivity; try discriminate.
  - now destruct l2.
  - f_equal. apply IH. lia.
Qed.

(** X16.  Background last: the efficiency engine pairs rightly.  The engine
    pairs the k-th spectrum of the dataset with the k-th entry of
    [isotope_data].  When the background spectra come last in the
    dataset, as in every table of [given_data.py], the k-th entry is the
    entry of the k-th spectrum, and the engine computes the same as on the
    samples alone. *)
Theorem background_last_pairs_rightly (fg bgs : list spectrum) (CdTe : bool)
  (data : list GammaDetAnalyzer.isotope_entry)
  (source_data : list source_info) (g : geometry) :
  (forall s, In s fg -> isotope s <> LStr "Background") ->
  (forall s, In s bgs -> isotope s = LStr "Background") ->
  GammaDetAnalyzer.main_process (fg ++ bgs) CdTe = Ok data ->
  Forall2 entry_for fg data /\
  GammaDetAnalyzer.calculate_detector_efficiency
    (fg ++ bgs) data source_data CdTe g
  = GammaDetAnalyzer.calculate_detector_efficiency
      fg data source_data CdTe g.
Proof.
  intros Hfg Hbgs E. apply main_process_entries in E.
  rewrite filter_samples_prefix in E by assumption.
  split; [exact E |].
  unfold GammaDetAnalyzer.calculate_detector_efficiency.
  rewrite combine_app_short; [reflexivity |].
  rewrite length_map. symmetry. apply (Forall2_length E).
Qed.

(** X17.  Background first: the engine pairs wrongly.  When a background
    spectrum opens the dataset, the entry of each sample is paired with
    the spectrum before it: the engine reads the label and energies of the
    k-th sample next to the amplitudes fitted for the (k+1)-th. *)
Theorem background_first_pairs_wrongly (b : spectrum) (fg : list spectrum)
  (CdTe : bool) (data : list GammaDetAnalyzer.isotope_entry) :
  isotope b = LStr "Background" ->
  (forall s, In s fg -> isotope s <> LStr "Background") ->
  GammaDetAnalyzer.main_process (b :: fg) CdTe = Ok data ->
  forall k s s' e,
    nth_error fg k = Some s ->
    nth_error fg (S k) = Some s' ->
    nth_error data (S k) = Some e ->
    entry_for s' e /\
    nth_error (combine (b :: fg)
                 (map GammaDetAnalyzer.e_amplitudes data)) (S k)
    = Some (s, GammaDetAnalyzer.e_amplitudes e).
Proof.
  intros Hb Hfg E k s s' e Hs Hs' He.
  apply main_process_entries in E.
  change (b :: fg) with ([b] ++ fg) in E.
  rewrite filter_app in E.
  assert (Hfilter : filter is_sample ([] ++ fg) = fg)
    by (rewrite <- (app_nil_r fg) at 2;
        rewrite <- (filter_samples_prefix fg []) at 2;
        [now rewrite !app_nil_r | exact Hfg | intros ? []]).
  simpl in Hfilter. rewrite Hfilter in E.
  assert (Hb' : filter is_sample [b] = []).
  { simpl. unfold is_sample.
    now rewrite (proj2 (label_eqb_eq _ _) Hb). }
  rewrite Hb' in E. simpl in E.
  split.
  - apply (Forall2_nth_error _ _ _ E (S k) s' e Hs' He).
  - simpl.
    assert (Hc : forall (l : list spectrum)
                        (d : list GammaDetAnalyzer.isotope_entry) j x y,
               nth_error l j = Some x -> nth_error d j = Some y ->
               nth_error (combine l (map GammaDetAnalyzer.e_amplitudes d)) j
               = Some (x, GammaDetAnalyzer.e_amplitudes y)).
    { induction l as [| a l IHl]; intros [| d0 d] [| j] x y Hx Hy;
        simpl in *; try discriminate.
      - now inversion Hx; inversion Hy.
      - now apply IHl. }
    destruct data as [| e0 data]; [discriminate |]. simpl in *.
    now apply Hc.
Qed.

End DatasetFacts.

(** The bench dataset: the americium spectrum, then the background. *)
Lemma bench_main_process :
  GammaDetAnalyzer.main_process (ext := Bench.externals)
    [Bench.am; Bench.bg] false
  = Ok [Bench.am_entry].
Proof. reflexivity. Qed.

Lemma dataset_entries_in_order_witness :
  map GammaDetAnalyzer.e_isotope [Bench.am_entry]
  = map isotope (filter is_sample [Bench.am; Bench.bg]).
Proof.
  exact (proj1 (proj2 (dataset_entries_in_order (ext := Bench.externals)
                         [Bench.am; Bench.bg] false [Bench.am_entry]
                         bench_main_process))).
Defined.

Lemma background_last_pairs_rightly_witness :
  GammaDetAnalyzer.calculate_detector_efficiency (ext := Bench.externals)
    ([Bench.am] ++ [Bench.bg]) [Bench.am_entry] [Bench.am_source] false
    Bench.detector_geometry
  = GammaDetAnalyzer.calculate_detector_efficiency (ext := Bench.externals)
      [Bench.am] [Bench.am_entry] [Bench.am_source] false
      Bench.detector_geometry.
Proof.
  apply (background_last_pairs_rightly (ext := Bench.externals)
           [Bench.am] [Bench.bg] false [Bench.am_entry] [Bench.am_source]
           Bench.detector_geometry).
  - intros s [<- | []]. discriminate.
  - intros s [<- | []]. reflexivity.
  - exact bench_main_process.
Defined.

(** The background first, then americium and caesium: the caesium entry is
    paired with the americium spectrum. *)
Lemma background_first_pairs_wrongly_witness :
  let cs := {| file_path := "am.Spe"; isotope := LStr "137-Cs";
               rois := [("gaussian"%string, (1, 4)%Z)];
               measurement_time := 10; energies := [661.7] |} in
  let cs_entry :=
    {| GammaDetAnalyzer.e_isotope := LStr "137-Cs";
       GammaDetAnalyzer.e_total_roi_count_rates := [];
       GammaDetAnalyzer.e_centroids := [2];
       GammaDetAnalyzer.e_sigmas := [1];
       GammaDetAnalyzer.e_energies := [661.7];
       GammaDetAnalyzer.e_amplitudes := [10] |} in
  entry_for cs cs_entry /\
  nth_error (combine (Bench.bg :: [Bench.am; cs])
               (map GammaDetAnalyzer.e_amplitudes [Bench.am_entry; cs_entry]))
            1
  = Some (Bench.am, GammaDetAnalyzer.e_amplitudes cs_entry).
Proof.
  intros cs cs_entry.
  apply (background_first_pairs_wrongly (ext := Bench.externals)
           Bench.bg [Bench.am; cs] false [Bench.am_entry; cs_entry]
           eq_refl).
  - intros s [<- | [<- | []]]; discriminate.
  - reflexivity.
  - reflexivity.
  - reflexivity.
  - reflexivity.
Defined.

(* ===================================================================== *)
(** ** Calibration and resolution on the data of the loop *)
(* ===================================================================== *)

Section EngineInputs.
Context {ext : Externals}.

Lemma length_np_diag_from (rows : list (list R)) :
  forall i, length (np_diag_from i rows) = length rows.
Proof.
  induction rows as [| row rows IH]; intros i; simpl;
    [reflexivity | now rewrite IH].
Qed.

(** X19.  The diagnostic is not isolated.  When the linear fit has succeeded
    but [np.polyfit] raises, [calibrate_detector] raises the same error in
    both analyzers: the linear result is not returned. *)
Theorem calibrate_detector_diagnostic_failure
  (data : list GammaDetAnalyzer.isotope_entry)
  (data' : list OffAxisAnalyzer.angle_entry)
  (slope intercept v1 c12 c21 v2 : R) (e : pyexn) :
  let xs := flat_map GammaDetAnalyzer.e_centroids data in
  let ys := flat_map GammaDetAnalyzer.e_energies data in
  let xs' := flat_map OffAxisAnalyzer.e_centroids data' in
  let ys' := flat_map OffAxisAnalyzer.e_energies data' in
  (curve_fit (linear_call xs ys)
   = Ok ([slope; intercept], [[v1; c12]; [c21; v2]]) ->
   polyfit xs ys 2 = Raise e ->
   GammaDetAnalyzer.calibrate_detector data = Raise e) /\
  (curve_fit (linear_call xs' ys')
   = Ok ([slope; intercept], [[v1; c12]; [c21; v2]]) ->
   polyfit xs' ys' 2 = Raise e ->
   OffAxisAnalyzer.calibrate_detector data' = Raise e).
Proof.
  intros xs ys xs' ys'. split; intros Hfit Hpoly.
  - unfold GammaDetAnalyzer.calibrate_detector. fold xs ys.
    unfold linear_call in Hfit. rewrite Hfit. simpl.
    now rewrite Hpoly.
  - unfold OffAxisAnalyzer.calibrate_detector. fold xs' ys'.
    unfold linear_call in Hfit. rewrite Hfit. simpl.
    now rewrite Hpoly.
Qed.

Lemma entry_columns (s : spectrum) (e : GammaDetAnalyzer.isotope_entry) :
  entry_for s e ->
  length (GammaDetAnalyzer.e_centroids e) = expected_peaks (map fst (rois s))
  /\ length (GammaDetAnalyzer.e_sigmas e)
     = length (GammaDetAnalyzer.e_centroids e)
  /\ GammaDetAnalyzer.e_energies e = energies s.
Proof.
  intros (peaks & Hlen & ->). simpl. now rewrite !length_map.
Qed.

Lemma combine_flat_map {A : Type} (f g : A -> list R) (l : list A) :
  Forall (fun a => length (f a) = length (g a)) l ->
  combine (flat_map f l) (flat_map g l)
  = flat_map (fun a => combine (f a) (g a)) l /\
  length (flat_map f l) = length (flat_map g l).
Proof.
  induction 1 as [| a l Ha _ [IH1 IH2]]; simpl; [split; reflexivity |].
  split.
  - rewrite <- IH1. clear IH1 IH2.
    revert Ha. generalize (f a) as u, (g a) as v.
    induction u as [| r u IHu]; intros [| r' v] Huv; simpl in *;
      try discriminate; [reflexivity |].
    f_equal. apply IHu. lia.
  - rewrite !length_app. lia.
Qed.

(** X20.  Calibration points pair within a spectrum.  When every sample of the
    dataset lists as many energies as its ROIs have peaks, the flattened
    centroids and energies that [calibrate_detector] fits are equally
    many, and each centroid faces an energy of its own spectrum. *)
Theorem calibration_points_paired (spectra : list spectrum) (CdTe : bool)
  (data : list GammaDetAnalyzer.isotope_entry) :
  GammaDetAnalyzer.main_process spectra CdTe = Ok data ->
  (forall s, In s spectra -> is_sample s = true ->
             length (energies s) = expected_peaks (map fst (rois s))) ->
  let xs := flat_map GammaDetAnalyzer.e_centroids data in
  let ys := flat_map GammaDetAnalyzer.e_energies data in
  length xs = length ys /\
  combine xs ys
  = flat_map (fun e => combine (GammaDetAnalyzer.e_centroids e)
                               (GammaDetAnalyzer.e_energies e)) data.
Proof.
  intros E Hcfg xs ys. apply main_process_entries in E.
  assert (Hall : Forall (fun e => length (GammaDetAnalyzer.e_centroids e)
                                  = length (GammaDetAnalyzer.e_energies e))
                        data).
  { assert (Hs : forall s, In s (filter is_sample spectra) ->
                   length (energies s) = expected_peaks (map fst (rois s))).
    { intros s Hin. apply filter_In in Hin as [Hin Hsample]. auto. }
    induction E as [| s e ss es He _ IH]; constructor.
    - apply entry_columns in He as (Hc & _ & He).
      rewrite Hc, He. symmetry. apply Hs. now left.
    - apply IH. intros; apply Hs; now right. }
  destruct (combine_flat_map GammaDetAnalyzer.e_centroids
              GammaDetAnalyzer.e_energies data Hall) as [H1 H2].
  split; assumption.
Qed.

(** X21.  The resolution engine on the data of the loop.  The sigma and
    centroid columns of the entries are equally long, so the division in
    [calculate_resolution] never fails to broadcast: the resolutions are
    [100 * 2.355 * sigma / (slope * centroid + intercept)] for the peaks of
    all entries but those labelled ["133-Ba"], and the solver is called
    with their squares. *)
Theorem resolution_on_dataset (spectra : list spectrum) (CdTe : bool)
  (data : list GammaDetAnalyzer.isotope_entry) (slope intercept : R) :
  GammaDetAnalyzer.main_process spectra CdTe = Ok data ->
  let kept :=
    filter (fun entry =>
              negb (label_eqb (GammaDetAnalyzer.e_isotope entry) "133-Ba"))
           data in
  let sigmas := flat_map GammaDetAnalyzer.e_sigmas kept in
  let centroids := flat_map GammaDetAnalyzer.e_centroids kept in
  let resolutions :=
    map (fun sc => 100 * (2.355 * fst sc) / (slope * snd sc + intercept))
        (combine sigmas centroids) in
  let energies := map (fun c => slope * c + intercept) centroids in
  length resolutions = length centroids /\
  GammaDetAnalyzer.calculate_resolution data slope intercept
  = ('(res_popt, res_pcov) <-
       curve_fit {| sc_f := fn_resolution_function;
                    sc_xdata := energies;
                    sc_ydata := map (fun r => r ^ 2) resolutions;
                    sc_p0 := Some [fin 1; fin 1; fin 1];
                    sc_bounds := Some (Finite 0, PosInf);
                    sc_maxfev := Some 5000%Z |} ;;
     _ <- unpack3 res_popt ;;
     _ <- unpack3 (np_sqrt (np_diag res_pcov)) ;;
     Ok (resolutions, energies, res_popt)).
Proof.
  intros E kept sigmas centroids resolutions energies.
  apply main_process_entries in E.
  assert (Hall : Forall (fun e => length (GammaDetAnalyzer.e_sigmas e)
                                  = length (GammaDetAnalyzer.e_centroids e))
                        kept).
  { apply Forall_forall. intros e He. apply filter_In in He as [He _].
    clear - E He. induction E as [| s e0 ss es He0 _ IH]; [destruct He |].
    destruct He as [-> | He]; [| now apply IH].
    now apply entry_columns in He0. }
  destruct (combine_flat_map GammaDetAnalyzer.e_sigmas
              GammaDetAnalyzer.e_centroids kept Hall) as [_ Hlen].
  split.
  - unfold resolutions. rewrite length_map, length_combine.
    fold sigmas centroids in Hlen. lia.
  - apply (calculate_resolution_call data slope intercept Hlen).
Qed.

End EngineInputs.

Lemma calibrate_detector_diagnostic_failure_witness :
  GammaDetAnalyzer.calibrate_detector
    (ext := {| read_spe_counts := Bench.counts_of;
               read_mca_counts := Bench.counts_of;
               curve_fit := Bench.solver;
               polyfit := fun _ _ _ => Raise RuntimeError;
               now := fun _ => 0%Z |})
    [Bench.am_entry]
  = Raise RuntimeError.
Proof.
  apply (calibrate_detector_diagnostic_failure
           (ext := {| read_spe_counts := Bench.counts_of;
                      read_mca_counts := Bench.counts_of;
                      curve_fit := Bench.solver;
                      polyfit := fun _ _ _ => Raise RuntimeError;
                      now := fun _ => 0%Z |})
           [Bench.am_entry] [] 2 1 4 0 0 9 RuntimeError);
    reflexivity.
Defined.

Lemma calibration_points_paired_witness :
  length (flat_map GammaDetAnalyzer.e_centroids [Bench.am_entry])
  = length (flat_map GammaDetAnalyzer.e_energies [Bench.am_entry]) /\
  combine (flat_map GammaDetAnalyzer.e_centroids [Bench.am_entry])
          (flat_map GammaDetAnalyzer.e_energies [Bench.am_entry])
  = flat_map (fun e => combine (GammaDetAnalyzer.e_centroids e)
                               (GammaDetAnalyzer.e_energies e))
             [Bench.am_entry].
Proof.
  apply (calibration_points_paired (ext := Bench.externals)
           [Bench.am; Bench.bg] false [Bench.am_entry] bench_main_process).
  intros s [<- | [<- | []]] Hs; [reflexivity | discriminate].
Defined.

Lemma resolution_on_dataset_witness :
  GammaDetAnalyzer.calculate_resolution (ext := Bench.externals)
    [Bench.am_entry] 2 1
  = Ok ([100 * (2.355 * 1) / (2 * 2 + 1)], [2 * 2 + 1], [1; 1; 1]).
Proof.
  destruct (resolution_on_dataset (ext := Bench.externals)
              [Bench.am; Bench.bg] false [Bench.am_entry] 2 1
              bench_main_process) as [_ H].
  rewrite H. reflexivity.
Defined.

(* ===================================================================== *)
(** ** More on the efficiency engines *)
(* ===================================================================== *)

Section EfficiencyMore.
Context {ext : Externals}.

Lemma efficiency_rows_energies (source_data : list source_info)
  (pairs : list (spectrum * list R)) :
  forall i en,
    In en (map fst (efficiency_rows pairs source_data i)) ->
    exists s amps, In (s, amps) pairs /\ In en (energies s).
Proof.
  induction pairs as [| [s amps] pairs IH]; intros i en Hin; simpl in Hin.
  - destruct Hin.
  - rewrite map_app in Hin. apply in_app_or in Hin as [Hin | Hin].
    + exists s, amps. split; [now left |].
      destruct (find _ source_data); [| destruct Hin].
      rewrite map_map in Hin. simpl in Hin.
      apply in_map_iff in Hin as ([en' a] & <- & Hin).
      now apply in_combine_l in Hin.
    + destruct (IH _ _ Hin) as (s' & amps' & Hp & He).
      exists s', amps'. split; [now right | exact He].
Qed.

(** X23.  The three lists the engine returns go together: they are equally
    long, every intrinsic efficiency is the absolute efficiency at the
    same position over the geometry factor, and every energy is an energy
    of one of the spectra. *)
Theorem efficiency_lists_go_together (spectra : list spectrum)
  (isotope_data : list GammaDetAnalyzer.isotope_entry)
  (source_data : list source_info) (CdTe : bool) (g : geometry)
  (efficiencies intrinsic_efficiencies energies_list : list R) :
  GammaDetAnalyzer.calculate_detector_efficiency
    spectra isotope_data source_data CdTe g
  = Ok (efficiencies, intrinsic_efficiencies, energies_list) ->
  source_distance g <> 0 /\
  length efficiencies = length energies_list /\
  intrinsic_efficiencies
  = map (fun a => a / geometry_factor_of CdTe g) efficiencies /\
  forall en, In en energies_list ->
    exists s, In s spectra /\ In en (energies s).
Proof.
  unfold GammaDetAnalyzer.calculate_detector_efficiency.
  destruct (Req_dec_T _ 0) as [Hzero | Hnz]; [discriminate |].
  rewrite efficiency_loop_rows. intros E. inversion E; subst. clear E.
  split; [| split; [| split]].
  - intros Hd. apply Hnz. rewrite Hd. ring.
  - simpl. now rewrite !length_map.
  - simpl. rewrite map_map. reflexivity.
  - simpl. intros en Hin.
    apply efficiency_rows_energies in Hin as (s & amps & Hp & He).
    exists s. split; [now apply in_combine_l in Hp | exact He].
Qed.

Lemma exp_one_half_life (T : R) :
  T <> 0 -> exp (- (ln 2 / T) * T) = / 2.
Proof.
  intros HT. replace (- (ln 2 / T) * T) with (- ln 2) by (field; exact HT).
  rewrite exp_Ropp, exp_ln by lra. reflexivity.
Qed.

(** X24.  One half-life after the calibration the engine works with half the
    initial activity: for a single spectrum with a source reference, read
    when the whole days elapsed equal the half-life, every absolute
    efficiency is the amplitude over [initial_activity * 37000 / 2] times
    the emission fraction. *)
Theorem efficiency_after_one_half_life (s : spectrum)
  (e : GammaDetAnalyzer.isotope_entry) (source_data : list source_info)
  (info : source_info) (CdTe : bool) (g : geometry) :
  source_distance g <> 0 ->
  find (fun source => label_eqb (isotope s) (src_isotope source))
       source_data = Some info ->
  half_life info <> 0 ->
  elapsed_days (now 0) (calibration_date info) = half_life info ->
  exists intrinsic_efficiencies energies_list,
    GammaDetAnalyzer.calculate_detector_efficiency
      [s] [e] source_data CdTe g
    = Ok (map (fun ea =>
                 snd ea / (initial_activity info * 37000 / 2
                           * dict_get (emission_fractions info)
                                      (fst ea) 1.0))
              (combine (energies s) (GammaDetAnalyzer.e_amplitudes e)),
          intrinsic_efficiencies, energies_list).
Proof.
  intros Hd Hfind HT Hdays.
  unfold GammaDetAnalyzer.calculate_detector_efficiency.
  destruct (Req_dec_T _ 0) as [Hzero | _].
  - exfalso. pose proof PI_RGT_0 as Hpi.
    assert (Hsq : 0 < source_distance g ^ 2) by (simpl; nra). nra.
  - rewrite efficiency_loop_rows. simpl. rewrite Hfind, app_nil_r.
    do 2 eexists. f_equal. f_equal. f_equal.
    rewrite map_map. apply map_ext. intros [en a]. simpl.
    unfold absolute_efficiency_of, decayed_activity. rewrite Hdays.
    rewrite exp_one_half_life by exact HT. reflexivity.
Qed.

Lemma off_axis_inner_loop (fractions : list (R * R))
  (current_activity : R) (l : list (R * R)) :
  forall acc : list R,
    fold_left
      (fun (efficiencies : list R) (er : R * R) =>
         let '(energy, roi_count) := er in
         let emission_fraction := dict_get fractions energy 1.0 in
         let absolute_efficiency :=
           roi_count / (current_activity * emission_fraction) in
         efficiencies ++ [absolute_efficiency])
      l acc
    = acc ++ map (fun ea => snd ea / (current_activity
                                      * dict_get fractions (fst ea) 1.0)) l.
Proof.
  induction l as [| [energy roi_count] l IH]; intros acc; simpl.
  - now rewrite app_nil_r.
  - rewrite IH, <- app_assoc. reflexivity.
Qed.

Lemma off_axis_loop_agrees (source_data : list source_info)
  (Am_data : source_info) (G : R) (pairs : list (spectrum * list R)) :
  (forall s amps, In (s, amps) pairs ->
     find (fun source => label_eqb (isotope s) (src_isotope source))
          source_data = Some Am_data) ->
  forall i acc1 acc2 acc3,
    fst (fst (GammaDetAnalyzer.efficiency_loop pairs source_data G i
                (acc1, acc2, acc3)))
    = OffAxisEfficiency.efficiency_loop pairs Am_data i acc1.
Proof.
  induction pairs as [| [s amps] pairs IH]; intros Hall i acc1 acc2 acc3;
    simpl; [reflexivity |].
  rewrite (Hall s amps (or_introl eq_refl)).
  rewrite efficiency_inner_loop, off_axis_inner_loop.
  apply IH. intros s' amps' Hin. apply (Hall s' amps'). now right.
Qed.

(** X25.  The two efficiency engines agree.  The off-axis engine takes the
    americium certificate for every spectrum and never skips one; the
    on-axis engine looks the certificate up by label.  On spectra whose
    labels all resolve to that certificate, and on the same amplitudes,
    the absolute efficiencies of the on-axis engine are those of the
    off-axis engine. *)
Theorem efficiency_engines_agree (spectra : list spectrum)
  (isotope_data : list GammaDetAnalyzer.isotope_entry)
  (angle_data : list OffAxisAnalyzer.angle_entry)
  (source_data : list source_info) (Am_data : source_info)
  (CdTe : bool) (g : geometry) :
  source_distance g <> 0 ->
  (forall s, In s spectra ->
     find (fun source => label_eqb (isotope s) (src_isotope source))
          source_data = Some Am_data) ->
  map GammaDetAnalyzer.e_amplitudes isotope_data
  = map OffAxisAnalyzer.e_amplitudes angle_data ->
  exists intrinsic_efficiencies energies_list,
    GammaDetAnalyzer.calculate_detector_efficiency
      spectra isotope_data source_data CdTe g
    = Ok (OffAxisEfficiency.calculate_detector_efficiency
            spectra angle_data Am_data,
          intrinsic_efficiencies, energies_list).
Proof.
  intros Hd Hall Hamps.
  unfold GammaDetAnalyzer.calculate_detector_efficiency,
    OffAxisEfficiency.calculate_detector_efficiency.
  destruct (Req_dec_T _ 0) as [Hzero | _].
  - exfalso. pose proof PI_RGT_0 as Hpi.
    assert (Hsq : 0 < source_distance g ^ 2) by (simpl; nra). nra.
  - rewrite <- Hamps.
    rewrite <- (off_axis_loop_agrees source_data Am_data
                  ((if CdTe then 0.25 else PI * detector_radius g ^ 2)
                   / (4 * PI * source_distance g ^ 2))
                  _ (fun s amps Hin => Hall s (in_combine_l _ _ _ _ Hin))
                  0%nat [] [] []).
    destruct (GammaDetAnalyzer.efficiency_loop _ _ _ _ _) as [[l1 l2] l3].
    now exists l2, l3.
Qed.

End EfficiencyMore.

(** The efficiency of the americium peak of the bench. *)
Lemma bench_efficiency :
  GammaDetAnalyzer.calculate_detector_efficiency (ext := Bench.externals)
    [Bench.am; Bench.bg] [Bench.am_entry] [Bench.am_source] false
    Bench.detector_geometry
  = Ok ([10 / (decayed_activity Bench.am_source 0 * 0.36)],
        [10 / (decayed_activity Bench.am_source 0 * 0.36)
         / geometry_factor_of false Bench.detector_geometry],
        [59.5]).
Proof.
  unfold GammaDetAnalyzer.calculate_detector_efficiency.
  destruct (Req_dec_T _ 0) as [Hzero | _].
  - exfalso. simpl in Hzero. pose proof PI_RGT_0. lra.
  - rewrite (efficiency_loop_rows (ext := Bench.externals)). simpl.
    unfold absolute_efficiency_of. simpl.
    destruct (Req_dec_T 59.5 59.5) as [_ | Hne]; [| now contradiction Hne].
    reflexivity.
Qed.

Lemma efficiency_lists_go_together_witness :
  source_distance Bench.detector_geometry <> 0 /\
  length [10 / (decayed_activity Bench.am_source 0 * 0.36)]
  = length [59.5] /\
  [10 / (decayed_activity Bench.am_source 0 * 0.36)
   / geometry_factor_of false Bench.detector_geometry]
  = map (fun a => a / geometry_factor_of false Bench.detector_geometry)
        [10 / (decayed_activity Bench.am_source 0 * 0.36)] /\
  forall en, In en [59.5] ->
    exists s, In s [Bench.am; Bench.bg] /\ In en (energies s).
Proof.
  apply (efficiency_lists_go_together (ext := Bench.externals)
           [Bench.am; Bench.bg] [Bench.am_entry] [Bench.am_source] false
           Bench.detector_geometry).
  exact bench_efficiency.
Defined.

(** A source of half-life two days, read two days after its
    calibration. *)
Lemma efficiency_after_one_half_life_witness :
  let late : Externals :=
    {| read_spe_counts := Bench.counts_of;
       read_mca_counts := Bench.counts_of;
       curve_fit := Bench.solver;
       polyfit := fun _ _ _ => Ok [0; 2; 1];
       now := fun _ => (2 * 86400000000)%Z |} in
  let short_lived :=
    {| src_isotope := "241-Am"; calibration_date := 0;
       initial_activity := 5.0; half_life := 2;
       emission_fractions := [(59.5, 0.36)] |} in
  exists intrinsic_efficiencies energies_list,
    GammaDetAnalyzer.calculate_detector_efficiency (ext := late)
      [Bench.am] [Bench.am_entry] [short_lived] false
      Bench.detector_geometry
    = Ok (map (fun ea =>
                 snd ea / (5.0 * 37000 / 2
                           * dict_get [(59.5, 0.36)] (fst ea) 1.0))
              (combine [59.5] [10]),
          intrinsic_efficiencies, energies_list).
Proof.
  intros late short_lived.
  apply (efficiency_after_one_half_life (ext := late) Bench.am
           Bench.am_entry [short_lived] short_lived false
           Bench.detector_geometry).
  - simpl. lra.
  - reflexivity.
  - simpl. lra.
  - reflexivity.
Defined.

Lemma efficiency_engines_agree_witness :
  exists intrinsic_efficiencies energies_list,
    GammaDetAnalyzer.calculate_detector_efficiency (ext := Bench.externals)
      [Bench.am] [Bench.am_entry] [Bench.am_source] false
      Bench.detector_geometry
    = Ok (OffAxisEfficiency.calculate_detector_efficiency
            (ext := Bench.externals) [Bench.am]
            [{| OffAxisAnalyzer.e_degrees := LInt 15;
                OffAxisAnalyzer.e_total_roi_count_rates := [3];
                OffAxisAnalyzer.e_centroids := [2];
                OffAxisAnalyzer.e_sigmas := [1];
                OffAxisAnalyzer.e_energies := [59.5];
                OffAxisAnalyzer.e_amplitudes := [10] |}]
            Bench.am_source,
          intrinsic_efficiencies, energies_list).
Proof.
  apply (efficiency_engines_agree (ext := Bench.externals)).
  - simpl. lra.
  - intros s [<- | []]. reflexivity.
  - reflexivity.
Defined.

(* ===================================================================== *)
(** ** The shape of the models *)
(* ===================================================================== *)

Lemma normalisation_positive (sigma : R) :
  sigma <> 0 -> 0 < sqrt (TWO_PI * sigma ^ 2).
Proof.
  intros Hs. apply sqrt_lt_R0. unfold TWO_PI.
  pose proof PI_RGT_0 as Hpi.
  assert (0 < sigma ^ 2) by (simpl; nra). nra.
Qed.

(** X26.  The peak of [normalized_gaussian].  For a non-zero width the function
    is worth [amplitude / sqrt(2 pi sigma^2)] at the centroid, is
    symmetric about the centroid, does not depend on the sign of the
    width, and, for a non-negative amplitude, lies between 0 and its
    value at the centroid. *)
Theorem normalized_gaussian_peak (x mu sigma amplitude d : R) :
  sigma <> 0 ->
  normalized_gaussian mu mu sigma amplitude
  = amplitude / sqrt (TWO_PI * sigma ^ 2) /\
  normalized_gaussian (mu + d) mu sigma amplitude
  = normalized_gaussian (mu - d) mu sigma amplitude /\
  normalized_gaussian x mu (- sigma) amplitude
  = normalized_gaussian x mu sigma amplitude /\
  (0 <= amplitude ->
   0 <= normalized_gaussian x mu sigma amplitude
     <= normalized_gaussian mu mu sigma amplitude).
Proof.
  intros Hs. pose proof (normalisation_positive sigma Hs) as Hn.
  assert (Hmu : normalized_gaussian mu mu sigma amplitude
                = amplitude / sqrt (TWO_PI * sigma ^ 2)).
  { unfold normalized_gaussian.
    replace (-0.5 * ((mu - mu) / sigma) ^ 2) with 0
      by (replace (-0.5) with (- / 2) by lra; field; exact Hs).
    rewrite exp_0. field. lra. }
  split; [exact Hmu |]. split; [| split].
  - unfold normalized_gaussian. do 3 f_equal.
    replace (-0.5) with (- / 2) by lra. field. exact Hs.
  - unfold normalized_gaussian.
    replace ((- sigma) ^ 2) with (sigma ^ 2) by ring.
    do 3 f_equal. replace (-0.5) with (- / 2) by lra. field. exact Hs.
  - intros Ha. rewrite Hmu. unfold normalized_gaussian.
    set (t := -0.5 * ((x - mu) / sigma) ^ 2).
    assert (Ht : t <= 0).
    { unfold t. replace (-0.5) with (- / 2) by lra.
      pose proof (pow2_ge_0 ((x - mu) / sigma)). lra. }
    assert (He : 0 < exp t <= 1).
    { split; [apply exp_pos |].
      rewrite <- exp_0. destruct Ht as [Ht | ->];
        [left; now apply exp_increasing | right; reflexivity]. }
    pose proof (Rinv_0_lt_compat _ Hn) as Hinv.
    unfold Rdiv. split.
    + apply Rmult_le_pos; [| lra]. apply Rmult_le_pos; lra.
    + apply Rmult_le_compat_r; [lra |]. nra.
Qed.

Lemma normalized_gaussian_peak_witness :
  normalized_gaussian 2 2 1 10 = 10 / sqrt (TWO_PI * 1 ^ 2) /\
  0 <= normalized_gaussian 3 2 1 10 <= normalized_gaussian 2 2 1 10.
Proof.
  destruct (normalized_gaussian_peak 3 2 1 10 0) as (Hpeak & _ & _ & Hb);
    [lra |].
  split; [exact Hpeak | apply Hb; lra].
Defined.

(** X27.  The half maximum.  At the distance [sigma * sqrt(2 ln 2)] on either
    side of the centroid the peak is worth half its value at the centroid:
    its full width at half maximum is [2 sqrt(2 ln 2) * |sigma|], the
    number the resolution engine rounds to [2.355 * sigma]. *)
Theorem normalized_gaussian_half_maximum (mu sigma amplitude : R) :
  sigma <> 0 ->
  normalized_gaussian (mu + sigma * sqrt (2 * ln 2)) mu sigma amplitude
  = normalized_gaussian mu mu sigma amplitude / 2 /\
  normalized_gaussian (mu - sigma * sqrt (2 * ln 2)) mu sigma amplitude
  = normalized_gaussian mu mu sigma amplitude / 2.
Proof.
  intros Hs. pose proof (normalisation_positive sigma Hs) as Hn.
  assert (Hln : 0 < ln 2) by (rewrite <- ln_1; apply ln_increasing; lra).
  assert (Hsq : sqrt (2 * ln 2) * sqrt (2 * ln 2) = 2 * ln 2)
    by (apply sqrt_sqrt; lra).
  assert (Hhalf : exp (- ln 2) = / 2) by (rewrite exp_Ropp, exp_ln; lra).
  assert (H0 : -0.5 * ((mu - mu) / sigma) ^ 2 = 0)
    by (replace (-0.5) with (- / 2) by lra; field; exact Hs).
  unfold normalized_gaussian. rewrite H0, exp_0.
  split.
  - replace (-0.5 * ((mu + sigma * sqrt (2 * ln 2) - mu) / sigma) ^ 2)
      with (- ln 2).
    + rewrite Hhalf. field. lra.
    + replace ((mu + sigma * sqrt (2 * ln 2) - mu) / sigma)
        with (sqrt (2 * ln 2)) by (field; exact Hs).
      replace (sqrt (2 * ln 2) ^ 2) with (2 * ln 2) by (simpl; lra).
      lra.
  - replace (-0.5 * ((mu - sigma * sqrt (2 * ln 2) - mu) / sigma) ^ 2)
      with (- ln 2).
    + rewrite Hhalf. field. lra.
    + replace ((mu - sigma * sqrt (2 * ln 2) - mu) / sigma)
        with (- sqrt (2 * ln 2)) by (field; exact Hs).
      replace ((- sqrt (2 * ln 2)) ^ 2) with (2 * ln 2) by (simpl; lra).
      lra.
Qed.

Lemma normalized_gaussian_half_maximum_witness :
  normalized_gaussian (2 + 1 * sqrt (2 * ln 2)) 2 1 10
  = normalized_gaussian 2 2 1 10 / 2.
Proof.
  apply (normalized_gaussian_half_maximum 2 1 10). lra.
Defined.

(** X28.  The double-peak model is built of single peaks.  It is the continuum
    plus two [normalized_gaussian]s, it does not depend on the order of
    the two peaks, and with a second amplitude of zero it is the
    single-peak model. *)
Theorem double_model_of_single_peaks
  (x a b c mu1 sigma1 amp1 mu2 sigma2 amp2 : R) :
  combined_model_double_gaussian x a b c mu1 sigma1 amp1 mu2 sigma2 amp2
  = continuum x a b c + normalized_gaussian x mu1 sigma1 amp1
    + normalized_gaussian x mu2 sigma2 amp2 /\
  combined_model_double_gaussian x a b c mu1 sigma1 amp1 mu2 sigma2 amp2
  = combined_model_double_gaussian x a b c mu2 sigma2 amp2 mu1 sigma1 amp1 /\
  combined_model_double_gaussian x a b c mu1 sigma1 amp1 mu2 sigma2 0
  = combined_model_gaussian x a b c mu1 sigma1 amp1.
Proof.
  unfold combined_model_double_gaussian, combined_model_gaussian,
    normalized_double_gaussian, normalized_gaussian.
  split; [ring | split; [ring |]].
  unfold Rdiv. ring.
Qed.

(** X29.  Within the bounds of the solver.  For a positive energy and
    non-negative parameters [resolution_function] is non-negative and its
    square is [a/E^2 + b/E + c]. *)
Theorem resolution_function_squared (E a b c : R) :
  0 < E -> 0 <= a -> 0 <= b -> 0 <= c ->
  0 <= resolution_function E a b c /\
  resolution_function E a b c ^ 2 = a / E ^ 2 + b / E + c.
Proof.
  intros HE Ha Hb Hc.
  rewrite resolution_function_root by lra.
  split; [apply sqrt_pos |].
  assert (H1 : 0 <= a / E ^ 2).
  { apply Rmult_le_pos; [exact Ha |].
    apply Rlt_le, Rinv_0_lt_compat. simpl. nra. }
  assert (H2 : 0 <= b / E).
  { apply Rmult_le_pos; [exact Hb |].
    now apply Rlt_le, Rinv_0_lt_compat. }
  apply pow2_sqrt. lra.
Qed.

Lemma resolution_function_squared_witness :
  0 <= resolution_function 1 1 1 2 /\
  resolution_function 1 1 1 2 ^ 2 = 1 / 1 ^ 2 + 1 / 1 + 2.
Proof.
  apply (resolution_function_squared 1 1 1 2); lra.
Defined.

(** The bench file without its data section, read over 0 s. *)
Lemma file_without_start_line_witness :
  load_file (ext := ScanBench.externals) false "empty.Spe" 0 = Ok ([], []).
Proof.
  apply (file_without_start_line (ext := ScanBench.externals) false
           "empty.Spe" 0 ["$MEAS_TIM:"; "10 10"]%string).
  - reflexivity.
  - repeat constructor.
Defined.

(* ===================================================================== *)
(** ** The bench runs of the two lemmas on returned values *)
(* ===================================================================== *)

Lemma bench_calibration :
  GammaDetAnalyzer.calibrate_detector (ext := Bench.externals)
    [Bench.am_entry]
  = Ok ((2, 1),
        [msg_header; msg_slope 2 (sqrt 4); msg_intercept 1 (sqrt 9);
         msg_linear_sufficient]).
Proof.
  assert (Hq : Rabs 0 < 0.001) by (rewrite Rabs_R0; lra).
  unfold GammaDetAnalyzer.calibrate_detector. simpl.
  destruct (Rlt_dec (Rabs 0) 0.001); [reflexivity | contradiction].
Qed.

(** On the bench the returned pair (2, 1) is the answer of the linear
    fit, whose covariance has the diagonal (4, 9). *)
Lemma calibrate_detector_returns_linear_fit_witness :
  exists pcov slope_err intercept_err quadratic_fit q,
    Bench.solver (linear_call [2] [59.5]) = Ok ([2; 1], pcov) /\
    np_sqrt (np_diag pcov) = [slope_err; intercept_err] /\
    Ok [0; 2; 1] = Ok quadratic_fit /\
    nth_error quadratic_fit 0 = Some q /\
    [msg_header; msg_slope 2 (sqrt 4); msg_intercept 1 (sqrt 9);
     msg_linear_sufficient]
    = [msg_header; msg_slope 2 slope_err; msg_intercept 1 intercept_err;
       if Rlt_dec (Rabs q) 0.001 then msg_linear_sufficient
       else msg_quadratic_significant].
Proof.
  exact (calibrate_detector_returns_linear_fit (ext := Bench.externals)
           [Bench.am_entry] 2 1 _ bench_calibration).
Defined.

Lemma bench_off_axis_process :
  OffAxisAnalyzer.process_spectrum (ext := Bench.externals)
    Bench.am (Some [2; 2; 2; 2; 2]) [] false
  = Ok [{| OffAxisAnalyzer.e_degrees := LStr "241-Am";
           OffAxisAnalyzer.e_total_roi_count_rates := [0 + (3 + (0 + 0))];
           OffAxisAnalyzer.e_centroids := [2];
           OffAxisAnalyzer.e_sigmas := [1];
           OffAxisAnalyzer.e_energies := [59.5];
           OffAxisAnalyzer.e_amplitudes := [10] |}].
Proof.
  unfold OffAxisAnalyzer.process_spectrum.
  change (label_eqb (isotope Bench.am) "Background") with false.
  cbv iota.
  change (load_and_extract_roi (file_path Bench.am) (rois Bench.am)
            (measurement_time Bench.am) (Some [2; 2; 2; 2; 2]) false)
    with (load_and_extract_roi (ext := Bench.externals) "am.Spe"
            [("gaussian"%string, (1, 4)%Z)] 10 (Some [2; 2; 2; 2; 2]) false).
  rewrite bench_load_and_extract_roi. reflexivity.
Qed.

Lemma off_axis_process_spectrum_entry_witness :
  exists e,
    [{| OffAxisAnalyzer.e_degrees := LStr "241-Am";
        OffAxisAnalyzer.e_total_roi_count_rates := [0 + (3 + (0 + 0))];
        OffAxisAnalyzer.e_centroids := [2];
        OffAxisAnalyzer.e_sigmas := [1];
        OffAxisAnalyzer.e_energies := [59.5];
        OffAxisAnalyzer.e_amplitudes := [10] |}] = [] ++ [e] /\
    OffAxisAnalyzer.e_degrees e = isotope Bench.am /\
    OffAxisAnalyzer.e_energies e = energies Bench.am /\
    length (OffAxisAnalyzer.e_total_roi_count_rates e)
    = length (rois Bench.am) /\
    length (OffAxisAnalyzer.e_centroids e) = length (rois Bench.am) /\
    length (OffAxisAnalyzer.e_sigmas e) = length (rois Bench.am) /\
    length (OffAxisAnalyzer.e_amplitudes e) = length (rois Bench.am).
Proof.
  apply (off_axis_process_spectrum_entry (ext := Bench.externals)
           Bench.am (Some [2; 2; 2; 2; 2]) [] _ false
           bench_off_axis_process).
  discriminate.
Defined.

(* ===================================================================== *)
(** ** A whole run on the datasets of given_data.py *)
(* ===================================================================== *)

Section WholeRun.
Context {ext : Externals}.

Lemma list_of_length_1 {A : Type} (l : list A) :
  length l = 1%nat -> exists a, l = [a].
Proof. destruct l as [| a [| b l]]; try discriminate. now exists a. Qed.

Lemma list_of_length_2 {A : Type} (l : list A) :
  length l = 2%nat -> exists a b, l = [a; b].
Proof.
  destruct l as [| a [| b [| c l]]]; try discriminate. now exists a, b.
Qed.

Lemma list_of_length_3 {A : Type} (l : list A) :
  length l = 3%nat -> exists a b c, l = [a; b; c].
Proof.
  destruct l as [| a [| b [| c [| d l]]]]; try discriminate.
  now exists a, b, c.
Qed.

Lemma shipped_geometry_nonzero :
  4 * PI * source_distance given_data.detector_geometry ^ 2 <> 0.
Proof. simpl. pose proof PI_RGT_0. lra. Qed.

(** The efficiency lists of a dataset whose samples are followed by the
    background, given the entries of the samples. *)
Lemma efficiency_of_samples (samples bgs : list spectrum)
  (data : list GammaDetAnalyzer.isotope_entry) (CdTe : bool)
  (eff : GammaDetAnalyzer.eff_lists) :
  length data = length samples ->
  GammaDetAnalyzer.calculate_detector_efficiency (samples ++ bgs) data
    given_data.source_data CdTe given_data.detector_geometry = Ok eff ->
  snd eff
  = map fst (efficiency_rows
               (combine samples (map GammaDetAnalyzer.e_amplitudes data))
               given_data.source_data 0) /\
  length (fst (fst eff)) = length (snd eff).
Proof.
  intros Hlen. unfold GammaDetAnalyzer.calculate_detector_efficiency.
  destruct (Req_dec_T _ 0) as [Hzero | _];
    [now destruct (shipped_geometry_nonzero Hzero) |].
  rewrite combine_app_short by now rewrite length_map.
  rewrite efficiency_loop_rows. intros E. inversion E; subst. simpl.
  split; [reflexivity | now rewrite !length_map].
Qed.

(** X30.  A run on a dataset of [given_data.py].  [main] accepts the three
    detector names, in lower case, and nothing else.  When it returns,
    [isotope_data] holds the entries of the samples of that detector's
    table in order (the background closes every table, so the efficiency
    engine pairs each spectrum with its own entry), the calibration fits
    as many centroids as energies, and the efficiency engine returns one
    efficiency for each of these energies, in the same order. *)
Theorem main_on_shipped_datasets (detector : string)
  (data : list GammaDetAnalyzer.isotope_entry) (slope intercept : R)
  (out : list message) (efficiencies intrinsic energies_list : list R)
  (res : list R * list R * list R) :
  GammaDetMain.main detector
  = Ok (data, (slope, intercept), out,
        (efficiencies, intrinsic, energies_list), res) ->
  exists spectra,
    ((detector = "bgo"%string /\ spectra = given_data.BGO_spectra) \/
     (detector = "nai"%string /\ spectra = given_data.NaI_spectra) \/
     (detector = "cdte"%string /\ spectra = given_data.CdTe_spectra)) /\
    Forall2 entry_for (removelast spectra) data /\
    length (flat_map GammaDetAnalyzer.e_centroids data)
    = length (flat_map GammaDetAnalyzer.e_energies data) /\
    energies_list = flat_map GammaDetAnalyzer.e_energies data /\
    length efficiencies = length energies_list.
Proof.
  unfold GammaDetMain.main. intros E.
  apply bind_Ok_inv in E as ([spectra CdTe] & Hsel & E).
  apply bind_Ok_inv in E as (data0 & Hdata & E).
  apply bind_Ok_inv in E as ([[s0 i0] out0] & _ & E).
  apply bind_Ok_inv in E as (eff & Heff & E).
  apply bind_Ok_inv in E as (res0 & _ & E).
  inversion E; subst. clear E.
  apply main_process_entries in Hdata.
  exists spectra.
  destruct (String.eqb detector "bgo") eqn:Hb;
    [| destruct (String.eqb detector "nai") eqn:Hn;
       [| destruct (String.eqb detector "cdte") eqn:Hc;
          [| discriminate]]];
    inversion Hsel; subst spectra CdTe; clear Hsel.
  - apply String.eqb_eq in Hb. split; [now left |].
    change (filter is_sample given_data.BGO_spectra)
      with (removelast given_data.BGO_spectra) in Hdata.
    split; [exact Hdata |].
    change given_data.BGO_spectra
      with (removelast given_data.BGO_spectra
            ++ [last given_data.BGO_spectra Bench.bg]) in Heff.
    apply efficiency_of_samples in Heff;
      [| symmetry; apply (Forall2_length Hdata)].
    simpl in Heff. destruct Heff as [Hens Hlen]. rewrite Hlen, Hens.
    clear Hens Hlen. simpl in Hdata.
    inversion Hdata as [| ? e1 ? ? (p1 & L1 & ->) H1]; subst.
    inversion H1 as [| ? e2 ? ? (p2 & L2 & ->) H2]; subst.
    inversion H2 as [| ? e3 ? ? (p3 & L3 & ->) H3]; subst.
    inversion H3 as [| ? e4 ? ? (p4 & L4 & ->) H4]; subst.
    inversion H4; subst.
    apply list_of_length_1 in L1 as (? & ->).
    apply list_of_length_3 in L2 as (? & ? & ? & ->).
    apply list_of_length_1 in L3 as (? & ->).
    apply list_of_length_2 in L4 as (? & ? & ->).
    repeat split; reflexivity.
  - apply String.eqb_eq in Hn. split; [right; now left |].
    change (filter is_sample given_data.NaI_spectra)
      with (removelast given_data.NaI_spectra) in Hdata.
    split; [exact Hdata |].
    change given_data.NaI_spectra
      with (removelast given_data.NaI_spectra
            ++ [last given_data.NaI_spectra Bench.bg]) in Heff.
    apply efficiency_of_samples in Heff;
      [| symmetry; apply (Forall2_length Hdata)].
    simpl in Heff. destruct Heff as [Hens Hlen]. rewrite Hlen, Hens.
    clear Hens Hlen. simpl in Hdata.
    inversion Hdata as [| ? e1 ? ? (p1 & L1 & ->) H1]; subst.
    inversion H1 as [| ? e2 ? ? (p2 & L2 & ->) H2]; subst.
    inversion H2 as [| ? e3 ? ? (p3 & L3 & ->) H3]; subst.
    inversion H3 as [| ? e4 ? ? (p4 & L4 & ->) H4]; subst.
    inversion H4; subst.
    apply list_of_length_1 in L1 as (? & ->).
    apply list_of_length_3 in L2 as (? & ? & ? & ->).
    apply list_of_length_1 in L3 as (? & ->).
    apply list_of_length_2 in L4 as (? & ? & ->).
    repeat split; reflexivity.
  - apply String.eqb_eq in Hc. split; [right; now right |].
    change (filter is_sample given_data.CdTe_spectra)
      with (removelast given_data.CdTe_spectra) in Hdata.
    split; [exact Hdata |].
    change given_data.CdTe_spectra
      with (removelast given_data.CdTe_spectra
            ++ [last given_data.CdTe_spectra Bench.bg]) in Heff.
    apply efficiency_of_samples in Heff;
      [| symmetry; apply (Forall2_length Hdata)].
    simpl in Heff. destruct Heff as [Hens Hlen]. rewrite Hlen, Hens.
    clear Hens Hlen. simpl in Hdata.
    inversion Hdata as [| ? e1 ? ? (p1 & L1 & ->) H1]; subst.
    inversion H1 as [| ? e2 ? ? (p2 & L2 & ->) H2]; subst.
    inversion H2 as [| ? e3 ? ? (p3 & L3 & ->) H3]; subst.
    inversion H3; subst.
    apply list_of_length_1 in L1 as (? & ->).
    apply list_of_length_3 in L2 as (? & ? & ? & ->).
    apply list_of_length_1 in L3 as (? & ->).
    repeat split; reflexivity.
Qed.

End WholeRun.

Lemma flat_bench_dataset :
  GammaDetAnalyzer.main_process (ext := FlatBench.externals)
    given_data.CdTe_spectra true
  = Ok FlatBench.cdte_data.
Proof. reflexivity. Qed.

(** A run on the CdTe table with the flat bench: three entries, five
    calibration points, five efficiencies. *)
Lemma main_on_shipped_datasets_witness :
  exists (efficiencies energies_list : list R) spectra,
    ((("cdte" = "bgo")%string /\ spectra = given_data.BGO_spectra) \/
     (("cdte" = "nai")%string /\ spectra = given_data.NaI_spectra) \/
     (("cdte" = "cdte")%string /\ spectra = given_data.CdTe_spectra)) /\
    Forall2 entry_for (removelast spectra) FlatBench.cdte_data /\
    length (flat_map GammaDetAnalyzer.e_centroids FlatBench.cdte_data)
    = length (flat_map GammaDetAnalyzer.e_energies FlatBench.cdte_data) /\
    energies_list
    = flat_map GammaDetAnalyzer.e_energies FlatBench.cdte_data /\
    length efficiencies = length energies_list.
Proof.
  assert (Hrun : exists out eff res,
             GammaDetMain.main (ext := FlatBench.externals) "cdte"
             = Ok (FlatBench.cdte_data, (2, 1), out, eff, res)).
  { unfold GammaDetMain.main.
    change (String.eqb "cdte" "bgo") with false.
    change (String.eqb "cdte" "nai") with false.
    change (String.eqb "cdte" "cdte") with true.
    cbn [bind]. rewrite flat_bench_dataset. cbn [bind].
    unfold GammaDetAnalyzer.calibrate_detector,
      GammaDetAnalyzer.calculate_detector_efficiency.
    cbn [bind curve_fit FlatBench.externals Bench.solver sc_f unpack2
         np_sqrt np_diag np_diag_from map nth polyfit py_index nth_error].
    destruct (Req_dec_T _ 0) as [Hzero | _];
      [now destruct (shipped_geometry_nonzero Hzero) |].
    cbn [bind]. do 3 eexists. reflexivity. }
  destruct Hrun as (out & [[effs intr] ens] & res & Hrun).
  exists effs, ens.
  exact (main_on_shipped_datasets (ext := FlatBench.externals) "cdte"
           FlatBench.cdte_data 2 1 out effs intr ens res Hrun).
Defined.
